(** * Lowering of Presto wire plans to Velox plans: filter compiler,
      table-handle translation, plan rewrites and fragment assembly.

    Shallow embedding of
    [presto_cpp/main/types/PrestoToVeloxQueryPlan.cpp].  Definitions keep the
    names of the C++ functions they embed; the namespaces [protocol] (wire
    format), [common] (engine filters) and [core] (engine plan nodes) are
    modules. *)

From Stdlib Require Import ZArith Lia.
From stdpp Require Import base decidable option list strings pretty gmap.

Set Warnings "-register-all".
Local Open Scope string_scope.
Local Open Scope list_scope.

(** ** Failures

    The translation aborts by throwing.  Each family of throwing macros is one
    error kind: [VELOX_CHECK], [VELOX_CHECK_EQ], [VELOX_CHECK_NE],
    [VELOX_CHECK_NULL], [VELOX_CHECK_NOT_NULL], [VELOX_FAIL] and
    [VELOX_UNREACHABLE] raise the engine's runtime error (the spec's
    InvariantViolation); [VELOX_UNSUPPORTED] raises the user error with code
    UNSUPPORTED (the spec's UnsupportedConstruct); [VELOX_USER_CHECK*] raise
    the user error with code INVALID_ARGUMENT.  The remaining kinds are not
    exceptions of this translation unit: a failure inside a collaborator
    (expression converter, type parser, variant accessor), behaviour that C++
    leaves undefined (null dereference, index out of range), and a failed
    [assert]. *)
Inductive ErrorKind :=
| InvariantViolation
| UnsupportedConstruct
| UserError
| CollaboratorError
| UndefinedBehaviour
| AssertionFailure.

#[global] Instance ErrorKind_eq_dec : EqDecision ErrorKind.
Proof. solve_decision. Defined.

Inductive result (A : Type) :=
| Ok (a : A)
| Err (kind : ErrorKind) (message : string).
Arguments Ok {A} a.
Arguments Err {A} kind message.

Definition bind {A B} (r : result A) (k : A -> result B) : result B :=
  match r with
  | Ok a => k a
  | Err e m => Err e m
  end.

Notation "'let*' x ':=' e 'in' k" := (bind e (fun x => k))
  (at level 10, x pattern, e at level 100, k at level 200).

(** [VELOX_CHECK(cond, msg)] and its relatives. *)
Definition VELOX_CHECK (cond : bool) (msg : string) : result unit :=
  if cond then Ok tt else Err InvariantViolation msg.
Definition VELOX_USER_CHECK (cond : bool) (msg : string) : result unit :=
  if cond then Ok tt else Err UserError msg.
Definition VELOX_UNSUPPORTED {A} (msg : string) : result A :=
  Err UnsupportedConstruct msg.
Definition VELOX_FAIL {A} (msg : string) : result A :=
  Err InvariantViolation msg.
Definition VELOX_UNREACHABLE {A} : result A :=
  Err InvariantViolation "unreachable".
Definition assert (cond : bool) (msg : string) : result unit :=
  if cond then Ok tt else Err AssertionFailure msg.

Fixpoint mapM {A B} (f : A -> result B) (l : list A) : result (list B) :=
  match l with
  | [] => Ok []
  | x :: l' =>
      let* y := f x in
      let* ys := mapM f l' in
      Ok (y :: ys)
  end.

(** [v[i]] on a [std::vector]: out of range is undefined behaviour. *)
Definition at_index {A} (l : list A) (i : nat) : result A :=
  match l !! i with
  | Some x => Ok x
  | None => Err UndefinedBehaviour "index out of range"
  end.

(** [*p] on a shared pointer. *)
Definition deref {A} (p : option A) : result A :=
  match p with
  | Some x => Ok x
  | None => Err UndefinedBehaviour "null pointer dereference"
  end.

(** ** Machine integers *)

Definition int64_min : Z := (- 2 ^ 63)%Z.
Definition int64_max : Z := (2 ^ 63 - 1)%Z.
Definition int32_min : Z := (- 2 ^ 31)%Z.
Definition int32_max : Z := (2 ^ 31 - 1)%Z.

(** Two's-complement wrap-around of [int64_t] arithmetic.  C++ leaves signed
    overflow undefined; the model takes the result the target machines
    produce. *)
Definition wrap64 (z : Z) : Z := ((z + 2 ^ 63) mod 2 ^ 64 - 2 ^ 63)%Z.

Definition is_int64 (z : Z) : Prop := (int64_min <= z <= int64_max)%Z.

(** ** Engine types *)

Module TypeKind.
Inductive t :=
| BOOLEAN | TINYINT | SMALLINT | INTEGER | BIGINT | REAL | DOUBLE
| VARCHAR | VARBINARY | TIMESTAMP | DATE | HUGEINT
| ARRAY | MAP | ROW | UNKNOWN.
#[global] Instance TypeKind_eq_dec : EqDecision t.
Proof. solve_decision. Defined.
End TypeKind.

(** [velox::Type]: a kind, and for composite types the child names and
    types. *)
Inductive TypePtr :=
| mkType (kind : TypeKind.t) (names : list string) (children : list TypePtr).

Definition kind (t : TypePtr) : TypeKind.t :=
  match t with mkType k _ _ => k end.
Definition names (t : TypePtr) : list string :=
  match t with mkType _ ns _ => ns end.
Definition children (t : TypePtr) : list TypePtr :=
  match t with mkType _ _ cs => cs end.

Definition scalar (k : TypeKind.t) : TypePtr := mkType k [] [].
Definition BOOLEAN : TypePtr := scalar TypeKind.BOOLEAN.
Definition BIGINT : TypePtr := scalar TypeKind.BIGINT.
Definition ROW (names : list string) (types : list TypePtr) : TypePtr :=
  mkType TypeKind.ROW names types.
Definition isBigint (t : TypePtr) : bool :=
  bool_decide (kind t = TypeKind.BIGINT).

(** [velox::variant]: a typed constant.  Floating-point payloads are kept as
    their IEEE bit patterns; nothing in this unit computes with them. *)
Inductive variant :=
| variant_null (k : TypeKind.t)
| variant_bool (b : bool)
| variant_integer (k : TypeKind.t) (z : Z)
| variant_real (bits : Z)
| variant_double (bits : Z)
| variant_varchar (s : string)
| variant_date (days : Z)
| variant_other (k : TypeKind.t).

Definition isNull (v : variant) : bool :=
  match v with variant_null _ => true | _ => false end.

(** [variant::value<T>()]: the payload when the variant holds a [T];
    anything else is rejected by the variant itself. *)
Definition value_bool (v : variant) : result bool :=
  match v with
  | variant_bool b => Ok b
  | _ => Err CollaboratorError "variant: wrong kind"
  end.
Definition value_int64 (v : variant) : result Z :=
  match v with
  | variant_integer TypeKind.BIGINT z => Ok z
  | _ => Err CollaboratorError "variant: wrong kind"
  end.
Definition value_double (v : variant) : result Z :=
  match v with
  | variant_double d => Ok d
  | _ => Err CollaboratorError "variant: wrong kind"
  end.
Definition value_float (v : variant) : result Z :=
  match v with
  | variant_real d => Ok d
  | _ => Err CollaboratorError "variant: wrong kind"
  end.
Definition value_string (v : variant) : result string :=
  match v with
  | variant_varchar s => Ok s
  | _ => Err CollaboratorError "variant: wrong kind"
  end.
Definition value_date_days (v : variant) : result Z :=
  match v with
  | variant_date d => Ok d
  | _ => Err CollaboratorError "variant: wrong kind"
  end.

(** [VariantConverter::convert<TypeKind::BIGINT>]: integer variants widen to
    BIGINT.  The converter receives the domain's own type, so integer-typed
    domains carry integer variants; the engine's casts from other kinds are
    not part of this model. *)
Definition convert_BIGINT (v : variant) : result variant :=
  match v with
  | variant_integer _ z => Ok (variant_integer TypeKind.BIGINT z)
  | variant_null _ => Ok (variant_null TypeKind.BIGINT)
  | _ => Err CollaboratorError "variant: conversion not modelled"
  end.

(** [std::numeric_limits<double>] and [<float>] bounds, as bit patterns. *)
Definition double_lowest : Z := 0xFFEFFFFFFFFFFFFF%Z.
Definition double_max : Z := 0x7FEFFFFFFFFFFFFF%Z.
Definition float_lowest : Z := 0xFF7FFFFF%Z.
Definition float_max : Z := 0x7F7FFFFF%Z.

(** ** Wire format: value domains *)

Module protocol.

(** A serialized constant.  Only the expression converter can read it. *)
Inductive Block := mkBlock (encoded : string).

Module Bound.
Inductive t := BELOW | EXACTLY | ABOVE.
#[global] Instance Bound_eq_dec : EqDecision t.
Proof. solve_decision. Defined.
End Bound.

Record Marker := {
  Marker_type : string;
  valueBlock : option Block;
  bound : Bound.t }.

Record Range := { low : Marker; high : Marker }.

Inductive ValueSet :=
| SortedRangeSet (type : string) (ranges : list Range)
| EquatableValueSet (type : string) (entries : list Block)
| AllOrNoneValueSet (type : string) (all : bool)
| UnknownValueSet.

Record Domain := { values : ValueSet; nullAllowed : bool }.

(** *** Scalar expressions *)

Record VariableReferenceExpression := { name : string; type : string }.

#[global] Instance VariableReferenceExpression_eq_dec :
  EqDecision VariableReferenceExpression.
Proof. solve_decision. Defined.

Module FunctionKind.
Inductive t := SCALAR | AGGREGATE | WINDOW.
#[global] Instance FunctionKind_eq_dec : EqDecision t.
Proof. solve_decision. Defined.
End FunctionKind.

Record Signature := {
  Signature_name : string;
  Signature_kind : FunctionKind.t }.

Inductive FunctionHandle :=
| BuiltInFunctionHandle (signature : Signature)
| OtherFunctionHandle (tag : string).

Inductive RowExpression :=
| VariableReference (v : VariableReferenceExpression)
| CallExpression (displayName : string) (functionHandle : FunctionHandle)
    (returnType : string) (arguments : list RowExpression)
| ConstantExpression (valueBlock : Block) (type : string)
| OtherRowExpression (tag : string).

(** *** Table and column handles

    Fields the translation never reads are left out of the records. *)

Module ColumnType.
Inductive t := PARTITION_KEY | REGULAR | SYNTHESIZED | AGGREGATED.
End ColumnType.

Record HiveColumnHandle := {
  HiveColumnHandle_name : string;
  columnType : ColumnType.t;
  typeSignature : string;
  requiredSubfields : list string }.

Record TpchColumnHandle := { columnName : string }.

Inductive ColumnHandle :=
| HiveColumn (h : HiveColumnHandle)
| TpchColumn (h : TpchColumnHandle)
| OtherColumnHandle (tag : string).

(** [domainPredicate.domains] is a shared pointer to an ordered map from
    subfield path to domain. *)
Record HiveTableLayoutHandle := {
  pushdownFilterEnabled : bool;
  partitionColumns : list HiveColumnHandle;
  domains : option (list (string * Domain));
  remainingPredicate : RowExpression }.

Record TpchTableHandle := {
  TpchTableHandle_tableName : string;
  scaleFactor : Z }.

Inductive ConnectorTableLayoutHandle :=
| HiveLayout (h : HiveTableLayoutHandle)
| TpchLayout (table : TpchTableHandle)
| OtherLayout (tag : string).

Record HiveTableHandle := { schemaName : string; tableName : string }.

Inductive ConnectorTableHandle :=
| HiveTable (h : HiveTableHandle)
| OtherTable (tag : string).

Record TableHandle := {
  connectorId : string;
  connectorHandle : ConnectorTableHandle;
  connectorTableLayout : ConnectorTableLayoutHandle }.

(** *** Partitioning *)

Module SystemPartitioning.
Inductive t := SINGLE | FIXED | SOURCE | SCALED | COORDINATOR_ONLY | ARBITRARY.
#[global] Instance SystemPartitioning_eq_dec : EqDecision t.
Proof. solve_decision. Defined.
End SystemPartitioning.

Module SystemPartitionFunction.
Inductive t := SINGLE | HASH | ROUND_ROBIN | BROADCAST | UNKNOWN.
#[global] Instance SystemPartitionFunction_eq_dec : EqDecision t.
Proof. solve_decision. Defined.
End SystemPartitionFunction.

Module BucketFunctionType.
Inductive t := HIVE_COMPATIBLE | PRESTO_NATIVE.
#[global] Instance BucketFunctionType_eq_dec : EqDecision t.
Proof. solve_decision. Defined.
End BucketFunctionType.

Record SystemPartitioningHandle := {
  sys_partitioning : SystemPartitioning.t;
  sys_function : SystemPartitionFunction.t }.

Record HivePartitioningHandle := {
  bucketCount : Z;
  bucketFunctionType : BucketFunctionType.t }.

(** [partitioning.handle.connectorHandle], by dynamic type. *)
Inductive ConnectorPartitioningHandle :=
| SystemHandle (h : SystemPartitioningHandle)
| HiveHandle (h : HivePartitioningHandle)
| OtherPartitioningHandle (tag : string).

Record Partitioning := {
  handle : ConnectorPartitioningHandle;
  Partitioning_arguments : list RowExpression }.

Record PartitioningScheme := {
  partitioning : Partitioning;
  outputLayout : list VariableReferenceExpression;
  replicateNullsAndAny : bool;
  bucketToPartition : option (list Z) }.

(** *** Plan nodes *)

Module ExchangeNodeType.
Inductive t := GATHER | REPARTITION | REPLICATE.
#[global] Instance ExchangeNodeType_eq_dec : EqDecision t.
Proof. solve_decision. Defined.
End ExchangeNodeType.

Module ExchangeNodeScope.
Inductive t := LOCAL | REMOTE_STREAMING | REMOTE_MATERIALIZED.
#[global] Instance ExchangeNodeScope_eq_dec : EqDecision t.
Proof. solve_decision. Defined.
End ExchangeNodeScope.

Module SortOrder.
Inductive t :=
| ASC_NULLS_FIRST | ASC_NULLS_LAST | DESC_NULLS_FIRST | DESC_NULLS_LAST.
End SortOrder.

Record Ordering := {
  variable : VariableReferenceExpression;
  sortOrder : SortOrder.t }.

Record OrderingScheme := { orderBy : list Ordering }.

Module LimitNodeStep.
Inductive t := PARTIAL | FINAL.
#[global] Instance LimitNodeStep_eq_dec : EqDecision t.
Proof. solve_decision. Defined.
End LimitNodeStep.

(** [Assignments]: an ordered map from output variable to expression, as
    the list of its entries in iteration order. *)
Record Assignments := {
  assignments : list (VariableReferenceExpression * RowExpression) }.

Record ExchangeNode := {
  Exchange_id : string;
  Exchange_type : ExchangeNodeType.t;
  scope : ExchangeNodeScope.t;
  partitioningScheme : PartitioningScheme;
  inputs : list (list VariableReferenceExpression);
  orderingScheme : option OrderingScheme }.

Record FilterNode := { Filter_id : string; predicate : RowExpression }.

Record ProjectNode := { Project_id : string; Project_assignments : Assignments }.

Record LimitNode := {
  Limit_id : string; count : Z; step : LimitNodeStep.t }.

Record RowNumberNode := {
  RowNumber_id : string;
  partitionBy : list VariableReferenceExpression;
  rowNumberVariable : VariableReferenceExpression }.

Record SemiJoinNode := {
  SemiJoin_id : string;
  sourceJoinVariable : VariableReferenceExpression;
  filteringSourceJoinVariable : VariableReferenceExpression;
  semiJoinOutput : VariableReferenceExpression }.

Record AssignUniqueId := {
  AssignUniqueId_id : string;
  idVariable : VariableReferenceExpression }.

Record OutputNode := {
  Output_id : string;
  columnNames : list string;
  Output_outputVariables : list VariableReferenceExpression }.

(** The node classes whose lowering no property below inspects, and
    [UnknownNode] for the classes the dispatcher does not cast to.  Such a
    node keeps its class, its fields in serialized form, and its sources. *)
Module OtherNodeClass.
Inductive t :=
| ValuesNode | TableScanNode | AggregationNode | GroupIdNode
| DistinctLimitNode | JoinNode | MergeJoinNode | RemoteSourceNode | TopNNode
| SortNode | UnnestNode | TableWriterNode | WindowNode
| UnknownNode (_type : string).
End OtherNodeClass.

Record OtherNode := { nodeClass : OtherNodeClass.t; fields : string }.

(** [PlanNode] by dynamic type; each constructor carries the node's own
    fields and its child nodes. *)
Inductive PlanNode :=
| Exchange (node : ExchangeNode) (sources : list PlanNode)
| Filter (node : FilterNode) (source : PlanNode)
| Project (node : ProjectNode) (source : PlanNode)
| Limit (node : LimitNode) (source : PlanNode)
| RowNumber (node : RowNumberNode) (source : PlanNode)
| SemiJoin (node : SemiJoinNode) (source filteringSource : PlanNode)
| AssignUniqueIdNode (node : AssignUniqueId) (source : PlanNode)
| EnforceSingleRow (id : string) (source : PlanNode)
| Output (node : OutputNode) (source : PlanNode)
| Other (node : OtherNode) (sources : list PlanNode).

(** *** Fragments *)

Module StageExecutionStrategy.
Inductive t :=
| UNGROUPED_EXECUTION
| FIXED_LIFESPAN_SCHEDULE_GROUPED_EXECUTION
| DYNAMIC_LIFESPAN_SCHEDULE_GROUPED_EXECUTION
| RECOVERABLE_GROUPED_EXECUTION.
End StageExecutionStrategy.

Record StageExecutionDescriptor := {
  stageExecutionStrategy : StageExecutionStrategy.t;
  groupedExecutionScanNodes : list string;
  totalLifespans : Z }.

Record PlanFragment := {
  root : PlanNode;
  PlanFragment_partitioningScheme : PartitioningScheme;
  stageExecutionDescriptor : StageExecutionDescriptor }.

End protocol.

(** ** Engine filters *)

Module common.

Record BigintRange := {
  lower : Z; upper : Z; BigintRange_nullAllowed : bool }.

Definition isSingleValue (r : BigintRange) : bool :=
  bool_decide (upper r = lower r).

(** [DoubleRange], [FloatRange] (bounds as bit patterns) and
    [BytesRange]. *)
Record FloatingPointRange := {
  fp_lower : Z; fp_lowerUnbounded : bool; fp_lowerExclusive : bool;
  fp_upper : Z; fp_upperUnbounded : bool; fp_upperExclusive : bool;
  fp_nullAllowed : bool }.

Record BytesRange := {
  b_lower : string; isLowerUnbounded : bool; lowerExclusive : bool;
  b_upper : string; isUpperUnbounded : bool; upperExclusive : bool;
  b_nullAllowed : bool }.

Definition BytesRange_isSingleValue (r : BytesRange) : bool :=
  negb (lowerExclusive r) && negb (upperExclusive r) &&
  negb (isLowerUnbounded r) && negb (isUpperUnbounded r) &&
  bool_decide (b_lower r = b_upper r).

Module FilterKind.
Inductive t :=
| kAlwaysFalse | kIsNull | kIsNotNull | kBoolValue | kBigintRange
| kNegatedBigintRange | kBigintValues | kNegatedBigintValues
| kBigintMultiRange | kDoubleRange | kFloatRange | kBytesRange
| kNegatedBytesRange | kBytesValues | kNegatedBytesValues | kMultiRange.
#[global] Instance FilterKind_eq_dec : EqDecision t.
Proof. solve_decision. Defined.
End FilterKind.

(** The filters this unit constructs.  [BigintValues] and
    [NegatedBigintValues] stand for the results of the engine's factories
    [createBigintValues] and [createNegatedBigintValues]. *)
Inductive Filter :=
| AlwaysFalse
| IsNull
| IsNotNull
| BoolValue (value : bool) (nullAllowed : bool)
| BigintRangeFilter (r : BigintRange)
| NegatedBigintRange (lower upper : Z) (nullAllowed : bool)
| BigintValues (values : list Z) (nullAllowed : bool)
| NegatedBigintValues (values : list Z) (nullAllowed : bool)
| BigintMultiRange (ranges : list BigintRange) (nullAllowed : bool)
| DoubleRange (r : FloatingPointRange)
| FloatRange (r : FloatingPointRange)
| BytesRangeFilter (r : BytesRange)
| NegatedBytesRange (lower : string) (lowerUnbounded lowerExclusive : bool)
    (upper : string) (upperUnbounded upperExclusive : bool)
    (nullAllowed : bool)
| BytesValues (values : list string) (nullAllowed : bool)
| NegatedBytesValues (values : list string) (nullAllowed : bool)
| MultiRange (filters : list Filter) (nullAllowed : bool)
    (nanAllowed : bool).

Definition Filter_kind (f : Filter) : FilterKind.t :=
  match f with
  | AlwaysFalse => FilterKind.kAlwaysFalse
  | IsNull => FilterKind.kIsNull
  | IsNotNull => FilterKind.kIsNotNull
  | BoolValue _ _ => FilterKind.kBoolValue
  | BigintRangeFilter _ => FilterKind.kBigintRange
  | NegatedBigintRange _ _ _ => FilterKind.kNegatedBigintRange
  | BigintValues _ _ => FilterKind.kBigintValues
  | NegatedBigintValues _ _ => FilterKind.kNegatedBigintValues
  | BigintMultiRange _ _ => FilterKind.kBigintMultiRange
  | DoubleRange _ => FilterKind.kDoubleRange
  | FloatRange _ => FilterKind.kFloatRange
  | BytesRangeFilter _ => FilterKind.kBytesRange
  | NegatedBytesRange _ _ _ _ _ _ _ => FilterKind.kNegatedBytesRange
  | BytesValues _ _ => FilterKind.kBytesValues
  | NegatedBytesValues _ _ => FilterKind.kNegatedBytesValues
  | MultiRange _ _ _ => FilterKind.kMultiRange
  end.

Definition inRange (r : BigintRange) (v : Z) : bool :=
  bool_decide (lower r <= v)%Z && bool_decide (v <= upper r)%Z.

Definition memZ (v : Z) (vs : list Z) : bool :=
  existsb (fun x => bool_decide (x = v)) vs.

(** Modelled from the spec: what the engine's filters accept (section 3,
    Filter: value set, bounded range, negated range, negated value set,
    is-null, is-not-null, always-false, multi-range).  [testInt64] is the
    verdict on a non-null integer, [None] for filters that are not integer
    filters; [testNull] is the verdict on null. *)
Definition testInt64 (f : Filter) (v : Z) : option bool :=
  match f with
  | AlwaysFalse => Some false
  | IsNull => Some false
  | IsNotNull => Some true
  | BigintRangeFilter r => Some (inRange r v)
  | NegatedBigintRange lo hi _ =>
      Some (negb (bool_decide (lo <= v)%Z && bool_decide (v <= hi)%Z))
  | BigintValues vs _ => Some (memZ v vs)
  | NegatedBigintValues vs _ => Some (negb (memZ v vs))
  | BigintMultiRange rs _ => Some (existsb (fun r => inRange r v) rs)
  | _ => None
  end.

Definition testNull (f : Filter) : bool :=
  match f with
  | AlwaysFalse => false
  | IsNull => true
  | IsNotNull => false
  | BoolValue _ n => n
  | BigintRangeFilter r => BigintRange_nullAllowed r
  | NegatedBigintRange _ _ n => n
  | BigintValues _ n => n
  | NegatedBigintValues _ n => n
  | BigintMultiRange _ n => n
  | DoubleRange r => fp_nullAllowed r
  | FloatRange r => fp_nullAllowed r
  | BytesRangeFilter r => b_nullAllowed r
  | NegatedBytesRange _ _ _ _ _ _ n => n
  | BytesValues _ n => n
  | NegatedBytesValues _ n => n
  | MultiRange _ n _ => n
  end.

End common.

(** ** Engine expressions *)

Module core.

Record FieldAccessTypedExpr := { fa_type : TypePtr; fa_name : string }.

(** [core::ITypedExpr] and its subclasses.  A constant backed by a value
    vector has no scalar payload; it appears here with the variant
    [variant_other]. *)
Inductive TypedExpr :=
| FieldAccess (f : FieldAccessTypedExpr)
| ConstantTypedExpr (type : TypePtr) (value : variant)
| CallTypedExpr (type : TypePtr) (inputs : list TypedExpr) (name : string)
| OtherTypedExpr (type : TypePtr).

Definition TypedExpr_type (e : TypedExpr) : TypePtr :=
  match e with
  | FieldAccess f => fa_type f
  | ConstantTypedExpr t _ => t
  | CallTypedExpr t _ _ => t
  | OtherTypedExpr t => t
  end.

(** *** Plan nodes *)

Module JoinType.
Inductive t :=
| kInner | kLeft | kRight | kFull
| kLeftSemiFilter | kLeftSemiProject | kRightSemiFilter | kRightSemiProject
| kAnti.
#[global] Instance JoinType_eq_dec : EqDecision t.
Proof. solve_decision. Defined.
End JoinType.

Record SortOrder := { ascending : bool; nullsFirst : bool }.

Module LocalPartitionNodeType.
Inductive t := kGather | kRepartition.
#[global] Instance LocalPartitionNodeType_eq_dec : EqDecision t.
Proof. solve_decision. Defined.
End LocalPartitionNodeType.

(** A one-row vector holding a constant partition key; [None] is null. *)
Record VectorPtr := { vector_type : TypePtr; cell : option variant }.

Inductive PartitionFunctionSpec :=
| GatherPartitionFunctionSpec
| RoundRobinPartitionFunctionSpec
| HashPartitionFunctionSpec (inputType : TypePtr) (keyChannels : list Z)
    (constValues : list VectorPtr)
| HivePartitionFunctionSpec (numBuckets : Z) (bucketToPartition : list Z)
    (channels : list Z) (constValues : list VectorPtr).

Inductive PlanNode :=
| ProjectNode (id : string) (names : list string)
    (projections : list TypedExpr) (source : PlanNode)
| FilterNode (id : string) (filter : TypedExpr) (source : PlanNode)
| LimitNode (id : string) (offset count : Z) (isPartial : bool)
    (source : PlanNode)
| HashJoinNode (id : string) (joinType : JoinType.t) (nullAware : bool)
    (leftKeys rightKeys : list FieldAccessTypedExpr)
    (filter : option TypedExpr) (left right : PlanNode)
    (outputType : TypePtr)
| LocalPartitionNode (id : string) (type : LocalPartitionNodeType.t)
    (partitionFunctionSpec : PartitionFunctionSpec)
    (sources : list PlanNode)
| LocalMergeNode (id : string) (sortingKeys : list FieldAccessTypedExpr)
    (sortingOrders : list SortOrder) (sources : list PlanNode)
| AssignUniqueIdNode (id : string) (idName : string) (taskUniqueId : Z)
    (source : PlanNode)
| EnforceSingleRowNode (id : string) (source : PlanNode)
| PartitionedOutputNode (id : string) (keys : list TypedExpr)
    (numPartitions : Z) (broadcast replicateNullsAndAny : bool)
    (partitionFunctionSpec : PartitionFunctionSpec) (outputType : TypePtr)
    (source : PlanNode)
| OtherPlanNode (description : string) (outputType : TypePtr)
    (sources : list PlanNode).

(** [PlanNode::outputType()], as each node class defines it: a projection
    emits its names with the types of its expressions; filter, limit and
    enforce-single-row pass their input through; a join and a partitioned
    output carry their output type; a local exchange or merge has the type of
    its first source; assign-unique-id appends a BIGINT column. *)
Fixpoint outputType (node : PlanNode) : TypePtr :=
  match node with
  | ProjectNode _ names projections _ =>
      ROW names (map TypedExpr_type projections)
  | FilterNode _ _ source => outputType source
  | LimitNode _ _ _ _ source => outputType source
  | HashJoinNode _ _ _ _ _ _ _ _ outputType => outputType
  | LocalPartitionNode _ _ _ sources
  | LocalMergeNode _ _ _ sources =>
      match sources with
      | first :: _ => outputType first
      | [] => ROW [] []
      end
  | AssignUniqueIdNode _ idName _ source =>
      ROW (names (outputType source) ++ [idName])
          (children (outputType source) ++ [BIGINT])
  | EnforceSingleRowNode _ source => outputType source
  | PartitionedOutputNode _ _ _ _ _ _ outputType _ => outputType
  | OtherPlanNode _ outputType _ => outputType
  end.

(** The factories [PartitionedOutputNode::single],
    [PartitionedOutputNode::broadcast] and [LocalPartitionNode::gather]. *)
Definition PartitionedOutputNode_single (id : string) (outputType : TypePtr)
    (source : PlanNode) : PlanNode :=
  PartitionedOutputNode id [] 1 false false GatherPartitionFunctionSpec
    outputType source.

Definition PartitionedOutputNode_broadcast (id : string) (numPartitions : Z)
    (outputType : TypePtr) (source : PlanNode) : PlanNode :=
  PartitionedOutputNode id [] numPartitions true false
    GatherPartitionFunctionSpec outputType source.

Definition LocalPartitionNode_gather (id : string) (sources : list PlanNode)
  : PlanNode :=
  LocalPartitionNode id LocalPartitionNodeType.kGather
    GatherPartitionFunctionSpec sources.

Module ExecutionStrategy.
Inductive t := kUngrouped | kGrouped.
#[global] Instance ExecutionStrategy_eq_dec : EqDecision t.
Proof. solve_decision. Defined.
End ExecutionStrategy.

Record PlanFragment := {
  planNode : PlanNode;
  executionStrategy : ExecutionStrategy.t;
  numSplitGroups : Z;
  groupedExecutionLeafNodeIds : gset string }.

End core.

(** ** Engine connector handles *)

Module connector.

Module HiveColumnType.
Inductive t := kPartitionKey | kRegular | kSynthesized.
End HiveColumnType.

Inductive ColumnHandle :=
| HiveColumnHandle (name : string) (columnType : HiveColumnType.t)
    (dataType : TypePtr) (requiredSubfields : list string)
| TpchColumnHandle (columnName : string).

Module tpch.
Inductive Table :=
| TBL_PART | TBL_SUPPLIER | TBL_PARTSUPP | TBL_CUSTOMER | TBL_ORDERS
| TBL_LINEITEM | TBL_NATION | TBL_REGION.
End tpch.

Inductive ConnectorTableHandle :=
| HiveTableHandle (connectorId tableName : string)
    (filterPushdownEnabled : bool)
    (subfieldFilters : gmap string common.Filter)
    (remainingFilter : option core.TypedExpr)
| TpchTableHandle (connectorId : string) (table : tpch.Table)
    (scaleFactor : Z).

End connector.

(** ** Collaborators

    The expression converter is consumed, not implemented, by this unit:
    [toVeloxExpr] on an expression, its overload on a variable reference
    (which yields a field access), and [getConstantValue]. *)
Record VeloxExprConverter := {
  toVeloxExpr : protocol.RowExpression -> result core.TypedExpr;
  toVeloxExpr_variable :
    protocol.VariableReferenceExpression -> result core.FieldAccessTypedExpr;
  getConstantValue : TypePtr -> protocol.Block -> result variant }.

Import protocol.

(** ** Filter compiler: decoding of range bounds *)

Definition toInt64 (block : option Block) (exprConverter : VeloxExprConverter)
    (type : TypePtr) : result Z :=
  let* b := deref block in
  let* value := getConstantValue exprConverter type b in
  let* converted := convert_BIGINT value in
  value_int64 converted.

Definition dateToInt64 (block : option Block)
    (exprConverter : VeloxExprConverter) (type : TypePtr) : result Z :=
  let* b := deref block in
  let* value := getConstantValue exprConverter type b in
  value_date_days value.

Definition toDouble (block : option Block)
    (exprConverter : VeloxExprConverter) (type : TypePtr) : result Z :=
  let* b := deref block in
  let* v := getConstantValue exprConverter type b in
  value_double v.

Definition toFloat (block : option Block)
    (exprConverter : VeloxExprConverter) (type : TypePtr) : result Z :=
  let* b := deref block in
  let* v := getConstantValue exprConverter type b in
  value_float v.

Definition toString (block : option Block)
    (exprConverter : VeloxExprConverter) (type : TypePtr) : result string :=
  let* b := deref block in
  let* v := getConstantValue exprConverter type b in
  value_string v.

Definition toBoolean (block : option Block)
    (exprConverter : VeloxExprConverter) (type : TypePtr) : result bool :=
  let* b := deref block in
  let* v := getConstantValue exprConverter type b in
  value_bool v.

Definition isNullptr {A} (p : option A) : bool :=
  match p with None => true | Some _ => false end.

Definition bigintRangeToFilter (range : Range) (nullAllowed : bool)
    (exprConverter : VeloxExprConverter) (type : TypePtr)
  : result common.BigintRange :=
  let lowUnbounded := isNullptr (valueBlock (low range)) in
  let* low0 :=
    if lowUnbounded then Ok int64_min
    else toInt64 (valueBlock (low range)) exprConverter type in
  let low1 :=
    if negb lowUnbounded && bool_decide (bound (low range) = Bound.ABOVE)
    then wrap64 (low0 + 1) else low0 in
  let highUnbounded := isNullptr (valueBlock (high range)) in
  let* high0 :=
    if highUnbounded then Ok int64_max
    else toInt64 (valueBlock (high range)) exprConverter type in
  let high1 :=
    if negb highUnbounded && bool_decide (bound (high range) = Bound.BELOW)
    then wrap64 (high0 - 1) else high0 in
  Ok (common.Build_BigintRange low1 high1 nullAllowed).

Definition boolRangeToFilter (range : Range) (nullAllowed : bool)
    (exprConverter : VeloxExprConverter) (type : TypePtr)
  : result common.Filter :=
  let lowExclusive := bool_decide (bound (low range) = Bound.ABOVE) in
  let lowUnbounded := isNullptr (valueBlock (low range)) && lowExclusive in
  let highExclusive := bool_decide (bound (high range) = Bound.BELOW) in
  let highUnbounded := isNullptr (valueBlock (high range)) && highExclusive in
  if negb lowUnbounded && negb highUnbounded then
    let* lowValue := toBoolean (valueBlock (low range)) exprConverter type in
    let* highValue := toBoolean (valueBlock (high range)) exprConverter type in
    let* _ := VELOX_CHECK (bool_decide (lowValue = highValue))
      "Boolean range should not be [FALSE, TRUE] after coordinator optimization." in
    Ok (common.BoolValue lowValue nullAllowed)
  else
  let* _ := VELOX_CHECK (negb (bool_decide (lowUnbounded = highUnbounded)))
    "Passed in boolean range can only have one side bounded range scenario" in
  if negb lowUnbounded then
    let* _ := VELOX_CHECK highUnbounded
      "Boolean range should not be double side bounded after coordinator optimization." in
    let* lowValue := toBoolean (valueBlock (low range)) exprConverter type in
    if lowExclusive && lowValue then
      if nullAllowed then Ok common.IsNull else Ok common.AlwaysFalse
    else
    let* _ := VELOX_CHECK (negb (negb lowExclusive && negb lowValue))
      "Case [FALSE, +infinity) should not be expected" in
    Ok (common.BoolValue true nullAllowed)
  else
  if negb highUnbounded then
    let* _ := VELOX_CHECK lowUnbounded
      "Boolean range should not be double side bounded after coordinator optimization." in
    let* highValue := toBoolean (valueBlock (high range)) exprConverter type in
    if highExclusive && negb highValue then
      if nullAllowed then Ok common.IsNull else Ok common.AlwaysFalse
    else
    let* _ := VELOX_CHECK (negb (negb highExclusive && highValue))
      "Case (-infinity, TRUE] should not be expected" in
    Ok (common.BoolValue false nullAllowed)
  else VELOX_UNREACHABLE.

Definition floatingPointRangeToFilter
    (decode : option Block -> VeloxExprConverter -> TypePtr -> result Z)
    (lowest max : Z) (range : Range) (nullAllowed : bool)
    (exprConverter : VeloxExprConverter) (type : TypePtr)
  : result common.FloatingPointRange :=
  let lowExclusive := bool_decide (bound (low range) = Bound.ABOVE) in
  let lowUnbounded := isNullptr (valueBlock (low range)) && lowExclusive in
  let* low :=
    if lowUnbounded then Ok lowest
    else decode (valueBlock (low range)) exprConverter type in
  let highExclusive := bool_decide (bound (high range) = Bound.BELOW) in
  let highUnbounded := isNullptr (valueBlock (high range)) && highExclusive in
  let* high :=
    if highUnbounded then Ok max
    else decode (valueBlock (high range)) exprConverter type in
  Ok (common.Build_FloatingPointRange
        low lowUnbounded lowExclusive high highUnbounded highExclusive
        nullAllowed).

Definition doubleRangeToFilter :=
  floatingPointRangeToFilter toDouble double_lowest double_max.

Definition floatRangeToFilter :=
  floatingPointRangeToFilter toFloat float_lowest float_max.

Definition varcharRangeToFilter (range : Range) (nullAllowed : bool)
    (exprConverter : VeloxExprConverter) (type : TypePtr)
  : result common.BytesRange :=
  let lowExclusive := bool_decide (bound (low range) = Bound.ABOVE) in
  let lowUnbounded := isNullptr (valueBlock (low range)) && lowExclusive in
  let* low :=
    if lowUnbounded then Ok ""
    else toString (valueBlock (low range)) exprConverter type in
  let highExclusive := bool_decide (bound (high range) = Bound.BELOW) in
  let highUnbounded := isNullptr (valueBlock (high range)) && highExclusive in
  let* high :=
    if highUnbounded then Ok ""
    else toString (valueBlock (high range)) exprConverter type in
  Ok (common.Build_BytesRange
        low lowUnbounded lowExclusive high highUnbounded highExclusive
        nullAllowed).

Definition dateRangeToFilter (range : Range) (nullAllowed : bool)
    (exprConverter : VeloxExprConverter) (type : TypePtr)
  : result common.BigintRange :=
  let lowUnbounded := isNullptr (valueBlock (low range)) in
  let* low0 :=
    if lowUnbounded then Ok int32_min
    else dateToInt64 (valueBlock (low range)) exprConverter type in
  let low1 :=
    if negb lowUnbounded && bool_decide (bound (low range) = Bound.ABOVE)
    then wrap64 (low0 + 1) else low0 in
  let highUnbounded := isNullptr (valueBlock (high range)) in
  let* high0 :=
    if highUnbounded then Ok int32_max
    else dateToInt64 (valueBlock (high range)) exprConverter type in
  let high1 :=
    if negb highUnbounded && bool_decide (bound (high range) = Bound.BELOW)
    then wrap64 (high0 - 1) else high0 in
  Ok (common.Build_BigintRange low1 high1 nullAllowed).

(** ** Filter compiler: combining several ranges *)

(** The loop of [combineIntegerRanges] over [bigintFilters[1..]]:
    [previous] is [bigintFilters[i - 1]]; the result is
    [(allNegatedValues, foundMaximum, rejectedValues)]. *)
Fixpoint rejectedValuesLoop (previous : common.BigintRange)
    (rest : list common.BigintRange) (rejectedValues : list Z)
  : bool * bool * list Z :=
  match rest with
  | [] => (true, false, rejectedValues)
  | current :: rest' =>
      if negb (bool_decide
                 (common.lower current = wrap64 (common.upper previous + 2)))
      then (false, false, rejectedValues)
      else if bool_decide (common.upper current = int64_max)
      then (true, true, rejectedValues)
      else
        let rejectedValues' :=
          rejectedValues ++ [wrap64 (common.upper current + 1)] in
        if bool_decide (common.upper current = (int64_max - 1)%Z)
        then (true, true, rejectedValues')
        else rejectedValuesLoop current rest' rejectedValues'
  end.

Definition combineIntegerRanges (bigintFilters : list common.BigintRange)
    (nullAllowed : bool) : result common.Filter :=
  let allSingleValue := forallb common.isSingleValue bigintFilters in
  if allSingleValue then
    Ok (common.BigintValues (map common.lower bigintFilters) nullAllowed)
  else
  if bool_decide (length bigintFilters = 2%nat) &&
     bool_decide (common.lower <$> bigintFilters !! 0%nat = Some int64_min) &&
     bool_decide (common.upper <$> bigintFilters !! 1%nat = Some int64_max)
  then
    let* first := at_index bigintFilters 0 in
    let* second := at_index bigintFilters 1 in
    let* _ := assert
      (bool_decide (wrap64 (common.upper first + 1)
                    <= wrap64 (common.lower second - 1))%Z)
      "bigintFilters[0]->upper() + 1 <= bigintFilters[1]->lower() - 1" in
    Ok (common.NegatedBigintRange
          (wrap64 (common.upper first + 1))
          (wrap64 (common.lower second - 1))
          nullAllowed)
  else
  let* _ := assert (bool_decide (1 < length bigintFilters)%nat)
    "bigintFilters.size() > 1" in
  let* first := at_index bigintFilters 0 in
  let rejectedValues :=
    if bool_decide (common.lower first = int64_min + 1)%Z
    then [int64_min] else [] in
  if bool_decide (common.lower first > int64_min + 1)%Z then
    Ok (common.BigintMultiRange bigintFilters nullAllowed)
  else
  let rejectedValues := rejectedValues ++ [wrap64 (common.upper first + 1)] in
  let '(allNegatedValues, foundMaximum, rejectedValues) :=
    rejectedValuesLoop first (tail bigintFilters) rejectedValues in
  if allNegatedValues && foundMaximum then
    Ok (common.NegatedBigintValues rejectedValues nullAllowed)
  else Ok (common.BigintMultiRange bigintFilters nullAllowed).

(** One boundary of [combineBytesRanges]: a value seen for the second time
    is a rejected value, a value seen for the first time waits in
    [unmatched]. *)
Definition matchBoundary (value : string)
    (state : gset string * list string) : gset string * list string :=
  let '(unmatched, rejectedValues) := state in
  if decide (value ∈ unmatched)
  then (unmatched ∖ {[value]}, rejectedValues ++ [value])
  else (unmatched ∪ {[value]}, rejectedValues).

Fixpoint bytesBoundariesLoop (bytesFilters : list common.BytesRange)
    (lowerUnbounded upperUnbounded : nat)
    (state : gset string * list string)
  : nat * nat * (gset string * list string) :=
  match bytesFilters with
  | [] => (lowerUnbounded, upperUnbounded, state)
  | f :: rest =>
      let '(lowerUnbounded, state) :=
        if common.isLowerUnbounded f then (S lowerUnbounded, state)
        else (lowerUnbounded, matchBoundary (common.b_lower f) state) in
      let '(upperUnbounded, state) :=
        if common.isUpperUnbounded f then (S upperUnbounded, state)
        else (upperUnbounded, matchBoundary (common.b_upper f) state) in
      bytesBoundariesLoop rest lowerUnbounded upperUnbounded state
  end.

Definition combineBytesRanges (bytesFilters : list common.BytesRange)
    (nullAllowed : bool) : result common.Filter :=
  let allSingleValue :=
    forallb common.BytesRange_isSingleValue bytesFilters in
  if allSingleValue then
    Ok (common.BytesValues (map common.b_lower bytesFilters) nullAllowed)
  else
  let allExclusive :=
    forallb (fun range =>
               common.lowerExclusive range && common.upperExclusive range)
            bytesFilters in
  let '(lowerUnbounded, upperUnbounded, (unmatched, rejectedValues)) :=
    if allExclusive then bytesBoundariesLoop bytesFilters 0 0 (∅, [])
    else (0%nat, 0%nat, (∅, [])) in
  if allExclusive && bool_decide (lowerUnbounded = 1%nat) &&
     bool_decide (upperUnbounded = 1%nat) &&
     bool_decide (size unmatched = 0%nat)
  then Ok (common.NegatedBytesValues rejectedValues nullAllowed)
  else
  if bool_decide (length bytesFilters = 2%nat) &&
     bool_decide (common.isLowerUnbounded <$> bytesFilters !! 0%nat
                  = Some true) &&
     bool_decide (common.isUpperUnbounded <$> bytesFilters !! 1%nat
                  = Some true)
  then
    let* first := at_index bytesFilters 0 in
    let* second := at_index bytesFilters 1 in
    Ok (common.NegatedBytesRange
          (common.b_upper first) false (negb (common.upperExclusive first))
          (common.b_lower second) false (negb (common.lowerExclusive second))
          nullAllowed)
  else
  let bytesGeneric := map common.BytesRangeFilter bytesFilters in
  Ok (common.MultiRange bytesGeneric nullAllowed false).

(** [toFilter(type, range, nullAllowed, exprConverter)]. *)
Definition toFilter_range (type : TypePtr) (range : Range)
    (nullAllowed : bool) (exprConverter : VeloxExprConverter)
  : result common.Filter :=
  match kind type with
  | TypeKind.TINYINT | TypeKind.SMALLINT | TypeKind.INTEGER
  | TypeKind.BIGINT =>
      let* r := bigintRangeToFilter range nullAllowed exprConverter type in
      Ok (common.BigintRangeFilter r)
  | TypeKind.DOUBLE =>
      let* r := doubleRangeToFilter range nullAllowed exprConverter type in
      Ok (common.DoubleRange r)
  | TypeKind.VARCHAR =>
      let* r := varcharRangeToFilter range nullAllowed exprConverter type in
      Ok (common.BytesRangeFilter r)
  | TypeKind.BOOLEAN =>
      boolRangeToFilter range nullAllowed exprConverter type
  | TypeKind.REAL =>
      let* r := floatRangeToFilter range nullAllowed exprConverter type in
      Ok (common.FloatRange r)
  | TypeKind.DATE =>
      let* r := dateRangeToFilter range nullAllowed exprConverter type in
      Ok (common.BigintRangeFilter r)
  | _ => VELOX_UNSUPPORTED "Unsupported range type: {}"
  end.

(** The loop of the boolean multi-range branch of [toFilter]: [boolFilter]
    is the one filter that is neither always-false nor is-null. *)
Fixpoint boolRangesLoop (ranges : list Range) (nullAllowed : bool)
    (exprConverter : VeloxExprConverter) (type : TypePtr)
    (boolFilter : option common.Filter) : result (option common.Filter) :=
  match ranges with
  | [] => Ok boolFilter
  | range :: rest =>
      let* filter := boolRangeToFilter range nullAllowed exprConverter type in
      if bool_decide (common.Filter_kind filter
                      = common.FilterKind.kAlwaysFalse) ||
         bool_decide (common.Filter_kind filter = common.FilterKind.kIsNull)
      then boolRangesLoop rest nullAllowed exprConverter type boolFilter
      else
        let* _ := VELOX_CHECK (isNullptr boolFilter) "boolFilter is not null" in
        boolRangesLoop rest nullAllowed exprConverter type (Some filter)
  end.

Section Translation.

(** [TypeSignatureTypeConverter::parse], the type-signature parser. *)
Variable parseTypeSignature : string -> result TypePtr.

Definition stringToType (typeString : string) : result TypePtr :=
  parseTypeSignature typeString.

(** [toFilter(domain, exprConverter)]. *)
Definition toFilter (domain : Domain) (exprConverter : VeloxExprConverter)
  : result common.Filter :=
  let nullAllowed := nullAllowed domain in
  match values domain with
  | SortedRangeSet sortedRangeSet_type ranges =>
      let* type := stringToType sortedRangeSet_type in
      match ranges with
      | [] =>
          let* _ := VELOX_CHECK nullAllowed "Unexpected always-false filter" in
          Ok common.IsNull
      | [range] =>
          let lowExclusive := bool_decide (bound (low range) = Bound.ABOVE) in
          let lowUnbounded :=
            isNullptr (valueBlock (low range)) && lowExclusive in
          let highExclusive :=
            bool_decide (bound (high range) = Bound.BELOW) in
          let highUnbounded :=
            isNullptr (valueBlock (high range)) && highExclusive in
          if lowUnbounded && highUnbounded && negb nullAllowed
          then Ok common.IsNotNull
          else toFilter_range type range nullAllowed exprConverter
      | _ =>
          if bool_decide (kind type = TypeKind.BIGINT) ||
             bool_decide (kind type = TypeKind.INTEGER) ||
             bool_decide (kind type = TypeKind.SMALLINT) ||
             bool_decide (kind type = TypeKind.TINYINT)
          then
            let* bigintFilters :=
              mapM (fun range =>
                      bigintRangeToFilter range nullAllowed exprConverter type)
                   ranges in
            combineIntegerRanges bigintFilters nullAllowed
          else if bool_decide (kind type = TypeKind.VARCHAR) then
            let* bytesFilters :=
              mapM (fun range =>
                      varcharRangeToFilter range nullAllowed exprConverter type)
                   ranges in
            combineBytesRanges bytesFilters nullAllowed
          else if bool_decide (kind type = TypeKind.BOOLEAN) then
            let* _ := VELOX_CHECK (bool_decide (length ranges = 2%nat))
              "Multi bool ranges size can only be 2." in
            let* boolFilter :=
              boolRangesLoop ranges nullAllowed exprConverter type None in
            match boolFilter with
            | Some filter => Ok filter
            | None => Err InvariantViolation "boolFilter is null"
            end
          else
            let* filters :=
              mapM (fun range =>
                      toFilter_range type range nullAllowed exprConverter)
                   ranges in
            Ok (common.MultiRange filters nullAllowed false)
      end
  | EquatableValueSet _ entries =>
      match entries with
      | [] => if nullAllowed then Ok common.IsNull else Ok common.IsNotNull
      | _ :: _ =>
          VELOX_UNSUPPORTED
            "EquatableValueSet (with non-empty entries) to Velox filter conversion is not supported yet."
      end
  | AllOrNoneValueSet _ _ =>
      VELOX_UNSUPPORTED
        "AllOrNoneValueSet to Velox filter conversion is not supported yet."
  | UnknownValueSet => VELOX_UNSUPPORTED "Unsupported filter found."
  end.

(** ** Table and column handles *)

Definition toHiveColumnType (type : ColumnType.t)
  : result connector.HiveColumnType.t :=
  match type with
  | ColumnType.PARTITION_KEY => Ok connector.HiveColumnType.kPartitionKey
  | ColumnType.REGULAR => Ok connector.HiveColumnType.kRegular
  | ColumnType.SYNTHESIZED => Ok connector.HiveColumnType.kSynthesized
  | _ => VELOX_UNSUPPORTED "Unsupported Hive column type: {}."
  end.

(** A [common::Subfield] is kept as its path text. *)
Definition toRequiredSubfields (subfields : list string) : list string :=
  subfields.

Definition toColumnHandle (column : ColumnHandle)
  : result connector.ColumnHandle :=
  match column with
  | HiveColumn hiveColumn =>
      let* columnType := toHiveColumnType (columnType hiveColumn) in
      let* dataType := stringToType (typeSignature hiveColumn) in
      Ok (connector.HiveColumnHandle
            (HiveColumnHandle_name hiveColumn) columnType dataType
            (toRequiredSubfields (requiredSubfields hiveColumn)))
  | TpchColumn tpchColumn =>
      Ok (connector.TpchColumnHandle (columnName tpchColumn))
  | OtherColumnHandle _ =>
      VELOX_UNSUPPORTED "Unsupported column handle type: {}."
  end.

(** [tpch::fromTableName] of the engine's TPC-H connector. *)
Variable tpch_fromTableName : string -> result connector.tpch.Table.

(** [std::unordered_map::emplace]: an existing key keeps its value. *)
Definition emplace {V} (key : string) (value : V) (m : gmap string V)
  : gmap string V :=
  match m !! key with
  | Some _ => m
  | None => <[key := value]> m
  end.

Fixpoint emplacePartitionColumns (entries : list HiveColumnHandle)
    (partitionColumns : gmap string connector.ColumnHandle)
  : result (gmap string connector.ColumnHandle) :=
  match entries with
  | [] => Ok partitionColumns
  | entry :: rest =>
      let* columnHandle := toColumnHandle (HiveColumn entry) in
      emplacePartitionColumns rest
        (emplace (HiveColumnHandle_name entry) columnHandle partitionColumns)
  end.

Fixpoint toSubfieldFilters (domains : list (string * Domain))
    (exprConverter : VeloxExprConverter)
    (subfieldFilters : gmap string common.Filter)
  : result (gmap string common.Filter) :=
  match domains with
  | [] => Ok subfieldFilters
  | domain :: rest =>
      let* filter := toFilter domain.2 exprConverter in
      toSubfieldFilters rest exprConverter
        (<[domain.1 := filter]> subfieldFilters)
  end.

(** [toConnectorTableHandle].  The map [partitionColumns] is an in-out
    argument: the function returns it together with the handle. *)
Definition toConnectorTableHandle (tableHandle : TableHandle)
    (exprConverter : VeloxExprConverter)
    (partitionColumns : gmap string connector.ColumnHandle)
  : result (connector.ConnectorTableHandle *
            gmap string connector.ColumnHandle) :=
  match connectorTableLayout tableHandle with
  | HiveLayout hiveLayout =>
      let* _ := VELOX_CHECK (pushdownFilterEnabled hiveLayout)
        "Table scan with filter pushdown disabled is not supported" in
      let* partitionColumns :=
        emplacePartitionColumns (protocol.partitionColumns hiveLayout)
          partitionColumns in
      let* domains := deref (domains hiveLayout) in
      let* subfieldFilters := toSubfieldFilters domains exprConverter ∅ in
      let* remainingFilter :=
        toVeloxExpr exprConverter (remainingPredicate hiveLayout) in
      let* remainingFilter :=
        match remainingFilter with
        | core.ConstantTypedExpr _ constant =>
            let* value := value_bool constant in
            let* _ := VELOX_CHECK value
              "Unexpected always-false remaining predicate" in
            Ok None
        | _ => Ok (Some remainingFilter)
        end in
      let* hiveTableHandle :=
        match connectorHandle tableHandle with
        | HiveTable h => Ok h
        | OtherTable _ => Err InvariantViolation "hiveTableHandle is null"
        end in
      let tableName :=
        if bool_decide (schemaName hiveTableHandle = "")
        then tableName hiveTableHandle
        else String.append (schemaName hiveTableHandle)
               (String.append "." (tableName hiveTableHandle)) in
      Ok (connector.HiveTableHandle (connectorId tableHandle) tableName true
            subfieldFilters remainingFilter,
          partitionColumns)
  | TpchLayout tpchLayout =>
      let* table :=
        tpch_fromTableName (TpchTableHandle_tableName tpchLayout) in
      Ok (connector.TpchTableHandle (connectorId tableHandle) table
            (scaleFactor tpchLayout),
          partitionColumns)
  | OtherLayout _ => VELOX_UNSUPPORTED "Unsupported TableHandle type: {}."
  end.

(** ** Helpers of the plan translation *)

Definition getNames (assignments : Assignments) : list string :=
  map (fun assignment => name assignment.1)
      (protocol.assignments assignments).

Definition toRowType (variables : list VariableReferenceExpression)
    (excludeNames : gset string) : result TypePtr :=
  let* columns :=
    mapM (fun variable =>
            let* t := stringToType (type variable) in
            Ok (name variable, t))
         (filter (fun variable => name variable ∉ excludeNames) variables) in
  Ok (ROW (map fst columns) (map snd columns)).

Definition getProjections (exprConverter : VeloxExprConverter)
    (assignments : Assignments) : result (list core.TypedExpr) :=
  mapM (fun assignment => toVeloxExpr exprConverter assignment.2)
       (protocol.assignments assignments).

Definition toVeloxSortOrder (sortOrder : SortOrder.t) : core.SortOrder :=
  match sortOrder with
  | SortOrder.ASC_NULLS_FIRST => core.Build_SortOrder true true
  | SortOrder.ASC_NULLS_LAST => core.Build_SortOrder true false
  | SortOrder.DESC_NULLS_FIRST => core.Build_SortOrder false true
  | SortOrder.DESC_NULLS_LAST => core.Build_SortOrder false false
  end.

Definition isFixedPartition (node : ExchangeNode)
    (partitionFunction : SystemPartitionFunction.t) : bool :=
  if negb (bool_decide (Exchange_type node = ExchangeNodeType.REPARTITION))
  then false
  else
    match handle (partitioning (partitioningScheme node)) with
    | SystemHandle handle =>
        if negb (bool_decide
                   (sys_partitioning handle = SystemPartitioning.FIXED))
        then false
        else if negb (bool_decide (sys_function handle = partitionFunction))
        then false
        else true
    | _ => false
    end.

Definition isHashPartition (node : ExchangeNode) : bool :=
  isFixedPartition node SystemPartitionFunction.HASH.

Definition isRoundRobinPartition (node : ExchangeNode) : bool :=
  isFixedPartition node SystemPartitionFunction.ROUND_ROBIN.

Definition toFieldExprs (expressions : list RowExpression)
    (exprConverter : VeloxExprConverter)
  : result (list core.FieldAccessTypedExpr) :=
  mapM (fun expr =>
          let* typedExpr := toVeloxExpr exprConverter expr in
          match typedExpr with
          | core.FieldAccess field => Ok field
          | _ =>
              Err InvariantViolation
                "Unexpected expression type: {}. Expected variable."
          end)
       expressions.

Definition toTypedExprs (expressions : list RowExpression)
    (exprConverter : VeloxExprConverter) : result (list core.TypedExpr) :=
  mapM (fun expr =>
          let* typedExpr := toVeloxExpr exprConverter expr in
          match typedExpr with
          | core.FieldAccess _ | core.ConstantTypedExpr _ _ => Ok typedExpr
          | _ =>
              Err InvariantViolation
                "Unexpected expression type: {}. Expected variable or constant."
          end)
       expressions.

(** [RowType::getChildIdx]: the position of a column name; the engine
    rejects a name that is not a column. *)
Fixpoint indexOf (name : string) (names : list string) : option nat :=
  match names with
  | [] => None
  | n :: rest =>
      if bool_decide (n = name) then Some 0%nat
      else S <$> indexOf name rest
  end.

Definition getChildIdx (type : TypePtr) (name : string) : result Z :=
  match indexOf name (names type) with
  | Some i => Ok (Z.of_nat i)
  | None => Err UserError "Field not found"
  end.

(** [RowType::nameOf] and [RowType::childAt]: range-checked accessors. *)
Definition nameOf (type : TypePtr) (idx : nat) : result string :=
  match names type !! idx with
  | Some n => Ok n
  | None => Err CollaboratorError "nameOf: index out of range"
  end.

Definition childAt (type : TypePtr) (idx : nat) : result TypePtr :=
  match children type !! idx with
  | Some t => Ok t
  | None => Err CollaboratorError "childAt: index out of range"
  end.

Definition toChannels (type : TypePtr)
    (fields : list core.FieldAccessTypedExpr) : result (list Z) :=
  mapM (fun field => getChildIdx type (core.fa_name field)) fields.

(** [kConstantChannel], the largest [column_index_t]. *)
Definition kConstantChannel : Z := (2 ^ 32 - 1)%Z.

Definition exprToChannel (expr : core.TypedExpr) (type : TypePtr)
  : result Z :=
  match expr with
  | core.FieldAccess field => getChildIdx type (core.fa_name field)
  | core.ConstantTypedExpr _ _ => Ok kConstantChannel
  | _ =>
      Err InvariantViolation "Expression must be field access or constant"
  end.

Definition toLocalExchangeType (type : ExchangeNodeType.t)
  : result core.LocalPartitionNodeType.t :=
  match type with
  | ExchangeNodeType.GATHER => Ok core.LocalPartitionNodeType.kGather
  | ExchangeNodeType.REPARTITION =>
      Ok core.LocalPartitionNodeType.kRepartition
  | _ => VELOX_UNSUPPORTED "Unsupported exchange type: {}"
  end.

Definition variant_kind (v : variant) : TypeKind.t :=
  match v with
  | variant_null k => k
  | variant_bool _ => TypeKind.BOOLEAN
  | variant_integer k _ => k
  | variant_real _ => TypeKind.REAL
  | variant_double _ => TypeKind.DOUBLE
  | variant_varchar _ => TypeKind.VARCHAR
  | variant_date _ => TypeKind.DATE
  | variant_other k => k
  end.

(** [setCellFromVariant(data, row, value)] on a fresh one-row vector of the
    given type: a null variant gives a null cell; otherwise the cell is set
    through the scalar-type dispatch, which has no case for composite types,
    rejects VARBINARY, and reads the variant at the vector's own kind. *)
Definition setCellFromVariant (type : TypePtr) (value : variant)
  : result core.VectorPtr :=
  if isNull value then Ok (core.Build_VectorPtr type None)
  else
    match kind type with
    | TypeKind.VARBINARY =>
        VELOX_UNSUPPORTED "Return of VARBINARY data is not supported."
    | TypeKind.BOOLEAN | TypeKind.TINYINT | TypeKind.SMALLINT
    | TypeKind.INTEGER | TypeKind.BIGINT | TypeKind.REAL | TypeKind.DOUBLE
    | TypeKind.VARCHAR | TypeKind.TIMESTAMP | TypeKind.DATE =>
        if bool_decide (variant_kind value = kind type)
        then Ok (core.Build_VectorPtr type (Some value))
        else Err CollaboratorError "variant: wrong kind"
    | _ => VELOX_FAIL "not a scalar type! kind: {}"
    end.

(** ** Pattern helpers of the plan rewrites *)

Definition equal (actual : RowExpression)
    (expected : VariableReferenceExpression) : bool :=
  match actual with
  | VariableReference variableReference =>
      bool_decide (name variableReference = name expected) &&
      bool_decide (type variableReference = type expected)
  | _ => false
  end.

(** [isFunctionCall] returns the call when it is a built-in scalar function
    of the given name.  The call is represented by its argument list, the
    only part of it the callers read. *)
Definition isFunctionCall (expression : RowExpression)
    (functionName : string) : option (list RowExpression) :=
  match expression with
  | CallExpression _ (BuiltInFunctionHandle signature) _ arguments =>
      if bool_decide (Signature_kind signature = FunctionKind.SCALAR) &&
         bool_decide (Signature_name signature = functionName)
      then Some arguments
      else None
  | _ => None
  end.

Definition isNot (expression : RowExpression)
  : option (list RowExpression) :=
  isFunctionCall expression "presto.default.not".

Definition isGreaterThan (expression : RowExpression)
  : option (list RowExpression) :=
  isFunctionCall expression "presto.default.$operator$greater_than".

(** [isLocalSingleSourceExchange] returns the node as an exchange when it
    is a local exchange with a single source. *)
Definition isLocalSingleSourceExchange (node : PlanNode)
  : option ExchangeNode :=
  match node with
  | Exchange exchange sources =>
      if bool_decide (scope exchange = ExchangeNodeScope.LOCAL) &&
         bool_decide (length sources = 1%nat)
      then Some exchange
      else None
  | _ => None
  end.

(** [exchange->sources[0]] for a node that [isLocalSingleSourceExchange]
    accepted.  On any other node the function returns its argument; no
    caller reaches that case. *)
Definition sources_0 (node : PlanNode) : PlanNode :=
  match node with
  | Exchange _ (source :: _) => source
  | _ => node
  end.

Definition isIdentityProjection (node : PlanNode) : option ProjectNode :=
  match node with
  | Project project _ =>
      if forallb (fun entry => equal entry.2 entry.1)
           (assignments (Project_assignments project))
      then Some project
      else None
  | _ => None
  end.

(** ** Plan node translator

    The overloads of [toVeloxQueryPlan] carry the node class in their name.
    Where C++ leaves the order in which the arguments of a call are
    evaluated open, the model evaluates them from left to right; the order
    only decides which failure is reported when several arguments fail. *)

(** [PrestoTaskId]: the parsed task id
    [queryId.stageId.stageExecutionId.id]. *)
Record PrestoTaskId := {
  queryId : string;
  stageId : Z;
  stageExecutionId : Z;
  id : Z }.

(** The constructor [PrestoTaskId(taskId)], which parses the text form. *)
Variable parsePrestoTaskId : string -> result PrestoTaskId.

(** The table-write target, read only by the TableWriter branch. *)
Record TableWriteInfo := { writerTarget : string }.

(** The member [exprConverter_] of the converter object. *)
Variable exprConverter_ : VeloxExprConverter.

(** The branches of the dispatcher that are not embedded (see
    [protocol.OtherNode]): each lowers the fields of its node class on top of
    the already lowered sources. *)
Variable lowerOther :
  OtherNode -> list core.PlanNode -> TableWriteInfo -> string ->
  result core.PlanNode.

Section Nodes.

(** The recursive call [toVeloxQueryPlan(source, tableWriteInfo, taskId)]
    of the dispatcher. *)
Variable toVeloxQueryPlan :
  PlanNode -> TableWriteInfo -> string -> result core.PlanNode.

Variable tableWriteInfo : TableWriteInfo.
Variable taskId : string.

(** The projection that re-orders source [i] of a local exchange to the
    exchange's output layout. *)
Definition reorderSource (node : ExchangeNode) (outputType : TypePtr)
    (i : nat) (sourceNode : core.PlanNode) : result core.PlanNode :=
  let names := names outputType in
  let* input := at_index (inputs node) i in
  let* desiredSourceOutput := toRowType input ∅ in
  let* projections :=
    mapM (fun j =>
            let* t := childAt outputType j in
            let* n := nameOf desiredSourceOutput j in
            Ok (core.FieldAccess (core.Build_FieldAccessTypedExpr t n)))
         (seq 0 (length (children outputType))) in
  Ok (core.ProjectNode
        (String.append (Exchange_id node) (String.append "." (pretty i)))
        names projections sourceNode).

Fixpoint reorderSources (node : ExchangeNode) (outputType : TypePtr)
    (i : nat) (sourceNodes : list core.PlanNode)
  : result (list core.PlanNode) :=
  match sourceNodes with
  | [] => Ok []
  | sourceNode :: rest =>
      let* projected := reorderSource node outputType i sourceNode in
      let* rest' := reorderSources node outputType (S i) rest in
      Ok (projected :: rest')
  end.

Definition toVeloxQueryPlan_ExchangeNode (node : ExchangeNode)
    (sources : list PlanNode) : result core.PlanNode :=
  let* _ := VELOX_USER_CHECK
    (bool_decide (scope node = ExchangeNodeScope.LOCAL))
    "Unsupported ExchangeNode scope" in
  let* sourceNodes :=
    mapM (fun source => toVeloxQueryPlan source tableWriteInfo taskId)
         sources in
  match orderingScheme node with
  | Some orderingScheme =>
      let* sortingKeys :=
        mapM (fun orderBy =>
                toVeloxExpr_variable exprConverter_ (variable orderBy))
             (orderBy orderingScheme) in
      let sortingOrders :=
        map (fun orderBy => toVeloxSortOrder (sortOrder orderBy))
            (orderBy orderingScheme) in
      Ok (core.LocalMergeNode (Exchange_id node) sortingKeys sortingOrders
            sourceNodes)
  | None =>
      let* type := toLocalExchangeType (Exchange_type node) in
      let* outputType :=
        toRowType (outputLayout (partitioningScheme node)) ∅ in
      let* sourceNodes := reorderSources node outputType 0 sourceNodes in
      if isHashPartition node then
        let* partitionKeys :=
          toFieldExprs
            (Partitioning_arguments (partitioning (partitioningScheme node)))
            exprConverter_ in
        let* keyChannels := toChannels outputType partitionKeys in
        Ok (core.LocalPartitionNode (Exchange_id node) type
              (core.HashPartitionFunctionSpec outputType keyChannels [])
              sourceNodes)
      else if isRoundRobinPartition node then
        Ok (core.LocalPartitionNode (Exchange_id node) type
              core.RoundRobinPartitionFunctionSpec sourceNodes)
      else if bool_decide (type = core.LocalPartitionNodeType.kGather) then
        Ok (core.LocalPartitionNode_gather (Exchange_id node) sourceNodes)
      else VELOX_UNSUPPORTED "Unsupported flavor of local exchange: {}"
  end.

(** [toVeloxQueryPlan(FilterNode)]: a filter over a semi join becomes a
    hash join, every other filter stays a filter. *)
Definition toVeloxQueryPlan_FilterNode (node : FilterNode)
    (source : PlanNode) : result core.PlanNode :=
  match source with
  | SemiJoin semiJoin semiJoinSource semiJoinFilteringSource =>
      let* joinType :=
        if equal (predicate node) (semiJoinOutput semiJoin)
        then Ok (Some core.JoinType.kLeftSemiFilter)
        else
          match isNot (predicate node) with
          | Some notCall_arguments =>
              let* argument := at_index notCall_arguments 0 in
              if equal argument (semiJoinOutput semiJoin)
              then Ok (Some core.JoinType.kAnti)
              else Ok None
          | None => Ok None
          end in
      let* leftKey :=
        toVeloxExpr_variable exprConverter_ (sourceJoinVariable semiJoin) in
      let leftKeys := [leftKey] in
      let* rightKey :=
        toVeloxExpr_variable exprConverter_
          (filteringSourceJoinVariable semiJoin) in
      let rightKeys := [rightKey] in
      let* leftNode := toVeloxQueryPlan semiJoinSource tableWriteInfo taskId in
      let* rightNode :=
        toVeloxQueryPlan semiJoinFilteringSource tableWriteInfo taskId in
      let leftNames := names (core.outputType leftNode) in
      let leftTypes := children (core.outputType leftNode) in
      let names := leftNames ++ [name (semiJoinOutput semiJoin)] in
      match joinType with
      | None =>
          let types := leftTypes ++ [BOOLEAN] in
          let* filter := toVeloxExpr exprConverter_ (predicate node) in
          Ok (core.FilterNode (Filter_id node) filter
                (core.HashJoinNode (SemiJoin_id semiJoin)
                   core.JoinType.kLeftSemiProject false leftKeys rightKeys
                   None leftNode rightNode (ROW names types)))
      | Some joinType =>
          let* projections :=
            mapM (fun i =>
                    let* t := at_index leftTypes i in
                    let* n := at_index leftNames i in
                    Ok (core.FieldAccess
                          (core.Build_FieldAccessTypedExpr t n)))
                 (seq 0 (length leftNames)) in
          let constantValue :=
            bool_decide (joinType = core.JoinType.kLeftSemiFilter) in
          let projections :=
            projections ++
            [core.ConstantTypedExpr BOOLEAN (variant_bool constantValue)] in
          Ok (core.ProjectNode (Filter_id node) names projections
                (core.HashJoinNode (SemiJoin_id semiJoin) joinType
                   (if bool_decide (joinType = core.JoinType.kAnti)
                    then true else false)
                   leftKeys rightKeys None leftNode rightNode
                   (core.outputType leftNode)))
      end
  | _ =>
      let* filter := toVeloxExpr exprConverter_ (predicate node) in
      let* source' := toVeloxQueryPlan source tableWriteInfo taskId in
      Ok (core.FilterNode (Filter_id node) filter source')
  end.

(** [tryConvertOffsetLimit]: [Ok None] is the null pointer, no match. *)
Definition tryConvertOffsetLimit (node : ProjectNode) (source : PlanNode)
  : result (option core.PlanNode) :=
  match isIdentityProjection (Project node source) with
  | None => Ok None
  | Some identityProjections =>
  match isLocalSingleSourceExchange source with
  | None => Ok None
  | Some exchangeBeforeProject =>
  if negb (isRoundRobinPartition exchangeBeforeProject) then Ok None else
  match sources_0 source with
  | Limit limit limitSource =>
  match isLocalSingleSourceExchange limitSource with
  | None => Ok None
  | Some exchangeBeforeLimit =>
  match sources_0 limitSource with
  | Filter filter filterSource =>
  match isLocalSingleSourceExchange filterSource with
  | None => Ok None
  | Some exchangeBeforeFilter =>
  match sources_0 filterSource with
  | RowNumber rowNumber rowNumberSource =>
      let rowNumberVariable := rowNumberVariable rowNumber in
      match isGreaterThan (predicate filter) with
      | None => Ok None
      | Some gt_arguments =>
          let* argument0 := at_index gt_arguments 0 in
          if negb (equal argument0 rowNumberVariable) then Ok None else
          let* argument1 := at_index gt_arguments 1 in
          let* offsetExpr := toVeloxExpr exprConverter_ argument1 in
          match offsetExpr with
          | core.ConstantTypedExpr offsetType offsetValue =>
              if negb (isBigint offsetType) then Ok None else
              let* offset := value_int64 offsetValue in
              if existsb (fun entry => equal entry.2 rowNumberVariable)
                   (assignments (Project_assignments node))
              then Ok None
              else
                let* projections :=
                  getProjections exprConverter_ (Project_assignments node) in
                let* limitInput :=
                  toVeloxQueryPlan rowNumberSource tableWriteInfo taskId in
                Ok (Some
                      (core.ProjectNode (Project_id node)
                         (getNames (Project_assignments node)) projections
                         (core.LimitNode (Limit_id limit) offset
                            (count limit)
                            (bool_decide
                               (step limit = LimitNodeStep.PARTIAL))
                            limitInput)))
          | _ => Ok None
          end
      end
  | _ => Ok None
  end end
  | _ => Ok None
  end end
  | _ => Ok None
  end end end.

Definition toVeloxQueryPlan_ProjectNode (node : ProjectNode)
    (source : PlanNode) : result core.PlanNode :=
  let* limit := tryConvertOffsetLimit node source in
  match limit with
  | Some limit => Ok limit
  | None =>
      let* projections :=
        getProjections exprConverter_ (Project_assignments node) in
      let* source' := toVeloxQueryPlan source tableWriteInfo taskId in
      Ok (core.ProjectNode (Project_id node)
            (getNames (Project_assignments node)) projections source')
  end.

Definition toVeloxQueryPlan_LimitNode (node : LimitNode) (source : PlanNode)
  : result core.PlanNode :=
  let* source' := toVeloxQueryPlan source tableWriteInfo taskId in
  Ok (core.LimitNode (Limit_id node) 0 (count node)
        (bool_decide (step node = LimitNodeStep.PARTIAL)) source').

Definition toVeloxQueryPlan_EnforceSingleRowNode (id : string)
    (source : PlanNode) : result core.PlanNode :=
  let* source' := toVeloxQueryPlan source tableWriteInfo taskId in
  Ok (core.EnforceSingleRowNode id source').

(** The prefix of the ids an AssignUniqueId operator generates:
    [(stageId & ((1 << 10) - 1)) << 14 | (id & ((1 << 14) - 1))]. *)
Definition taskUniqueId (prestoTaskId : PrestoTaskId) : Z :=
  Z.lor (Z.shiftl (Z.land (stageId prestoTaskId) (Z.shiftl 1 10 - 1)) 14)
        (Z.land (id prestoTaskId) (Z.shiftl 1 14 - 1)).

Definition toVeloxQueryPlan_AssignUniqueId (node : AssignUniqueId)
    (source : PlanNode) : result core.PlanNode :=
  let* prestoTaskId := parsePrestoTaskId taskId in
  let* source' := toVeloxQueryPlan source tableWriteInfo taskId in
  Ok (core.AssignUniqueIdNode (AssignUniqueId_id node)
        (name (idVariable node)) (taskUniqueId prestoTaskId) source').

End Nodes.

(** [toVeloxQueryPlan(PlanNode)], the dispatcher.  RowNumber, SemiJoin and
    Output nodes have no branch of their own. *)
Fixpoint toVeloxQueryPlan (node : PlanNode)
    (tableWriteInfo : TableWriteInfo) (taskId : string) {struct node}
  : result core.PlanNode :=
  match node with
  | Exchange exchange sources =>
      toVeloxQueryPlan_ExchangeNode toVeloxQueryPlan tableWriteInfo taskId
        exchange sources
  | Filter filter source =>
      toVeloxQueryPlan_FilterNode toVeloxQueryPlan tableWriteInfo taskId
        filter source
  | Project project source =>
      toVeloxQueryPlan_ProjectNode toVeloxQueryPlan tableWriteInfo taskId
        project source
  | Limit limit source =>
      toVeloxQueryPlan_LimitNode toVeloxQueryPlan tableWriteInfo taskId
        limit source
  | EnforceSingleRow id source =>
      toVeloxQueryPlan_EnforceSingleRowNode toVeloxQueryPlan tableWriteInfo
        taskId id source
  | AssignUniqueIdNode assignUniqueId source =>
      toVeloxQueryPlan_AssignUniqueId toVeloxQueryPlan tableWriteInfo taskId
        assignUniqueId source
  | Other other sources =>
      match nodeClass other with
      | OtherNodeClass.UnknownNode _ =>
          VELOX_UNSUPPORTED "Unknown plan node type {}"
      | _ =>
          let* sourceNodes :=
            mapM (fun source =>
                    toVeloxQueryPlan source tableWriteInfo taskId)
                 sources in
          lowerOther other sourceNodes tableWriteInfo taskId
      end
  | RowNumber _ _ | SemiJoin _ _ _ | Output _ _ =>
      VELOX_UNSUPPORTED "Unknown plan node type {}"
  end.

(** ** Fragment assembler *)

Definition toStrategy (strategy : StageExecutionStrategy.t)
  : result core.ExecutionStrategy.t :=
  match strategy with
  | StageExecutionStrategy.UNGROUPED_EXECUTION =>
      Ok core.ExecutionStrategy.kUngrouped
  | StageExecutionStrategy.FIXED_LIFESPAN_SCHEDULE_GROUPED_EXECUTION
  | StageExecutionStrategy.DYNAMIC_LIFESPAN_SCHEDULE_GROUPED_EXECUTION =>
      Ok core.ExecutionStrategy.kGrouped
  | StageExecutionStrategy.RECOVERABLE_GROUPED_EXECUTION =>
      VELOX_UNSUPPORTED
        "RECOVERABLE_GROUPED_EXECUTION Stage Execution Strategy is not supported"
  end.

Definition toVeloxQueryPlan_OutputNode (node : OutputNode)
    (source : PlanNode) (tableWriteInfo : TableWriteInfo) (taskId : string)
  : result core.PlanNode :=
  let* outputType := toRowType (Output_outputVariables node) ∅ in
  let* source' := toVeloxQueryPlan source tableWriteInfo taskId in
  Ok (core.PartitionedOutputNode_single (Output_id node) outputType source').

(** The loop over the partitioning keys: the channel of every key and, for
    every constant key, a one-row vector holding the constant. *)
Fixpoint partitionChannels (partitioningKeys : list core.TypedExpr)
    (inputType : TypePtr) (keyChannels : list Z)
    (constValues : list core.VectorPtr)
  : result (list Z * list core.VectorPtr) :=
  match partitioningKeys with
  | [] => Ok (keyChannels, constValues)
  | expr :: rest =>
      let* channel := exprToChannel expr inputType in
      let keyChannels := keyChannels ++ [channel] in
      if bool_decide (channel = kConstantChannel) then
        match expr with
        | core.ConstantTypedExpr type value =>
            let* constValue := setCellFromVariant type value in
            partitionChannels rest inputType keyChannels
              (constValues ++ [constValue])
        | _ => Err UndefinedBehaviour "null pointer dereference"
        end
      else partitionChannels rest inputType keyChannels constValues
  end.

(** [*std::max_element(begin, end)]: undefined on an empty list. *)
Definition max_element (l : list Z) : result Z :=
  match l with
  | [] => Err UndefinedBehaviour "dereference of the end iterator"
  | x :: rest => Ok (foldr Z.max x rest)
  end.

Definition wrap32 (z : Z) : Z := ((z + 2 ^ 31) mod 2 ^ 32 - 2 ^ 31)%Z.

(** [VeloxQueryPlanConverterBase::toVeloxQueryPlan(PlanFragment)]. *)
Definition toVeloxQueryPlan_PlanFragment (fragment : PlanFragment)
    (tableWriteInfo : TableWriteInfo) (taskId : string)
  : result core.PlanFragment :=
  let descriptor := stageExecutionDescriptor fragment in
  let* executionStrategy :=
    toStrategy (stageExecutionStrategy descriptor) in
  let numSplitGroups := totalLifespans descriptor in
  let groupedExecutionLeafNodeIds : gset string :=
    list_to_set (groupedExecutionScanNodes descriptor) in
  let* _ :=
    if bool_decide (executionStrategy = core.ExecutionStrategy.kGrouped)
    then VELOX_CHECK
           (negb (bool_decide (groupedExecutionLeafNodeIds = ∅)))
           "groupedExecutionScanNodes cannot be empty if stage execution strategy is grouped execution"
    else Ok tt in
  let planFragment (planNode : core.PlanNode) : core.PlanFragment :=
    core.Build_PlanFragment planNode executionStrategy numSplitGroups
      groupedExecutionLeafNodeIds in
  match root fragment with
  | Output output source =>
      let* planNode :=
        toVeloxQueryPlan_OutputNode output source tableWriteInfo taskId in
      Ok (planFragment planNode)
  | _ =>
  let partitioningScheme := PlanFragment_partitioningScheme fragment in
  let partitioningHandle := handle (partitioning partitioningScheme) in
  let* partitioningKeys :=
    toTypedExprs (Partitioning_arguments (partitioning partitioningScheme))
      exprConverter_ in
  let* sourceNode := toVeloxQueryPlan (root fragment) tableWriteInfo taskId in
  let inputType := core.outputType sourceNode in
  let* channels :=
    partitionChannels partitioningKeys inputType [] [] in
  let keyChannels := channels.1 in
  let constValues := channels.2 in
  let* outputType := toRowType (outputLayout partitioningScheme) ∅ in
  match partitioningHandle with
  | SystemHandle systemPartitioningHandle =>
      match sys_partitioning systemPartitioningHandle with
      | SystemPartitioning.SINGLE =>
          let* _ := VELOX_CHECK
            (bool_decide (sys_function systemPartitioningHandle
                          = SystemPartitionFunction.SINGLE))
            "Unsupported partitioning function: {}" in
          Ok (planFragment
                (core.PartitionedOutputNode_single "root" outputType
                   sourceNode))
      | SystemPartitioning.FIXED =>
          match sys_function systemPartitioningHandle with
          | SystemPartitionFunction.ROUND_ROBIN =>
              let* bucketToPartition :=
                deref (bucketToPartition partitioningScheme) in
              let numPartitions := length bucketToPartition in
              if bool_decide (numPartitions = 1%nat) then
                Ok (planFragment
                      (core.PartitionedOutputNode_single "root" outputType
                         sourceNode))
              else
                Ok (planFragment
                      (core.PartitionedOutputNode "root" partitioningKeys
                         (Z.of_nat numPartitions) false
                         (replicateNullsAndAny partitioningScheme)
                         core.RoundRobinPartitionFunctionSpec outputType
                         sourceNode))
          | SystemPartitionFunction.HASH =>
              let* bucketToPartition :=
                deref (bucketToPartition partitioningScheme) in
              let numPartitions := length bucketToPartition in
              if bool_decide (numPartitions = 1%nat) then
                Ok (planFragment
                      (core.PartitionedOutputNode_single "root" outputType
                         sourceNode))
              else
                Ok (planFragment
                      (core.PartitionedOutputNode "root" partitioningKeys
                         (Z.of_nat numPartitions) false
                         (replicateNullsAndAny partitioningScheme)
                         (core.HashPartitionFunctionSpec inputType
                            keyChannels constValues)
                         outputType sourceNode))
          | SystemPartitionFunction.BROADCAST =>
              Ok (planFragment
                    (core.PartitionedOutputNode_broadcast "root" 1
                       outputType sourceNode))
          | _ => VELOX_UNSUPPORTED "Unsupported partitioning function: {}"
          end
      | _ => VELOX_FAIL "Unsupported kind of SystemPartitioning"
      end
  | HiveHandle hivePartitioningHandle =>
      let* bucketToPartition :=
        deref (bucketToPartition partitioningScheme) in
      let* maxPartition := max_element bucketToPartition in
      let numPartitions := wrap32 (maxPartition + 1) in
      if bool_decide (numPartitions = 1%Z) then
        Ok (planFragment
              (core.PartitionedOutputNode_single "root" outputType
                 sourceNode))
      else
        let* _ := VELOX_USER_CHECK
          (bool_decide (bucketFunctionType hivePartitioningHandle
                        = BucketFunctionType.HIVE_COMPATIBLE))
          "Unsupported Hive bucket function type: {}" in
        let* outputType' := toRowType (outputLayout partitioningScheme) ∅ in
        Ok (planFragment
              (core.PartitionedOutputNode "root" partitioningKeys
                 numPartitions false
                 (replicateNullsAndAny partitioningScheme)
                 (core.HivePartitionFunctionSpec
                    (bucketCount hivePartitioningHandle) bucketToPartition
                    keyChannels constValues)
                 outputType' sourceNode))
  | OtherPartitioningHandle _ =>
      VELOX_UNSUPPORTED "Unsupported partitioning handle: {}"
  end
  end.

End Translation.

(** ** Vocabulary of the filter properties *)

Definition isIntegerKind (k : TypeKind.t) : bool :=
  bool_decide (k = TypeKind.BIGINT) || bool_decide (k = TypeKind.INTEGER) ||
  bool_decide (k = TypeKind.SMALLINT) || bool_decide (k = TypeKind.TINYINT).

Section RangeSemantics.

Variable exprConverter : VeloxExprConverter.
Variable type : TypePtr.

(** A single-point range [[x, x]]: both markers are inclusive and carry the
    same literal. *)
Definition singlePoint (range : Range) (x : Z) : Prop :=
  bound (low range) = Bound.EXACTLY /\
  bound (high range) = Bound.EXACTLY /\
  toInt64 (valueBlock (low range)) exprConverter type = Ok x /\
  toInt64 (valueBlock (high range)) exprConverter type = Ok x.

(** Brute-force reading of a range, following the data model: each side is
    unbounded, or a literal that is exclusive (low [ABOVE], high [BELOW]) or
    inclusive. *)
Definition lowAdmits (m : Marker) (v : Z) : bool :=
  match valueBlock m with
  | None => true
  | Some b =>
      match toInt64 (Some b) exprConverter type with
      | Ok x =>
          if bool_decide (bound m = Bound.ABOVE) then bool_decide (x < v)%Z
          else bool_decide (x <= v)%Z
      | Err _ _ => false
      end
  end.

Definition highAdmits (m : Marker) (v : Z) : bool :=
  match valueBlock m with
  | None => true
  | Some b =>
      match toInt64 (Some b) exprConverter type with
      | Ok x =>
          if bool_decide (bound m = Bound.BELOW) then bool_decide (v < x)%Z
          else bool_decide (v <= x)%Z
      | Err _ _ => false
      end
  end.

Definition rangeContains (range : Range) (v : Z) : bool :=
  lowAdmits (low range) v && highAdmits (high range) v.

Definition anyRangeMatches (ranges : list Range) (v : Z) : bool :=
  existsb (fun range => rangeContains range v) ranges.

(** The least and the greatest [int64] a range contains, computed without
    wrap-around. *)
Definition leastValue (range : Range) : option Z :=
  match valueBlock (low range) with
  | None => Some int64_min
  | Some b =>
      match toInt64 (Some b) exprConverter type with
      | Ok x =>
          Some (if bool_decide (bound (low range) = Bound.ABOVE)
                then x + 1 else x)%Z
      | Err _ _ => None
      end
  end.

Definition greatestValue (range : Range) : option Z :=
  match valueBlock (high range) with
  | None => Some int64_max
  | Some b =>
      match toInt64 (Some b) exprConverter type with
      | Ok x =>
          Some (if bool_decide (bound (high range) = Bound.BELOW)
                then x - 1 else x)%Z
      | Err _ _ => None
      end
  end.

(** [tiledAfter previous ranges]: the ranges continue a tiling whose last
    accepted value so far is [previous]: every range is non-empty and starts
    two above the end of its predecessor (one rejected value in between), and
    the last range ends at the maximum. *)
Inductive tiledAfter : Z -> list Range -> Prop :=
| tiled_last previous range lo :
    leastValue range = Some lo ->
    lo = (previous + 2)%Z ->
    (lo <= int64_max)%Z ->
    greatestValue range = Some int64_max ->
    tiledAfter previous [range]
| tiled_next previous range rest lo hi :
    leastValue range = Some lo ->
    lo = (previous + 2)%Z ->
    greatestValue range = Some hi ->
    (lo <= hi)%Z ->
    tiledAfter hi rest ->
    tiledAfter previous (range :: rest).

(** Several ranges that tile the [int64] space with exactly one rejected
    value between each range and the next, the last range ending at the
    maximum.  The first range starts at the minimum, or one above it when the
    minimum itself is rejected.  Ranges next to each other without a
    rejected value in between, as in [(3, 5], [6, 9]], are not of this
    shape. *)
Definition tilesInt64 (ranges : list Range) : Prop :=
  match ranges with
  | [] => False
  | first :: rest =>
      exists lo hi,
        leastValue first = Some lo /\
        (lo = int64_min \/ lo = int64_min + 1)%Z /\
        greatestValue first = Some hi /\
        (lo <= hi)%Z /\
        tiledAfter hi rest
  end.

(** A boolean range that the coordinator can produce: a side without a
    literal is the unbounded side, and every literal decodes. *)
Definition decodableBoolRange (range : Range) : Prop :=
  match valueBlock (low range) with
  | None => bound (low range) = Bound.ABOVE
  | Some b => exists v, toBoolean (Some b) exprConverter type = Ok v
  end /\
  match valueBlock (high range) with
  | None => bound (high range) = Bound.BELOW
  | Some b => exists v, toBoolean (Some b) exprConverter type = Ok v
  end.

(** A double-bounded boolean range: both sides carry a literal. *)
Definition doubleBounded (range : Range) (lowValue highValue : bool) : Prop :=
  toBoolean (valueBlock (low range)) exprConverter type = Ok lowValue /\
  toBoolean (valueBlock (high range)) exprConverter type = Ok highValue.

End RangeSemantics.

(** The failures a well-formed input may provoke are invariant violations. *)
Definition okOrInvariantViolation {A} (r : result A) : Prop :=
  match r with
  | Ok _ => True
  | Err k _ => k = InvariantViolation
  end.

(** The tiling of [tiledAfter], read on the converted inclusive ranges. *)
Inductive tiledFiltersAfter : Z -> list common.BigintRange -> Prop :=
| tiledFilters_last previous f :
    common.lower f = (previous + 2)%Z ->
    (common.lower f <= int64_max)%Z ->
    common.upper f = int64_max ->
    tiledFiltersAfter previous [f]
| tiledFilters_next previous f rest :
    common.lower f = (previous + 2)%Z ->
    (common.lower f <= common.upper f)%Z ->
    tiledFiltersAfter (common.upper f) rest ->
    tiledFiltersAfter previous (f :: rest).

(** The values a list of converted ranges accepts. *)
Abbreviation accepts fs v := (existsb (fun r => common.inRange r v) fs).

(** ** Vocabulary of the plan properties *)




(** The field accesses that re-emit the columns of a row type. *)
Definition fieldProjections (type : TypePtr) : list core.TypedExpr :=
  zip_with (fun t n => core.FieldAccess (core.Build_FieldAccessTypedExpr t n))
    (children type) (names type).

(** A row type has as many child types as names. *)
Definition wellFormedRow (type : TypePtr) : Prop :=
  length (children type) = length (names type).

Definition isHashJoin (node : core.PlanNode) : bool :=
  match node with
  | core.HashJoinNode _ _ _ _ _ _ _ _ _ => true
  | _ => false
  end.

(** The number of partitions a partitioning scheme resolves to, for the
    function kinds that partition: the length of the bucket-to-partition
    mapping for the system hash and round-robin functions, the largest
    partition plus one for a hive bucket function. *)
Definition resolvedPartitionCount (scheme : PartitioningScheme) : option Z :=
  match handle (partitioning scheme) with
  | SystemHandle h =>
      match sys_partitioning h, sys_function h with
      | SystemPartitioning.FIXED, SystemPartitionFunction.HASH
      | SystemPartitioning.FIXED, SystemPartitionFunction.ROUND_ROBIN =>
          (fun l => Z.of_nat (length l)) <$> bucketToPartition scheme
      | _, _ => None
      end
  | HiveHandle _ =>
      match bucketToPartition scheme with
      | Some (x :: rest) => Some (foldr Z.max x rest + 1)%Z
      | _ => None
      end
  | OtherPartitioningHandle _ => None
  end.

Definition isOutputNode (node : PlanNode) : bool :=
  match node with
  | Output _ _ => true
  | _ => false
  end.

(** ** Further node classes

    The wire and engine classes of the lowerings embedded below.  The
    modules [protocol'] and [core'] continue the namespaces [protocol] and
    [core]; [operators] is the namespace of the shuffle operators. *)

Module protocol'.

(** [assignments] is a [Map<VariableReferenceExpression,
    shared_ptr<ColumnHandle>>], kept as the list of its entries in iteration
    order; a null handle is [None]. *)
Record TableScanNode := {
  TableScan_id : string;
  table : TableHandle;
  TableScan_outputVariables : list VariableReferenceExpression;
  TableScan_assignments :
    list (VariableReferenceExpression * option ColumnHandle) }.

Module JoinNodeType.
Inductive t := INNER | LEFT | RIGHT | FULL.
End JoinNodeType.

Record EquiJoinClause := {
  left : VariableReferenceExpression;
  right : VariableReferenceExpression }.

(** The child nodes [left] and [right] of a join are passed next to the
    record, as for the nodes of [protocol.PlanNode]. *)
Record JoinNode := {
  Join_id : string;
  Join_type : JoinNodeType.t;
  criteria : list EquiJoinClause;
  Join_outputVariables : list VariableReferenceExpression;
  filter : option RowExpression }.

End protocol'.

Module operators.

Record PartitionAndSerializeNode := {
  PartitionAndSerialize_id : string;
  keys : list core.TypedExpr;
  numPartitions : Z;
  outputType : TypePtr;
  source : core.PlanNode;
  partitionFunctionSpec : core.PartitionFunctionSpec }.

(** [core::LocalPartitionNode::gather(id, {source})] over a
    partition-and-serialize node. *)
Record GatherNode := {
  Gather_id : string;
  Gather_source : PartitionAndSerializeNode }.

Record ShuffleWriteNode := {
  ShuffleWrite_id : string;
  shuffleName : string;
  serializedShuffleWriteInfo : string;
  ShuffleWrite_source : GatherNode }.

End operators.

Module core'.

Record TableScanNode := {
  TableScan_id : string;
  TableScan_outputType : TypePtr;
  tableHandle : connector.ConnectorTableHandle;
  assignments : gmap string connector.ColumnHandle }.

(** The nodes a join lowers to: a hash join, which is a node of
    [core.PlanNode], or [core::NestedLoopJoinNode]. *)
Inductive JoinPlanNode :=
| Core (node : core.PlanNode)
| NestedLoopJoinNode (id : string) (left right : core.PlanNode)
    (outputType : TypePtr).

(** The plan node of a fragment of the batch converter: a node of
    [core.PlanNode], or a shuffle write. *)
Inductive RootNode :=
| CoreRoot (node : core.PlanNode)
| ShuffleWriteRoot (node : operators.ShuffleWriteNode).

(** [core::PlanFragment] as the batch converter returns it. *)
Record PlanFragment := {
  planNode : RootNode;
  executionStrategy : core.ExecutionStrategy.t;
  numSplitGroups : Z;
  groupedExecutionLeafNodeIds : gset string }.

End core'.

Section FurtherTranslation.

Variable parseTypeSignature : string -> result TypePtr.
Variable tpch_fromTableName : string -> result connector.tpch.Table.
Variable parsePrestoTaskId : string -> result PrestoTaskId.
Variable exprConverter_ : VeloxExprConverter.
Variable lowerOther :
  OtherNode -> list core.PlanNode -> TableWriteInfo -> string ->
  result core.PlanNode.

(** ** Table scans *)

(** The loop of [toVeloxQueryPlan(TableScanNode)] over the assignments of the
    node: [assignments.emplace(entry.first.name,
    toColumnHandle(entry.second.get()))]. *)
Fixpoint emplaceAssignments
    (entries : list (VariableReferenceExpression * option ColumnHandle))
    (assignments : gmap string connector.ColumnHandle)
  : result (gmap string connector.ColumnHandle) :=
  match entries with
  | [] => Ok assignments
  | entry :: rest =>
      let* column := deref entry.2 in
      let* columnHandle := toColumnHandle parseTypeSignature column in
      emplaceAssignments rest
        (emplace (name entry.1) columnHandle assignments)
  end.

(** [toVeloxQueryPlan(TableScanNode)].  The table-write target and the task
    id are not used.  [toConnectorTableHandle] receives the map of the
    assignments by reference and adds the partition columns of the layout to
    it before the node is built. *)
Definition toVeloxQueryPlan_TableScanNode (node : protocol'.TableScanNode)
  : result core'.TableScanNode :=
  let* rowType :=
    toRowType parseTypeSignature (protocol'.TableScan_outputVariables node)
      ∅ in
  let* assignments :=
    emplaceAssignments (protocol'.TableScan_assignments node) ∅ in
  let* handled :=
    toConnectorTableHandle parseTypeSignature tpch_fromTableName
      (protocol'.table node) exprConverter_ assignments in
  Ok (core'.Build_TableScanNode (protocol'.TableScan_id node) rowType
        handled.1 handled.2).

(** ** Joins *)

(** [toJoinType]: the switch covers the four join types of the wire
    format. *)
Definition toJoinType (type : protocol'.JoinNodeType.t) : core.JoinType.t :=
  match type with
  | protocol'.JoinNodeType.INNER => core.JoinType.kInner
  | protocol'.JoinNodeType.LEFT => core.JoinType.kLeft
  | protocol'.JoinNodeType.RIGHT => core.JoinType.kRight
  | protocol'.JoinNodeType.FULL => core.JoinType.kFull
  end.

(** [core::isInnerJoin]. *)
Definition isInnerJoin (joinType : core.JoinType.t) : bool :=
  bool_decide (joinType = core.JoinType.kInner).

(** The loop over the criteria of a join: the left and the right key of
    each clause are converted in turn. *)
Fixpoint toJoinKeys (criteria : list protocol'.EquiJoinClause)
  : result (list core.FieldAccessTypedExpr *
            list core.FieldAccessTypedExpr) :=
  match criteria with
  | [] => Ok ([], [])
  | clause :: rest =>
      let* leftKey :=
        toVeloxExpr_variable exprConverter_ (protocol'.left clause) in
      let* rightKey :=
        toVeloxExpr_variable exprConverter_ (protocol'.right clause) in
      let* keys := toJoinKeys rest in
      Ok (leftKey :: keys.1, rightKey :: keys.2)
  end.

(** [toVeloxQueryPlan(JoinNode)]. *)
Definition toVeloxQueryPlan_JoinNode (node : protocol'.JoinNode)
    (leftSource rightSource : PlanNode) (tableWriteInfo : TableWriteInfo)
    (taskId : string) : result core'.JoinPlanNode :=
  let toVeloxQueryPlan :=
    toVeloxQueryPlan parseTypeSignature parsePrestoTaskId exprConverter_
      lowerOther in
  let joinType := toJoinType (protocol'.Join_type node) in
  if bool_decide (length (protocol'.criteria node) = 0%nat) &&
     isInnerJoin joinType &&
     isNullptr (protocol'.filter node)
  then
    let* leftNode := toVeloxQueryPlan leftSource tableWriteInfo taskId in
    let* rightNode := toVeloxQueryPlan rightSource tableWriteInfo taskId in
    let* outputType :=
      toRowType parseTypeSignature (protocol'.Join_outputVariables node) ∅ in
    Ok (core'.NestedLoopJoinNode (protocol'.Join_id node) leftNode rightNode
          outputType)
  else
    let* keys := toJoinKeys (protocol'.criteria node) in
    let* filter :=
      match protocol'.filter node with
      | Some filter =>
          let* converted := toVeloxExpr exprConverter_ filter in
          Ok (Some converted)
      | None => Ok None
      end in
    let* leftNode := toVeloxQueryPlan leftSource tableWriteInfo taskId in
    let* rightNode := toVeloxQueryPlan rightSource tableWriteInfo taskId in
    let* outputType :=
      toRowType parseTypeSignature (protocol'.Join_outputVariables node) ∅ in
    Ok (core'.Core
          (core.HashJoinNode (protocol'.Join_id node) joinType false
             keys.1 keys.2 filter leftNode rightNode outputType)).

(** ** Batch converter *)

(** The members [shuffleName_] and [serializedShuffleWriteInfo_] of the
    batch converter; the latter is a pointer, null when the fragment does not
    end in a shuffle stage. *)
Variable shuffleName_ : string.
Variable serializedShuffleWriteInfo_ : option string.

(** [VeloxBatchQueryPlanConverter::toVeloxQueryPlan(PlanFragment)], on a
    converter that has not converted a fragment before (the conversion moves
    the shuffle-write info out of the converter). *)
Definition VeloxBatchQueryPlanConverter_toVeloxQueryPlan
    (fragment : PlanFragment) (tableWriteInfo : TableWriteInfo)
    (taskId : string) : result core'.PlanFragment :=
  let* planFragment :=
    toVeloxQueryPlan_PlanFragment parseTypeSignature parsePrestoTaskId
      exprConverter_ lowerOther fragment tableWriteInfo taskId in
  let withPlanNode (planNode : core'.RootNode) : core'.PlanFragment :=
    core'.Build_PlanFragment planNode (core.executionStrategy planFragment)
      (core.numSplitGroups planFragment)
      (core.groupedExecutionLeafNodeIds planFragment) in
  match core.planNode planFragment with
  | core.PartitionedOutputNode _ keys numPartitions isBroadcast
      isReplicateNullsAndAny partitionFunctionSpec outputType source =>
      let* _ := VELOX_USER_CHECK (negb isBroadcast)
        "Broadcast shuffle is not supported" in
      let* _ := VELOX_USER_CHECK (negb isReplicateNullsAndAny)
        "Replicate-nulls-and-any shuffle mode is not supported." in
      match serializedShuffleWriteInfo_ with
      | None =>
          let* _ := VELOX_USER_CHECK (bool_decide (1 = numPartitions)%Z)
            "(1 vs. numPartitions)" in
          Ok (withPlanNode (core'.CoreRoot (core.planNode planFragment)))
      | Some serializedShuffleWriteInfo =>
          let partitionAndSerializeNode :=
            operators.Build_PartitionAndSerializeNode
              "shuffle-partition-serialize" keys numPartitions outputType
              source partitionFunctionSpec in
          Ok (withPlanNode
                (core'.ShuffleWriteRoot
                   (operators.Build_ShuffleWriteNode "root" shuffleName_
                      serializedShuffleWriteInfo
                      (operators.Build_GatherNode "shuffle-gather"
                         partitionAndSerializeNode))))
      end
  | _ => Err UserError "PartitionedOutputNode is required"
  end.

End FurtherTranslation.

(** ** Vocabulary of the further filter properties *)

(** Converted integer ranges in ascending order: every range is non-empty and
    within [int64], and at least one value lies between two consecutive
    ranges. *)
Fixpoint separatedAfter (previous : Z) (fs : list common.BigintRange)
  : Prop :=
  match fs with
  | [] => True
  | f :: rest =>
      (previous + 2 <= common.lower f)%Z /\
      (common.lower f <= common.upper f)%Z /\
      (common.upper f <= int64_max)%Z /\
      separatedAfter (common.upper f) rest
  end.

Definition separatedRanges (fs : list common.BigintRange) : Prop :=
  match fs with
  | [] => False
  | f :: rest =>
      (int64_min <= common.lower f)%Z /\
      (common.lower f <= common.upper f)%Z /\
      (common.upper f <= int64_max)%Z /\
      separatedAfter (common.upper f) rest
  end.

(** Modelled from the spec: the verdict of a filter on a non-null boolean
    (section 3, Filter: boolean value, is-null, is-not-null, always-false);
    [None] for filters that are not boolean filters. *)
Definition testBool (f : common.Filter) (v : bool) : option bool :=
  match f with
  | common.AlwaysFalse => Some false
  | common.IsNull => Some false
  | common.IsNotNull => Some true
  | common.BoolValue value _ => Some (bool_decide (value = v))
  | _ => None
  end.

(** The kinds for which [toFilter(type, range, ...)] has a case. *)
Definition hasRangeFilter (k : TypeKind.t) : bool :=
  match k with
  | TypeKind.TINYINT | TypeKind.SMALLINT | TypeKind.INTEGER | TypeKind.BIGINT
  | TypeKind.DOUBLE | TypeKind.VARCHAR | TypeKind.BOOLEAN | TypeKind.REAL
  | TypeKind.DATE => true
  | _ => false
  end.

(** A range without a literal on either side: [(-infinity, +infinity)]. *)
Definition unboundedRange (range : Range) : bool :=
  (isNullptr (valueBlock (low range)) &&
   bool_decide (bound (low range) = Bound.ABOVE)) &&
  (isNullptr (valueBlock (high range)) &&
   bool_decide (bound (high range) = Bound.BELOW)).

Section MoreRangeSemantics.

Variable exprConverter : VeloxExprConverter.
Variable type : TypePtr.

(** Brute-force reading of a boolean range, with [false < true]. *)
Definition boolLowAdmits (m : Marker) (v : bool) : bool :=
  match valueBlock m with
  | None => true
  | Some b =>
      match toBoolean (Some b) exprConverter type with
      | Ok x =>
          if bool_decide (bound m = Bound.ABOVE) then negb x && v
          else implb x v
      | Err _ _ => false
      end
  end.

Definition boolHighAdmits (m : Marker) (v : bool) : bool :=
  match valueBlock m with
  | None => true
  | Some b =>
      match toBoolean (Some b) exprConverter type with
      | Ok x =>
          if bool_decide (bound m = Bound.BELOW) then negb v && x
          else implb v x
      | Err _ _ => false
      end
  end.

Definition boolRangeContains (range : Range) (v : bool) : bool :=
  boolLowAdmits (low range) v && boolHighAdmits (high range) v.

(** A boolean range with a literal on both sides includes both literals, as
    the coordinator's normal form has it. *)
Definition doubleBoundedInclusive (range : Range) : Prop :=
  valueBlock (low range) <> None ->
  valueBlock (high range) <> None ->
  bound (low range) <> Bound.ABOVE /\ bound (high range) <> Bound.BELOW.

(** A single-point varchar range [[s, s]]. *)
Definition bytesPoint (range : Range) (s : string) : Prop :=
  bound (low range) = Bound.EXACTLY /\
  bound (high range) = Bound.EXACTLY /\
  toString (valueBlock (low range)) exprConverter type = Ok s /\
  toString (valueBlock (high range)) exprConverter type = Ok s.

(** The low marker of a range that starts right after [previous]:
    exclusive, without a literal when there is no previous value. *)
Definition opensAfter (previous : option string) (m : Marker) : Prop :=
  bound m = Bound.ABOVE /\
  match previous with
  | None => valueBlock m = None
  | Some value => toString (valueBlock m) exprConverter type = Ok value
  end.

(** [excludes previous ranges values]: the ranges are the gaps a NOT IN list
    leaves: each range is open on both sides, it ends at the next excluded
    value, the following range starts at that value, and the last range has
    no upper literal. *)
Inductive excludes : option string -> list Range -> list string -> Prop :=
| excludes_last previous range :
    opensAfter previous (low range) ->
    valueBlock (high range) = None ->
    bound (high range) = Bound.BELOW ->
    excludes previous [range] []
| excludes_next previous range rest value values :
    opensAfter previous (low range) ->
    bound (high range) = Bound.BELOW ->
    toString (valueBlock (high range)) exprConverter type = Ok value ->
    excludes (Some value) rest values ->
    excludes previous (range :: rest) (value :: values).

End MoreRangeSemantics.

(** The converted ranges of a NOT IN list, as [varcharRangeToFilter] builds
    them. *)
Fixpoint complementRanges (previous : option string) (values : list string)
    (nullAllowed : bool) : list common.BytesRange :=
  let lower := default "" previous in
  let lowerUnbounded := isNullptr previous in
  match values with
  | [] =>
      [common.Build_BytesRange lower lowerUnbounded true "" true true
         nullAllowed]
  | value :: rest =>
      common.Build_BytesRange lower lowerUnbounded true value false true
        nullAllowed
      :: complementRanges (Some value) rest nullAllowed
  end.

(** ** Vocabulary of the further table-handle and plan properties *)

(** The names of the partition columns a table handle's layout lists. *)
Definition layoutPartitionColumnNames (tableHandle : TableHandle)
  : list string :=
  match connectorTableLayout tableHandle with
  | HiveLayout hiveLayout =>
      map HiveColumnHandle_name (partitionColumns hiveLayout)
  | _ => []
  end.

(** The partitioning keys that are constants, with their type and value. *)
Definition constantKeys (partitioningKeys : list core.TypedExpr)
  : list (TypePtr * variant) :=
  omap (fun expr =>
          match expr with
          | core.ConstantTypedExpr type value => Some (type, value)
          | _ => None
          end)
       partitioningKeys.

Definition isPartitionedOutput (node : core.PlanNode) : bool :=
  match node with
  | core.PartitionedOutputNode _ _ _ _ _ _ _ _ => true
  | _ => false
  end.

(** The partitionings the fragment assembler has a case for: the single
    system partitioning with the single function, the fixed system
    partitioning with the round-robin, hash or broadcast function, and hive
    bucketing over a non-empty bucket-to-partition mapping, with the
    hive-compatible bucket function unless all buckets map to partition 0. *)
Definition supportedPartitioning (scheme : PartitioningScheme) : Prop :=
  match handle (partitioning scheme) with
  | SystemHandle h =>
      (sys_partitioning h = SystemPartitioning.SINGLE /\
       sys_function h = SystemPartitionFunction.SINGLE) \/
      (sys_partitioning h = SystemPartitioning.FIXED /\
       (sys_function h = SystemPartitionFunction.ROUND_ROBIN \/
        sys_function h = SystemPartitionFunction.HASH \/
        sys_function h = SystemPartitionFunction.BROADCAST))
  | HiveHandle h =>
      exists bucket buckets,
        bucketToPartition scheme = Some (bucket :: buckets) /\
        (bucketFunctionType h = BucketFunctionType.HIVE_COMPATIBLE \/
         foldr Z.max bucket buckets = 0%Z)
  | OtherPartitioningHandle _ => False
  end.

(** The entries of a bucket-to-partition mapping are [int32] values. *)
Definition int32Buckets (scheme : PartitioningScheme) : Prop :=
  match bucketToPartition scheme with
  | Some buckets => Forall (fun b => int32_min <= b <= int32_max)%Z buckets
  | None => True
  end.

(** An inner join without criteria and without filter. *)
Definition isCrossJoin (node : protocol'.JoinNode) : bool :=
  match protocol'.criteria node, protocol'.Join_type node,
        protocol'.filter node with
  | [], protocol'.JoinNodeType.INNER, None => true
  | _, _, _ => false
  end.

(** ** A concrete converter and sample inputs

    A small, executable stand-in for the collaborators, used to run the
    translation on concrete inputs: blocks hold their literal in text form,
    type signatures are the lower-case type names. *)

Module Fixture.

Fixpoint parseDigits (s : string) (acc : Z) : option Z :=
  match s with
  | EmptyString => Some acc
  | String c s' =>
      let n := (Z.of_nat (Ascii.nat_of_ascii c) - 48)%Z in
      if bool_decide (0 <= n <= 9)%Z then parseDigits s' (10 * acc + n)%Z
      else None
  end.

Definition parseInteger (s : string) : option Z :=
  match s with
  | EmptyString => None
  | String c s' =>
      if bool_decide (Ascii.nat_of_ascii c = 45%nat)
      then Z.opp <$> parseDigits s' 0
      else parseDigits s 0
  end.

Definition parseTypeSignature (s : string) : result TypePtr :=
  if bool_decide (s = "boolean") then Ok BOOLEAN
  else if bool_decide (s = "tinyint") then Ok (scalar TypeKind.TINYINT)
  else if bool_decide (s = "smallint") then Ok (scalar TypeKind.SMALLINT)
  else if bool_decide (s = "integer") then Ok (scalar TypeKind.INTEGER)
  else if bool_decide (s = "bigint") then Ok BIGINT
  else if bool_decide (s = "varchar") then Ok (scalar TypeKind.VARCHAR)
  else Err CollaboratorError "unknown type signature".

Definition decodeConstant (t : TypePtr) (b : Block) : result variant :=
  match b with
  | mkBlock s =>
      match kind t with
      | TypeKind.BOOLEAN =>
          if bool_decide (s = "true") then Ok (variant_bool true)
          else if bool_decide (s = "false") then Ok (variant_bool false)
          else Err CollaboratorError "bad boolean literal"
      | TypeKind.TINYINT | TypeKind.SMALLINT | TypeKind.INTEGER
      | TypeKind.BIGINT =>
          match parseInteger s with
          | Some z => Ok (variant_integer (kind t) z)
          | None => Err CollaboratorError "bad integer literal"
          end
      | TypeKind.VARCHAR => Ok (variant_varchar s)
      | _ => Err CollaboratorError "unsupported literal type"
      end
  end.

Definition convertVariable (v : VariableReferenceExpression)
  : result core.FieldAccessTypedExpr :=
  let* t := parseTypeSignature (type v) in
  Ok {| core.fa_type := t; core.fa_name := name v |}.

Fixpoint convertExpr (e : RowExpression) : result core.TypedExpr :=
  match e with
  | VariableReference v =>
      let* f := convertVariable v in Ok (core.FieldAccess f)
  | ConstantExpression b ty =>
      let* t := parseTypeSignature ty in
      let* v := decodeConstant t b in
      Ok (core.ConstantTypedExpr t v)
  | CallExpression displayName _ returnType arguments =>
      let* t := parseTypeSignature returnType in
      let* inputs := mapM convertExpr arguments in
      Ok (core.CallTypedExpr t inputs displayName)
  | OtherRowExpression _ => Err CollaboratorError "unsupported expression"
  end.

Definition exprConverter : VeloxExprConverter :=
  Build_VeloxExprConverter convertExpr convertVariable decodeConstant.

(** Markers and ranges over literals in text form. *)
Definition exactly (s : string) : Marker :=
  {| Marker_type := ""; valueBlock := Some (mkBlock s);
     bound := Bound.EXACTLY |}.
Definition above (s : string) : Marker :=
  {| Marker_type := ""; valueBlock := Some (mkBlock s);
     bound := Bound.ABOVE |}.
Definition below (s : string) : Marker :=
  {| Marker_type := ""; valueBlock := Some (mkBlock s);
     bound := Bound.BELOW |}.
Definition lowerUnbounded : Marker :=
  {| Marker_type := ""; valueBlock := None; bound := Bound.ABOVE |}.
Definition upperUnbounded : Marker :=
  {| Marker_type := ""; valueBlock := None; bound := Bound.BELOW |}.
Definition point (s : string) : Range :=
  {| low := exactly s; high := exactly s |}.

(** [x IN (3, 5, 8)] on a bigint column. *)
Definition threePoints : Domain :=
  {| values := SortedRangeSet "bigint" [point "3"; point "5"; point "8"];
     nullAllowed := false |}.

(** [x NOT IN (3, 5)] on a bigint column:
    (-inf, 3), (3, 5), (5, +inf). *)
Definition notThreeNorFive : list Range :=
  [ {| low := lowerUnbounded; high := below "3" |};
    {| low := above "3"; high := below "5" |};
    {| low := above "5"; high := upperUnbounded |} ].

(** [b = TRUE] on a boolean column: the single range [TRUE, TRUE]. *)
Definition isTrue : Domain :=
  {| values := SortedRangeSet "boolean" [point "true"];
     nullAllowed := false |}.

(** The contradictory boolean range [FALSE, TRUE]. *)
Definition falseToTrue : Range :=
  {| low := exactly "false"; high := exactly "true" |}.


Definition fromTableName (tableName : string)
  : result connector.tpch.Table :=
  if bool_decide (tableName = "orders") then Ok connector.tpch.TBL_ORDERS
  else if bool_decide (tableName = "lineitem")
  then Ok connector.tpch.TBL_LINEITEM
  else Err CollaboratorError "Invalid TPC-H table name".

(** Task ids in the text form [queryId.stageId.stageExecutionId.id]. *)
Fixpoint splitOnDot (s : string) (current : string) : list string :=
  match s with
  | EmptyString => [current]
  | String c s' =>
      if bool_decide (Ascii.nat_of_ascii c = 46%nat)
      then current :: splitOnDot s' ""
      else splitOnDot s' (String.append current (String c EmptyString))
  end.

Definition parsePrestoTaskId (taskId : string) : result PrestoTaskId :=
  match splitOnDot taskId "" with
  | [queryId; stage; execution; task] =>
      match parseInteger stage, parseInteger execution, parseInteger task with
      | Some s, Some e, Some t => Ok (Build_PrestoTaskId queryId s e t)
      | _, _, _ => Err CollaboratorError "bad task id"
      end
  | _ => Err CollaboratorError "bad task id"
  end.

Definition taskId : string := "20230101_000000_00000_abcde.1029.0.16389".

Definition tableWriteInfo : TableWriteInfo := {| writerTarget := "" |}.

(** The stand-in for the branches that are not embedded: a node with one
    bigint column named by the node's [fields]. *)
Definition lowerOther (node : OtherNode) (sources : list core.PlanNode)
    (_ : TableWriteInfo) (_ : string) : result core.PlanNode :=
  Ok (core.OtherPlanNode (fields node) (ROW [fields node] [BIGINT]) sources).

Definition values (column : string) : PlanNode :=
  Other {| nodeClass := OtherNodeClass.ValuesNode; fields := column |} [].

Definition bigintVariable (n : string) : VariableReferenceExpression :=
  {| name := n; type := "bigint" |}.

Definition systemScheme (p : SystemPartitioning.t)
    (f : SystemPartitionFunction.t)
    (layout : list VariableReferenceExpression)
    (buckets : option (list Z)) : PartitioningScheme :=
  {| partitioning :=
       {| handle := SystemHandle {| sys_partitioning := p;
                                    sys_function := f |};
          Partitioning_arguments := [] |};
     outputLayout := layout;
     replicateNullsAndAny := false;
     bucketToPartition := buckets |}.

Definition localExchange (id : string) (t : ExchangeNodeType.t)
    (p : SystemPartitioning.t) (f : SystemPartitionFunction.t)
    (layout : list VariableReferenceExpression) : ExchangeNode :=
  {| Exchange_id := id;
     Exchange_type := t;
     scope := ExchangeNodeScope.LOCAL;
     partitioningScheme := systemScheme p f layout None;
     inputs := [layout];
     orderingScheme := None |}.

Definition roundRobinExchange (id : string)
    (layout : list VariableReferenceExpression) : ExchangeNode :=
  localExchange id ExchangeNodeType.REPARTITION SystemPartitioning.FIXED
    SystemPartitionFunction.ROUND_ROBIN layout.

Definition gatherExchange (id : string)
    (layout : list VariableReferenceExpression) : ExchangeNode :=
  localExchange id ExchangeNodeType.GATHER SystemPartitioning.SINGLE
    SystemPartitionFunction.SINGLE layout.

Definition builtIn (n : string) : FunctionHandle :=
  BuiltInFunctionHandle
    {| Signature_name := n; Signature_kind := FunctionKind.SCALAR |}.

Definition rowNumberColumn : VariableReferenceExpression :=
  bigintVariable "row_number".

(** [row_number > 5]. *)
Definition rowNumberGreaterThanFive : RowExpression :=
  CallExpression "GREATER_THAN"
    (builtIn "presto.default.$operator$greater_than") "boolean"
    [VariableReference rowNumberColumn;
     ConstantExpression (mkBlock "5") "bigint"].

Definition dropRowNumber : ProjectNode :=
  {| Project_id := "7";
     Project_assignments :=
       {| assignments :=
            [(bigintVariable "a", VariableReference (bigintVariable "a"))] |}
  |}.

(** A projection that renames its input column: not an identity
    projection. *)
Definition renameColumn : ProjectNode :=
  {| Project_id := "7";
     Project_assignments :=
       {| assignments :=
            [(bigintVariable "b", VariableReference (bigintVariable "a"))] |}
  |}.

Definition columns : list VariableReferenceExpression :=
  [bigintVariable "a"; rowNumberColumn].

Definition limitTen : LimitNode :=
  {| Limit_id := "5"; count := 10; step := LimitNodeStep.FINAL |}.

Definition offsetFilter : FilterNode :=
  {| Filter_id := "3"; predicate := rowNumberGreaterThanFive |}.

Definition rowNumberNode : RowNumberNode :=
  {| RowNumber_id := "1";
     partitionBy := [];
     rowNumberVariable := rowNumberColumn |}.

(** The plan of [SELECT a FROM t OFFSET 5 LIMIT 10].  Only the exchange
    beneath the projection is round-robin; the two below gather. *)
Definition offsetLimitSource : PlanNode :=
  Exchange (roundRobinExchange "6" columns)
    [Limit limitTen
       (Exchange (gatherExchange "4" columns)
          [Filter offsetFilter
             (Exchange (gatherExchange "2" columns)
                [RowNumber rowNumberNode (values "a")])])].

Definition offsetLimitPlan : PlanNode :=
  Project dropRowNumber offsetLimitSource.

(** A semi join of [a] against [b] with the flag column [flag]. *)
Definition flag : VariableReferenceExpression :=
  {| name := "flag"; type := "boolean" |}.

Definition semiJoin : SemiJoinNode :=
  {| SemiJoin_id := "2";
     sourceJoinVariable := bigintVariable "a";
     filteringSourceJoinVariable := bigintVariable "b";
     semiJoinOutput := flag |}.

Definition filterOverSemiJoin (p : RowExpression) : PlanNode :=
  Filter {| Filter_id := "3"; predicate := p |}
    (SemiJoin semiJoin (values "a") (values "b")).

Definition notFlag : RowExpression :=
  CallExpression "NOT" (builtIn "presto.default.not") "boolean"
    [VariableReference flag].

Definition flagOrOther : RowExpression :=
  CallExpression "OR" (builtIn "presto.default.or") "boolean"
    [VariableReference flag;
     VariableReference {| name := "x"; type := "boolean" |}].

(** A hive table handle whose layout has filter pushdown disabled. *)
Definition pushdownDisabled : TableHandle :=
  {| connectorId := "hive";
     connectorHandle :=
       HiveTable {| schemaName := "tpch"; tableName := "orders" |};
     connectorTableLayout :=
       HiveLayout
         {| pushdownFilterEnabled := false;
            partitionColumns := [];
            domains := Some [];
            remainingPredicate :=
              ConstantExpression (mkBlock "true") "boolean" |} |}.

(** Fragments over one values node, with one output partition. *)
Definition ungrouped : StageExecutionDescriptor :=
  {| stageExecutionStrategy := StageExecutionStrategy.UNGROUPED_EXECUTION;
     groupedExecutionScanNodes := [];
     totalLifespans := 1 |}.

Definition hashFragment : PlanFragment :=
  {| root := values "a";
     PlanFragment_partitioningScheme :=
       {| partitioning :=
            {| handle :=
                 SystemHandle
                   {| sys_partitioning := SystemPartitioning.FIXED;
                      sys_function := SystemPartitionFunction.HASH |};
               Partitioning_arguments :=
                 [VariableReference (bigintVariable "a")] |};
          outputLayout := [bigintVariable "a"];
          replicateNullsAndAny := false;
          bucketToPartition := Some [0%Z] |};
     stageExecutionDescriptor := ungrouped |}.

Definition hiveFragment : PlanFragment :=
  {| root := values "a";
     PlanFragment_partitioningScheme :=
       {| partitioning :=
            {| handle :=
                 HiveHandle
                   {| bucketCount := 4;
                      bucketFunctionType :=
                        BucketFunctionType.PRESTO_NATIVE |};
               Partitioning_arguments :=
                 [VariableReference (bigintVariable "a")] |};
          outputLayout := [bigintVariable "a"];
          replicateNullsAndAny := false;
          bucketToPartition := Some [0; 0; 0; 0]%Z |};
     stageExecutionDescriptor := ungrouped |}.

End Fixture.

(** The translation and the fragment assembly with the collaborators of
    [Fixture]. *)
Abbreviation lower :=
  (toVeloxQueryPlan Fixture.parseTypeSignature Fixture.parsePrestoTaskId
     Fixture.exprConverter Fixture.lowerOther).

Abbreviation assembleFragment :=
  (toVeloxQueryPlan_PlanFragment Fixture.parseTypeSignature
     Fixture.parsePrestoTaskId Fixture.exprConverter Fixture.lowerOther).

(** ** Further sample inputs *)

Module Sample.

Import Fixture.

(** A parser that knows one type outside the kinds with a range filter. *)
Definition parseTimestamp (s : string) : result TypePtr :=
  if bool_decide (s = "timestamp") then Ok (scalar TypeKind.TIMESTAMP)
  else Err CollaboratorError "unknown type signature".

Definition VARCHAR : TypePtr := scalar TypeKind.VARCHAR.

(** The converted ranges [[-5, 2]], [[10, 10]] and [[20, 30]]. *)
Definition threeRanges : list common.BigintRange :=
  [ common.Build_BigintRange (-5) 2 false;
    common.Build_BigintRange 10 10 false;
    common.Build_BigintRange 20 30 false ].

(** [x > 3 AND x <= 8] on a bigint column: the range [(3, 8]]. *)
Definition aboveThreeToEight : Range :=
  {| low := above "3"; high := exactly "8" |}.

(** [b < TRUE] on a boolean column: the range [(-infinity, TRUE)]. *)
Definition belowTrue : Range :=
  {| low := lowerUnbounded; high := below "true" |}.

(** [s NOT IN ('a', 'b')] on a varchar column. *)
Definition notAorB : list Range :=
  [ {| low := lowerUnbounded; high := below "a" |};
    {| low := above "a"; high := below "b" |};
    {| low := above "b"; high := upperUnbounded |} ].

(** [x < 3 OR (x > 3 AND x <= 9223372036854775806)
    OR x = 9223372036854775807] on a bigint column: every [int64] but 3, the
    last two ranges next to each other. *)
Definition notThreeMaximumApart : list Range :=
  [ {| low := lowerUnbounded; high := below "3" |};
    {| low := above "3"; high := exactly "9223372036854775806" |};
    point "9223372036854775807" ].

(** The unbounded range. *)
Definition everything : Range :=
  {| low := lowerUnbounded; high := upperUnbounded |}.

(** A hive table with one partition column, one domain and an always-true
    remaining predicate. *)
Definition dsColumn : HiveColumnHandle :=
  {| HiveColumnHandle_name := "ds";
     columnType := ColumnType.PARTITION_KEY;
     typeSignature := "varchar";
     requiredSubfields := [] |}.

Definition aColumn : HiveColumnHandle :=
  {| HiveColumnHandle_name := "a";
     columnType := ColumnType.REGULAR;
     typeSignature := "bigint";
     requiredSubfields := [] |}.

Definition ordersLayout : HiveTableLayoutHandle :=
  {| pushdownFilterEnabled := true;
     partitionColumns := [dsColumn];
     domains := Some [("a", threePoints)];
     remainingPredicate := ConstantExpression (mkBlock "true") "boolean" |}.

Definition orders : TableHandle :=
  {| connectorId := "hive";
     connectorHandle :=
       HiveTable {| schemaName := "tpch"; tableName := "orders" |};
     connectorTableLayout := HiveLayout ordersLayout |}.

Definition ordersFilters : gmap string common.Filter :=
  <["a" := common.BigintValues [3; 5; 8]%Z false]> ∅.

Definition ordersHandle : connector.ConnectorTableHandle :=
  connector.HiveTableHandle "hive" "tpch.orders" true ordersFilters None.

Definition dsHandle : connector.ColumnHandle :=
  connector.HiveColumnHandle "ds" connector.HiveColumnType.kPartitionKey
    VARCHAR [].

Definition aHandle : connector.ColumnHandle :=
  connector.HiveColumnHandle "a" connector.HiveColumnType.kRegular BIGINT [].

(** A scan of the table that reads column [a]. *)
Definition scanOrders : protocol'.TableScanNode :=
  {| protocol'.TableScan_id := "0";
     protocol'.table := orders;
     protocol'.TableScan_outputVariables := [bigintVariable "a"];
     protocol'.TableScan_assignments :=
       [(bigintVariable "a", Some (HiveColumn aColumn))] |}.

(** A local exchange that merges its sources on column [a]. *)
Definition mergeExchange : ExchangeNode :=
  {| Exchange_id := "8";
     Exchange_type := ExchangeNodeType.GATHER;
     scope := ExchangeNodeScope.LOCAL;
     partitioningScheme :=
       systemScheme SystemPartitioning.SINGLE SystemPartitionFunction.SINGLE
         [bigintVariable "a"] None;
     inputs := [[bigintVariable "a"]];
     orderingScheme :=
       Some {| orderBy :=
                 [{| variable := bigintVariable "a";
                     sortOrder := SortOrder.ASC_NULLS_LAST |}] |} |}.

(** The same exchange between two stages. *)
Definition remoteExchange : ExchangeNode :=
  {| Exchange_id := "8";
     Exchange_type := ExchangeNodeType.GATHER;
     scope := ExchangeNodeScope.REMOTE_STREAMING;
     partitioningScheme := partitioningScheme mergeExchange;
     inputs := inputs mergeExchange;
     orderingScheme := orderingScheme mergeExchange |}.

(** The lowering of [Fixture.values]. *)
Definition loweredValues (column : string) : core.PlanNode :=
  core.OtherPlanNode column (ROW [column] [BIGINT]) [].

Definition fieldA : core.FieldAccessTypedExpr :=
  {| core.fa_type := BIGINT; core.fa_name := "a" |}.

Definition fieldB : core.FieldAccessTypedExpr :=
  {| core.fa_type := BIGINT; core.fa_name := "b" |}.

(** Fragments over one values node. *)
Definition fragmentWith (scheme : PartitioningScheme) : PlanFragment :=
  {| root := values "a";
     PlanFragment_partitioningScheme := scheme;
     stageExecutionDescriptor := ungrouped |}.

Definition hashTwoWays : PlanFragment :=
  fragmentWith
    {| partitioning :=
         {| handle :=
              SystemHandle
                {| sys_partitioning := SystemPartitioning.FIXED;
                   sys_function := SystemPartitionFunction.HASH |};
            Partitioning_arguments :=
              [VariableReference (bigintVariable "a")] |};
       outputLayout := [bigintVariable "a"];
       replicateNullsAndAny := false;
       bucketToPartition := Some [0; 1]%Z |}.

Definition broadcastFragment : PlanFragment :=
  fragmentWith
    (systemScheme SystemPartitioning.FIXED SystemPartitionFunction.BROADCAST
       [bigintVariable "a"] None).

Definition nativeBuckets : HivePartitioningHandle :=
  {| bucketCount := 4; bucketFunctionType := BucketFunctionType.PRESTO_NATIVE |}.

Definition nativeTwoWays : PlanFragment :=
  fragmentWith
    {| partitioning :=
         {| handle := HiveHandle nativeBuckets;
            Partitioning_arguments :=
              [VariableReference (bigintVariable "a")] |};
       outputLayout := [bigintVariable "a"];
       replicateNullsAndAny := false;
       bucketToPartition := Some [0; 1; 0; 1]%Z |}.

(** An inner join on [a = b], and the cross join of the same inputs. *)
Definition joinOnAB : protocol'.JoinNode :=
  {| protocol'.Join_id := "9";
     protocol'.Join_type := protocol'.JoinNodeType.INNER;
     protocol'.criteria :=
       [{| protocol'.left := bigintVariable "a";
           protocol'.right := bigintVariable "b" |}];
     protocol'.Join_outputVariables :=
       [bigintVariable "a"; bigintVariable "b"];
     protocol'.filter := None |}.

End Sample.

(** The table-scan and join lowering and the batch converter with the
    collaborators of [Fixture]. *)
Abbreviation lowerTableScan :=
  (toVeloxQueryPlan_TableScanNode Fixture.parseTypeSignature
     Fixture.fromTableName Fixture.exprConverter).

Abbreviation lowerJoinNode :=
  (toVeloxQueryPlan_JoinNode Fixture.parseTypeSignature
     Fixture.parsePrestoTaskId Fixture.exprConverter Fixture.lowerOther).

Abbreviation assembleBatchFragment :=
  (VeloxBatchQueryPlanConverter_toVeloxQueryPlan Fixture.parseTypeSignature
     Fixture.parsePrestoTaskId Fixture.exprConverter Fixture.lowerOther).

(** * Properties *)

(** ** Executable checks of the filter compiler *)

Example toFilter_threePoints :
  toFilter Fixture.parseTypeSignature Fixture.threePoints
           Fixture.exprConverter
  = Ok (common.BigintValues [3; 5; 8]%Z false).
Proof. vm_compute. reflexivity. Qed.

Example toFilter_notThreeNorFive :
  toFilter Fixture.parseTypeSignature
    {| values := SortedRangeSet "bigint" Fixture.notThreeNorFive;
       nullAllowed := true |}
    Fixture.exprConverter
  = Ok (common.NegatedBigintValues [3; 5]%Z true).
Proof. vm_compute. reflexivity. Qed.

Example toFilter_isTrue :
  toFilter Fixture.parseTypeSignature Fixture.isTrue Fixture.exprConverter
  = Ok (common.BoolValue true false).
Proof. vm_compute. reflexivity. Qed.

(** ** Generic facts *)

Lemma mapM_Forall2 {A B} (f : A -> result B) (R : A -> B -> Prop) l l' :
  (forall a b, R a b -> f a = Ok b) ->
  Forall2 R l l' -> mapM f l = Ok l'.
Proof.
  intros Hf Hall. induction Hall as [|a b l l' Hab _ IH]; simpl; [done|].
  by rewrite (Hf _ _ Hab), IH.
Qed.

Lemma memZ_elem_of (v : Z) (vs : list Z) :
  common.memZ v vs = bool_decide (v ∈ vs).
Proof.
  unfold common.memZ.
  induction vs as [|x vs IH]; [done|].
  cbn [existsb]. rewrite IH.
  destruct (decide (x = v)) as [->|Hne].
  - rewrite (bool_decide_eq_true_2 (v = v)) by done.
    rewrite (bool_decide_eq_true_2 (v ∈ v :: vs)) by left. done.
  - rewrite (bool_decide_eq_false_2 (x = v)) by done. cbn [orb].
    apply bool_decide_ext. rewrite elem_of_cons. intuition congruence.
Qed.

Lemma memZ_app (v : Z) (l1 l2 : list Z) :
  common.memZ v (l1 ++ l2) = common.memZ v l1 || common.memZ v l2.
Proof. unfold common.memZ. apply existsb_app. Qed.

Lemma wrap64_id (z : Z) : is_int64 z -> wrap64 z = z.
Proof.
  unfold is_int64, int64_min, int64_max, wrap64. intros H.
  rewrite Z.mod_small by lia. lia.
Qed.

Lemma isIntegerKind_branch (k : TypeKind.t) :
  isIntegerKind k = true ->
  bool_decide (k = TypeKind.BIGINT) || bool_decide (k = TypeKind.INTEGER) ||
  bool_decide (k = TypeKind.SMALLINT) || bool_decide (k = TypeKind.TINYINT)
  = true.
Proof. done. Qed.

(** ** Filter compiler *)

Lemma memZ_singleton (v a : Z) : common.memZ v [a] = bool_decide (a = v).
Proof. unfold common.memZ. cbn [existsb]. apply orb_false_r. Qed.

Ltac bool_prop :=
  repeat rewrite ?negb_true_iff, ?negb_false_iff, ?orb_true_iff,
    ?orb_false_iff, ?andb_true_iff, ?andb_false_iff, ?bool_decide_eq_true,
    ?bool_decide_eq_false.

Section FilterCompiler.

Variable parseTypeSignature : string -> result TypePtr.
Variable exprConverter : VeloxExprConverter.

(** C9.  An enumerated-equality value set without entries compiles without
    failure, to is-null when the domain allows nulls and to is-not-null when
    it does not; with at least one entry it fails with UnsupportedConstruct. *)
Theorem C9_equatable_value_set :
  forall (type : string) (entries : list Block) (nullAllowed : bool),
    toFilter parseTypeSignature
      {| values := EquatableValueSet type entries;
         nullAllowed := nullAllowed |}
      exprConverter
    = match entries with
      | [] => Ok (if nullAllowed then common.IsNull else common.IsNotNull)
      | _ :: _ =>
          Err UnsupportedConstruct
            "EquatableValueSet (with non-empty entries) to Velox filter conversion is not supported yet."
      end.
Proof.
  intros type entries nullAllowed. unfold toFilter. simpl.
  destruct entries; [by destruct nullAllowed | reflexivity].
Qed.

Lemma singlePoint_filter type range x nullAllowed :
  singlePoint exprConverter type range x ->
  bigintRangeToFilter range nullAllowed exprConverter type
  = Ok (common.Build_BigintRange x x nullAllowed).
Proof.
  intros (Hlow & Hhigh & Hl & Hh). unfold bigintRangeToFilter.
  destruct (valueBlock (low range)) as [bl|] eqn:El; [|discriminate Hl].
  destruct (valueBlock (high range)) as [bh|] eqn:Eh; [|discriminate Hh].
  simpl. rewrite Hl, Hh, Hlow, Hhigh. reflexivity.
Qed.

Lemma combineIntegerRanges_points (points : list Z) (nullAllowed : bool) :
  combineIntegerRanges
    (map (fun x => common.Build_BigintRange x x nullAllowed) points)
    nullAllowed
  = Ok (common.BigintValues points nullAllowed).
Proof.
  unfold combineIntegerRanges.
  assert (forallb common.isSingleValue
            (map (fun x => common.Build_BigintRange x x nullAllowed) points)
          = true) as ->.
  { induction points as [|x l IH]; [done|]. cbn [map forallb].
    rewrite IH. unfold common.isSingleValue. simpl.
    by rewrite bool_decide_eq_true_2. }
  rewrite map_map. simpl. by rewrite map_id.
Qed.

(** C5.  An integer-typed domain with more than one range, all of them
    single points, compiles to a value-set filter that accepts a value
    exactly when it is one of the points, and accepts null exactly when the
    domain allows nulls. *)
Theorem C5_single_points_value_set :
  forall (typeSignature : string) (type : TypePtr) (ranges : list Range)
         (points : list Z) (nullAllowed : bool),
    stringToType parseTypeSignature typeSignature = Ok type ->
    isIntegerKind (kind type) = true ->
    (1 < length ranges)%nat ->
    Forall2 (singlePoint exprConverter type) ranges points ->
    exists filter,
      toFilter parseTypeSignature
        {| values := SortedRangeSet typeSignature ranges;
           nullAllowed := nullAllowed |}
        exprConverter = Ok filter /\
      common.Filter_kind filter = common.FilterKind.kBigintValues /\
      (forall v : Z,
         common.testInt64 filter v = Some (bool_decide (v ∈ points))) /\
      common.testNull filter = nullAllowed.
Proof.
  intros typeSignature type ranges points nullAllowed Htype Hkind Hlen Hpts.
  exists (common.BigintValues points nullAllowed).
  split; [|split; [reflexivity|split]].
  - unfold toFilter. cbn [values protocol.nullAllowed]. rewrite Htype.
    cbn [bind].
    destruct ranges as [|r1 [|r2 rest]]; [simpl in Hlen; lia ..|].
    rewrite (isIntegerKind_branch _ Hkind).
    rewrite (mapM_Forall2 _
               (fun r f => exists x, singlePoint exprConverter type r x /\
                           f = common.Build_BigintRange x x nullAllowed)
               _ (map (fun x => common.Build_BigintRange x x nullAllowed)
                      points)).
    + cbn [bind]. apply combineIntegerRanges_points.
    + intros r f (x & Hx & ->). by apply singlePoint_filter.
    + apply Forall2_fmap_r. eapply Forall2_impl; [exact Hpts|].
      intros r x Hx. simpl. eauto.
  - intros v. simpl. by rewrite memZ_elem_of.
  - reflexivity.
Qed.

Lemma toBoolean_Ok_block block type v :
  toBoolean block exprConverter type = Ok v -> exists b, block = Some b.
Proof. destruct block; [eauto | discriminate]. Qed.

Lemma boolRangeToFilter_contradictory type range nullAllowed lowValue highValue :
  doubleBounded exprConverter type range lowValue highValue ->
  lowValue <> highValue ->
  boolRangeToFilter range nullAllowed exprConverter type
  = Err InvariantViolation
      "Boolean range should not be [FALSE, TRUE] after coordinator optimization.".
Proof.
  intros [Hl Hh] Hne. unfold boolRangeToFilter.
  destruct (toBoolean_Ok_block _ _ _ Hl) as [bl El].
  destruct (toBoolean_Ok_block _ _ _ Hh) as [bh Eh].
  rewrite El, Eh in *. cbn [isNullptr andb negb]. rewrite Hl, Hh. cbn [bind].
  by rewrite bool_decide_eq_false_2.
Qed.

Lemma boolRangeToFilter_decodable type range nullAllowed :
  decodableBoolRange exprConverter type range ->
  okOrInvariantViolation
    (boolRangeToFilter range nullAllowed exprConverter type).
Proof.
  intros [Hl Hh]. unfold boolRangeToFilter.
  destruct (valueBlock (low range)) as [bl|];
    destruct (valueBlock (high range)) as [bh|]; cbn [isNullptr andb negb].
  - destruct Hl as [a ->], Hh as [b ->]. cbn [bind].
    unfold VELOX_CHECK. by case_bool_decide.
  - destruct Hl as [a Ha]. rewrite Hh. 
    rewrite (bool_decide_eq_true_2 (Bound.BELOW = Bound.BELOW)) by done.
    cbn [andb negb]. rewrite Ha.
    destruct (bool_decide (bound (low range) = Bound.ABOVE)), a, nullAllowed; done.
  - destruct Hh as [b Hb]. rewrite Hl.
    rewrite (bool_decide_eq_true_2 (Bound.ABOVE = Bound.ABOVE)) by done.
    cbn [andb negb]. rewrite Hb.
    destruct (bool_decide (bound (high range) = Bound.BELOW)), b, nullAllowed; done.
  - rewrite Hl, Hh. done.
Qed.

Lemma boolRangesLoop_contradictory type ranges nullAllowed range lowValue
    highValue boolFilter :
  Forall (decodableBoolRange exprConverter type) ranges ->
  range ∈ ranges ->
  doubleBounded exprConverter type range lowValue highValue ->
  lowValue <> highValue ->
  exists message,
    boolRangesLoop ranges nullAllowed exprConverter type boolFilter
    = Err InvariantViolation message.
Proof.
  intros Hall Hin Hdb Hne. revert boolFilter.
  induction ranges as [|r rest IH]; intros boolFilter.
  - by apply elem_of_nil in Hin.
  - cbn [boolRangesLoop].
    apply elem_of_cons in Hin as [->|Hin].
    + rewrite (boolRangeToFilter_contradictory _ _ _ _ _ Hdb Hne). eauto.
    + apply Forall_cons in Hall as [Hr Hrest].
      pose proof (boolRangeToFilter_decodable type r nullAllowed Hr) as Hok.
      destruct (boolRangeToFilter r nullAllowed exprConverter type)
        as [f|k m]; cbn [bind].
      * destruct (_ || _); [by apply IH|].
        destruct boolFilter; cbn [isNullptr VELOX_CHECK bind]; [eauto|].
        by apply IH.
      * simpl in Hok. subst k. eauto.
Qed.

(** C8 (amended).  In a boolean-typed domain whose ranges are decodable, a
    double-bounded range with different low and high values (the range
    [[FALSE, TRUE]]) makes the compilation fail with InvariantViolation.  A
    double-bounded range whose two values are equal is accepted: alone in
    its domain it compiles to the boolean-value filter of that value. *)
Theorem C8_double_bounded_boolean_range :
  forall (typeSignature : string) (type : TypePtr) (ranges : list Range)
         (nullAllowed : bool) (range : Range) (lowValue highValue : bool),
    stringToType parseTypeSignature typeSignature = Ok type ->
    kind type = TypeKind.BOOLEAN ->
    Forall (decodableBoolRange exprConverter type) ranges ->
    range ∈ ranges ->
    doubleBounded exprConverter type range lowValue highValue ->
    (lowValue <> highValue ->
     exists message,
       toFilter parseTypeSignature
         {| values := SortedRangeSet typeSignature ranges;
            nullAllowed := nullAllowed |}
         exprConverter = Err InvariantViolation message) /\
    (lowValue = highValue ->
     ranges = [range] ->
     toFilter parseTypeSignature
       {| values := SortedRangeSet typeSignature ranges;
          nullAllowed := nullAllowed |}
       exprConverter = Ok (common.BoolValue lowValue nullAllowed)).
Proof.
  intros typeSignature type ranges nullAllowed range lowValue highValue
    Htype Hkind Hall Hin Hdb.
  split.
  - intros Hne.
    unfold toFilter. cbn [values protocol.nullAllowed]. rewrite Htype.
    cbn [bind].
    destruct ranges as [|r1 [|r2 [|r3 rest]]].
    + by apply elem_of_nil in Hin.
    + apply list_elem_of_singleton in Hin as <-.
      destruct Hdb as [Hl Hh].
      destruct (toBoolean_Ok_block _ _ _ Hl) as [bl El]. rewrite El.
      cbn [isNullptr andb]. unfold toFilter_range. rewrite Hkind.
      rewrite (boolRangeToFilter_contradictory _ _ _ lowValue highValue);
        [eauto | by split | done].
    + rewrite Hkind. cbn [bool_decide decide_rel orb].
      simpl bool_decide. cbn [orb VELOX_CHECK bind].
      destruct (boolRangesLoop_contradictory type [r1; r2] nullAllowed range
                  lowValue highValue None Hall Hin Hdb Hne) as [m ->].
      eauto.
    + rewrite Hkind. simpl. eauto.
  - intros <- ->.
    unfold toFilter. cbn [values protocol.nullAllowed]. rewrite Htype.
    cbn [bind].
    destruct Hdb as [Hl Hh].
    destruct (toBoolean_Ok_block _ _ _ Hl) as [bl El].
    destruct (toBoolean_Ok_block _ _ _ Hh) as [bh Eh].
    rewrite El. cbn [isNullptr andb]. unfold toFilter_range. rewrite Hkind.
    unfold boolRangeToFilter. rewrite El, Eh in *.
    cbn [isNullptr andb negb]. rewrite Hl, Hh. cbn [bind].
    by rewrite bool_decide_eq_true_2.
Qed.

Lemma bigintRangeToFilter_bounds type range nullAllowed lo hi :
  leastValue exprConverter type range = Some lo ->
  greatestValue exprConverter type range = Some hi ->
  is_int64 lo -> is_int64 hi ->
  bigintRangeToFilter range nullAllowed exprConverter type
  = Ok (common.Build_BigintRange lo hi nullAllowed).
Proof.
  unfold leastValue, greatestValue, bigintRangeToFilter.
  intros Hlo Hhi Il Ih.
  destruct (valueBlock (low range)) as [bl|];
    destruct (valueBlock (high range)) as [bh|]; cbn [isNullptr negb andb].
  - destruct (toInt64 (Some bl) exprConverter type) as [x|]; [|done].
    destruct (toInt64 (Some bh) exprConverter type) as [y|]; [|done].
    cbn [bind]. simplify_eq.
    do 2 case_bool_decide; by rewrite ?wrap64_id.
  - destruct (toInt64 (Some bl) exprConverter type) as [x|]; [|done].
    cbn [bind]. simplify_eq.
    case_bool_decide; by rewrite ?wrap64_id.
  - destruct (toInt64 (Some bh) exprConverter type) as [y|]; [|done].
    cbn [bind]. simplify_eq.
    case_bool_decide; by rewrite ?wrap64_id.
  - cbn [bind]. by simplify_eq.
Qed.

Lemma rangeContains_bounds type range lo hi v :
  leastValue exprConverter type range = Some lo ->
  greatestValue exprConverter type range = Some hi ->
  is_int64 v ->
  rangeContains exprConverter type range v
  = bool_decide (lo <= v)%Z && bool_decide (v <= hi)%Z.
Proof.
  unfold leastValue, greatestValue, rangeContains, lowAdmits, highAdmits,
    is_int64.
  intros Hlo Hhi Hv. f_equal.
  - clear Hhi. destruct (valueBlock (low range)) as [bl|].
    + destruct (toInt64 (Some bl) exprConverter type) as [x|]; [|done].
      simplify_eq. case_bool_decide; apply bool_decide_ext; lia.
    + simplify_eq. symmetry. apply bool_decide_eq_true_2. lia.
  - clear Hlo. destruct (valueBlock (high range)) as [bh|].
    + destruct (toInt64 (Some bh) exprConverter type) as [x|]; [|done].
      simplify_eq. case_bool_decide; apply bool_decide_ext; lia.
    + simplify_eq. symmetry. apply bool_decide_eq_true_2. lia.
Qed.

Lemma tiledAfter_room type previous ranges :
  tiledAfter exprConverter type previous ranges ->
  (previous + 2 <= int64_max)%Z.
Proof. induction 1; lia. Qed.

Lemma tiledFiltersAfter_room previous fs :
  tiledFiltersAfter previous fs -> (previous + 2 <= int64_max)%Z.
Proof. induction 1; lia. Qed.



Lemma tiledAfter_filters type nullAllowed previous ranges :
  tiledAfter exprConverter type previous ranges ->
  (int64_min <= previous)%Z ->
  exists fs,
    mapM (fun range => bigintRangeToFilter range nullAllowed exprConverter type)
         ranges = Ok fs /\
    tiledFiltersAfter previous fs /\
    forall v, is_int64 v ->
      accepts fs v = anyRangeMatches exprConverter type ranges v.
Proof.
  induction 1 as [previous range lo Hlo Hprev Hle Hhi
                 |previous range rest lo hi Hlo Hprev Hhi Hle Hrest IH];
    intros Hmin.
  - exists [common.Build_BigintRange lo int64_max nullAllowed].
    split; [|split].
    + cbn [mapM].
      rewrite (bigintRangeToFilter_bounds _ _ _ lo int64_max); try done;
        unfold is_int64, int64_min, int64_max in *; lia.
    + by constructor.
    + intros v Hv. unfold anyRangeMatches. cbn [existsb].
      by rewrite (rangeContains_bounds _ _ lo int64_max).
  - pose proof (tiledAfter_room _ _ _ Hrest) as Hroom.
    destruct IH as (fs & Hfs & Htiled & Hsem); [lia|].
    exists (common.Build_BigintRange lo hi nullAllowed :: fs).
    split; [|split].
    + cbn [mapM].
      rewrite (bigintRangeToFilter_bounds _ _ _ lo hi); try done;
        [|unfold is_int64, int64_min, int64_max in *; lia ..].
      cbn [bind]. by rewrite Hfs.
    + by constructor.
    + intros v Hv. unfold anyRangeMatches. cbn [existsb].
      rewrite (rangeContains_bounds _ _ lo hi) by done.
      f_equal. by apply Hsem.
Qed.

Lemma rejectedValuesLoop_tiled previous fs rejectedValues :
  tiledFiltersAfter (common.upper previous) fs ->
  (int64_min <= common.upper previous)%Z ->
  exists rejected,
    rejectedValuesLoop previous fs rejectedValues
    = (true, true, rejectedValues ++ rejected) /\
    (forall v, (v < common.upper previous + 2)%Z ->
       common.memZ v rejected = false /\ accepts fs v = false) /\
    (forall v, (common.upper previous + 2 <= v <= int64_max)%Z ->
       common.memZ v rejected = negb (accepts fs v)).
Proof.
  intros Htiled. revert rejectedValues.
  remember (common.upper previous) as p eqn:Hp. revert previous Hp.
  induction Htiled as [p f Hlo Hle Hhi|p f rest Hlo Hle Hrest IH];
    intros previous Hp rejectedValues Hmin; subst p.
  - exists []. cbn [rejectedValuesLoop].
    pose proof Hle as Hle'. rewrite Hlo in Hle'.
    rewrite wrap64_id by (unfold is_int64, int64_min, int64_max in *; lia).
    rewrite (bool_decide_eq_true_2 _ Hlo). cbn [negb].
    rewrite (bool_decide_eq_true_2 _ Hhi).
    rewrite app_nil_r. split; [done|]. unfold common.inRange.
    split; intros v Hv; cbn [existsb common.memZ].
    + split; [done|]. rewrite (bool_decide_eq_false_2 (common.lower f <= v)%Z) by lia. done.
    + rewrite !bool_decide_eq_true_2 by lia. done.
  - pose proof (tiledFiltersAfter_room _ _ Hrest) as Hroom.
    destruct (IH f eq_refl (rejectedValues ++ [wrap64 (common.upper f + 1)]))
      as (rej & Hloop & Hbelow & Hin); [lia|].
    exists ((common.upper f + 1)%Z :: rej). cbn [rejectedValuesLoop].
    rewrite (wrap64_id (common.upper previous + 2))
      by (unfold is_int64, int64_min, int64_max in *; lia).
    rewrite (bool_decide_eq_true_2 _ Hlo). cbn [negb].
    rewrite (bool_decide_eq_false_2 (common.upper f = int64_max)) by lia.
    rewrite (bool_decide_eq_false_2 (common.upper f = int64_max - 1)%Z) by lia.
    rewrite Hloop.
    rewrite (wrap64_id (common.upper f + 1))
      by (unfold is_int64, int64_min, int64_max in *; lia).
    rewrite <- app_assoc. split; [done|].
    unfold common.inRange in *.
    split; intros v Hv; cbn [existsb]; unfold common.memZ; cbn [existsb];
      fold (common.memZ v rej).
    + destruct (Hbelow v) as [-> ->]; [lia|].
      rewrite (bool_decide_eq_false_2 (common.upper f + 1 = v)%Z) by lia.
      rewrite (bool_decide_eq_false_2 (common.lower f <= v)%Z) by lia. done.
    + destruct (decide (v < common.upper f + 2)%Z) as [Hlt|Hge].
      * destruct (Hbelow v Hlt) as [-> ->]. rewrite !orb_false_r.
        destruct (decide (v = common.upper f + 1)%Z) as [->|Hne].
        -- rewrite (bool_decide_eq_true_2 (_ = _)) by done.
           rewrite (bool_decide_eq_false_2 (_ + 1 <= _)%Z) by lia.
           by rewrite andb_false_r.
        -- rewrite (bool_decide_eq_false_2 (_ = _)) by lia.
           rewrite !bool_decide_eq_true_2 by lia. done.
      * rewrite (Hin v) by lia.
        rewrite (bool_decide_eq_false_2 (_ = _)) by lia.
        rewrite (bool_decide_eq_false_2 (v <= common.upper f)%Z) by lia.
        by rewrite andb_false_r.
Qed.

Lemma allSingleValue_accepts fs v :
  forallb common.isSingleValue fs = true ->
  common.memZ v (map common.lower fs) = accepts fs v.
Proof.
  unfold common.memZ.
  induction fs as [|f fs IH]; [done|]. cbn [forallb map existsb].
  intros [Hf Hfs]%andb_true_iff. rewrite (IH Hfs). f_equal.
  unfold common.isSingleValue in Hf. apply bool_decide_eq_true in Hf.
  unfold common.inRange. rewrite Hf.
  destruct (decide (common.lower f = v)) as [->|Hne].
  - by rewrite !bool_decide_eq_true_2 by lia.
  - rewrite (bool_decide_eq_false_2 (_ = _)) by done.
    destruct (decide (common.lower f <= v)%Z).
    + rewrite (bool_decide_eq_false_2 (v <= _)%Z) by lia.
      by rewrite andb_false_r.
    + by rewrite (bool_decide_eq_false_2 (_ <= v)%Z) by lia.
Qed.

Lemma combineIntegerRanges_tiled first rest nullAllowed :
  (common.lower first = int64_min \/ common.lower first = int64_min + 1)%Z ->
  (common.lower first <= common.upper first)%Z ->
  tiledFiltersAfter (common.upper first) rest ->
  exists filter,
    combineIntegerRanges (first :: rest) nullAllowed = Ok filter /\
    common.Filter_kind filter <> common.FilterKind.kBigintMultiRange /\
    forall v, is_int64 v ->
      common.testInt64 filter v = Some (accepts (first :: rest) v).
Proof.
  intros Hfirst Hle Hrest. unfold combineIntegerRanges.
  pose proof (tiledFiltersAfter_room _ _ Hrest) as Hroom.
  assert (Hmin : int64_min = (- 2 ^ 63)%Z) by done.
  assert (Hmax : int64_max = (2 ^ 63 - 1)%Z) by done.
  destruct (forallb common.isSingleValue (first :: rest)) eqn:Hsingle.
  { eexists. split; [done|]. split; [done|]. intros v _.
    cbn [common.testInt64]. by rewrite allSingleValue_accepts. }
  destruct (bool_decide (length (first :: rest) = 2%nat) && _ && _)
    eqn:Hnegated.
  - apply andb_true_iff in Hnegated as [[Hlen Hlo]%andb_true_iff Hhi].
    apply bool_decide_eq_true in Hlen, Hlo, Hhi.
    destruct rest as [|second [|third rest]]; try done.
    cbn in Hlo, Hhi. simplify_eq.
    inversion Hrest as [p f Hl2 Hle2 Hh2|p f r Hl2 Hle2 Hr2]; subst;
      [|inversion Hr2].
    cbn [at_index lookup list_lookup bind].
    rewrite !wrap64_id by (unfold is_int64; lia).
    unfold assert. rewrite bool_decide_eq_true_2 by lia. cbn [bind].
    eexists. split; [done|]. split; [done|].
    intros v Hv. unfold is_int64 in Hv.
    cbn [common.testInt64 existsb]. unfold common.inRange. f_equal.
    rewrite orb_false_r.
    destruct (decide (v <= common.upper first)%Z).
    + rewrite (bool_decide_eq_false_2 (_ + 1 <= v)%Z) by lia.
      by rewrite !bool_decide_eq_true_2 by lia.
    + rewrite (bool_decide_eq_false_2 (v <= common.upper first)%Z) by lia.
      rewrite andb_false_r. cbn [orb].
      rewrite (bool_decide_eq_true_2 (_ + 1 <= v)%Z) by lia.
      rewrite (bool_decide_eq_true_2 (v <= common.upper second)%Z) by lia.
      rewrite andb_true_r. cbn [andb].
      destruct (decide (v = common.upper first + 1)%Z).
      * rewrite (bool_decide_eq_true_2 (v <= _ - 1)%Z) by lia.
        by rewrite (bool_decide_eq_false_2 (common.lower second <= v)%Z) by lia.
      * rewrite (bool_decide_eq_false_2 (v <= _ - 1)%Z) by lia.
        by rewrite (bool_decide_eq_true_2 (common.lower second <= v)%Z) by lia.
  - clear Hnegated.
    assert (1 < length (first :: rest))%nat as Hlen.
    { inversion Hrest; simpl; lia. }
    unfold assert. rewrite bool_decide_eq_true_2 by done.
    cbn [bind at_index lookup list_lookup tail].
    rewrite (bool_decide_eq_false_2 (_ > _)%Z) by lia.
    destruct (rejectedValuesLoop_tiled first rest
                ((if bool_decide (common.lower first = int64_min + 1)%Z
                  then [int64_min] else [])
                 ++ [wrap64 (common.upper first + 1)]) Hrest)
      as (rej & -> & Hbelow & Hin); [lia|].
    cbn [andb]. eexists. split; [done|]. split; [done|].
    intros v Hv. unfold is_int64 in Hv.
    cbn [common.testInt64 existsb]. f_equal.
    rewrite !memZ_app, memZ_singleton.
    rewrite wrap64_id by (unfold is_int64; lia).
    unfold common.inRange at 1.
    assert (common.memZ v
              (if bool_decide (common.lower first = int64_min + 1)%Z
               then [int64_min] else [])
            = bool_decide (common.lower first = int64_min + 1 /\
                           v = int64_min)%Z) as ->.
    { case_bool_decide as Hc; [rewrite memZ_singleton|cbn];
        apply eq_true_iff_eq; bool_prop; intuition lia. }
    destruct (decide (v < common.upper first + 2)%Z) as [Hlt|Hge].
    + destruct (Hbelow v Hlt) as [-> ->].
      apply eq_true_iff_eq. bool_prop. intuition lia.
    + rewrite (Hin v) by lia. destruct (accepts rest v);
        apply eq_true_iff_eq; bool_prop; intuition lia.
Qed.

(** The ranges after one that ends one below the maximum are never read: the
    loop records the maximum as a rejected value and stops, whatever
    follows. *)
Lemma combineIntegerRanges_stops_below_maximum first second rest nullAllowed :
  common.lower first = int64_min ->
  (int64_min <= common.upper first)%Z ->
  common.lower second = (common.upper first + 2)%Z ->
  (common.lower second <= common.upper second)%Z ->
  common.upper second = (int64_max - 1)%Z ->
  combineIntegerRanges (first :: second :: rest) nullAllowed
  = Ok (common.NegatedBigintValues [(common.upper first + 1)%Z; int64_max]
          nullAllowed).
Proof.
  intros Hlo Hle Hnext Hle' Hhi. unfold combineIntegerRanges.
  assert (Hmin : int64_min = (- 2 ^ 63)%Z) by done.
  assert (Hmax : int64_max = (2 ^ 63 - 1)%Z) by done.
  assert (forallb common.isSingleValue (first :: second :: rest) = false)
    as ->.
  { cbn [forallb]. unfold common.isSingleValue.
    destruct (decide (common.upper first = common.lower first)) as [He|Hne].
    - rewrite (bool_decide_eq_false_2
                 (common.upper second = common.lower second)) by lia.
      by rewrite andb_false_r.
    - by rewrite (bool_decide_eq_false_2 _ Hne). }
  cbn [length lookup list_lookup fmap option_fmap option_map].
  rewrite (bool_decide_eq_false_2 (Some (common.upper second) = _))
    by (intros [= ?]; lia).
  rewrite andb_false_r.
  unfold assert. rewrite bool_decide_eq_true_2 by (simpl; lia).
  cbn [bind at_index lookup list_lookup tail].
  rewrite (bool_decide_eq_false_2 (_ = int64_min + 1)%Z) by lia.
  rewrite (bool_decide_eq_false_2 (_ > _)%Z) by lia.
  cbn [rejectedValuesLoop app].
  rewrite !wrap64_id by (unfold is_int64; lia).
  rewrite (bool_decide_eq_true_2 (common.lower second = _)) by done.
  cbn [negb].
  rewrite (bool_decide_eq_false_2 (common.upper second = int64_max)) by lia.
  rewrite (bool_decide_eq_true_2 (common.upper second = _)) by done.
  cbn [andb app]. rewrite Hhi. repeat f_equal; lia.
Qed.

(** Where the negated-value-set path is sound.  For an integer-typed domain
    whose several ranges leave exactly one rejected value between each range
    and the next, the last range ending at the maximum, the compiler does
    not fall back to the generic multi-range filter, and the filter it emits
    accepts an int64 value exactly when some range of the domain contains
    it. *)
Theorem separated_tiling_brute_force :
  forall (typeSignature : string) (type : TypePtr) (ranges : list Range)
         (nullAllowed : bool),
    stringToType parseTypeSignature typeSignature = Ok type ->
    isIntegerKind (kind type) = true ->
    tilesInt64 exprConverter type ranges ->
    exists filter,
      toFilter parseTypeSignature
        {| values := SortedRangeSet typeSignature ranges;
           nullAllowed := nullAllowed |}
        exprConverter = Ok filter /\
      common.Filter_kind filter <> common.FilterKind.kBigintMultiRange /\
      forall v : Z, is_int64 v ->
        common.testInt64 filter v
        = Some (anyRangeMatches exprConverter type ranges v).
Proof.
  intros typeSignature type ranges nullAllowed Htype Hkind Htiles.
  destruct ranges as [|first rest]; [done|].
  destruct Htiles as (lo & hi & Hlo & Hfirst & Hhi & Hle & Hrest).
  pose proof (tiledAfter_room _ _ _ Hrest) as Hroom.
  assert (Hmin : int64_min = (- 2 ^ 63)%Z) by done.
  assert (Hmax : int64_max = (2 ^ 63 - 1)%Z) by done.
  destruct (tiledAfter_filters type nullAllowed hi rest Hrest)
    as (fs & Hfs & Htiled & Hsem); [lia|].
  destruct (combineIntegerRanges_tiled
              (common.Build_BigintRange lo hi nullAllowed) fs nullAllowed)
    as (filter & Hfilter & Hkind' & Haccepts); [done ..|].
  exists filter. split; [|split; [exact Hkind'|]].
  - unfold toFilter. cbn [values protocol.nullAllowed]. rewrite Htype.
    cbn [bind].
    destruct rest as [|second rest']; [inversion Hrest|].
    rewrite (isIntegerKind_branch _ Hkind).
    change (mapM ?f (first :: ?l)) with
      (let* y := f first in let* ys := mapM f l in Ok (y :: ys)).
    cbv beta.
    rewrite (bigintRangeToFilter_bounds _ _ _ lo hi); try done;
      [|unfold is_int64; lia ..].
    cbn [bind]. rewrite Hfs. cbn [bind]. exact Hfilter.
  - intros v Hv. rewrite (Haccepts v Hv). f_equal.
    unfold anyRangeMatches. cbn [existsb].
    rewrite (rangeContains_bounds _ _ lo hi) by done.
    f_equal. by apply Hsem.
Qed.

End FilterCompiler.

(** ** Table handles *)

Section TableHandles.

Variable parseTypeSignature : string -> result TypePtr.
Variable tpch_fromTableName : string -> result connector.tpch.Table.

(** C7 (amended).  The translation of a hive table handle whose layout has
    filter pushdown disabled fails, whatever the rest of the handle; the
    failure is the one of a violated check, InvariantViolation, and no
    handle is produced. *)
Theorem C7_pushdown_disabled_fails :
  forall (tableHandle : TableHandle) (hiveLayout : HiveTableLayoutHandle)
         (exprConverter : VeloxExprConverter)
         (partitionColumns : gmap string connector.ColumnHandle),
    connectorTableLayout tableHandle = HiveLayout hiveLayout ->
    pushdownFilterEnabled hiveLayout = false ->
    toConnectorTableHandle parseTypeSignature tpch_fromTableName tableHandle
      exprConverter partitionColumns
    = Err InvariantViolation
        "Table scan with filter pushdown disabled is not supported".
Proof.
  intros tableHandle hiveLayout exprConverter partitionColumns Hlayout
    Hdisabled.
  unfold toConnectorTableHandle. by rewrite Hlayout, Hdisabled.
Qed.

End TableHandles.

(** ** Executable checks of the plan translation *)


Example lower_offsetLimitPlan :
  lower Fixture.offsetLimitPlan Fixture.tableWriteInfo Fixture.taskId
  = Ok (core.ProjectNode "7" ["a"]
          [core.FieldAccess {| core.fa_type := BIGINT; core.fa_name := "a" |}]
          (core.LimitNode "5" 5 10 false
             (core.OtherPlanNode "a" (ROW ["a"] [BIGINT]) []))).
Proof. vm_compute. reflexivity. Qed.

Example lower_filter_flag :
  lower (Fixture.filterOverSemiJoin (VariableReference Fixture.flag))
        Fixture.tableWriteInfo Fixture.taskId
  = Ok (core.ProjectNode "3" ["a"; "flag"]
          [core.FieldAccess {| core.fa_type := BIGINT; core.fa_name := "a" |};
           core.ConstantTypedExpr BOOLEAN (variant_bool true)]
          (core.HashJoinNode "2" core.JoinType.kLeftSemiFilter false
             [{| core.fa_type := BIGINT; core.fa_name := "a" |}]
             [{| core.fa_type := BIGINT; core.fa_name := "b" |}]
             None
             (core.OtherPlanNode "a" (ROW ["a"] [BIGINT]) [])
             (core.OtherPlanNode "b" (ROW ["b"] [BIGINT]) [])
             (ROW ["a"] [BIGINT]))).
Proof. vm_compute. reflexivity. Qed.

Example lower_filter_not_flag :
  lower (Fixture.filterOverSemiJoin Fixture.notFlag)
        Fixture.tableWriteInfo Fixture.taskId
  = Ok (core.ProjectNode "3" ["a"; "flag"]
          [core.FieldAccess {| core.fa_type := BIGINT; core.fa_name := "a" |};
           core.ConstantTypedExpr BOOLEAN (variant_bool false)]
          (core.HashJoinNode "2" core.JoinType.kAnti true
             [{| core.fa_type := BIGINT; core.fa_name := "a" |}]
             [{| core.fa_type := BIGINT; core.fa_name := "b" |}]
             None
             (core.OtherPlanNode "a" (ROW ["a"] [BIGINT]) [])
             (core.OtherPlanNode "b" (ROW ["b"] [BIGINT]) [])
             (ROW ["a"] [BIGINT]))).
Proof. vm_compute. reflexivity. Qed.

Example assemble_hashFragment :
  core.planNode <$>
    (match toVeloxQueryPlan_PlanFragment Fixture.parseTypeSignature
             Fixture.parsePrestoTaskId Fixture.exprConverter
             Fixture.lowerOther Fixture.hashFragment Fixture.tableWriteInfo
             Fixture.taskId with
     | Ok f => Some f
     | Err _ _ => None
     end)
  = Some (core.PartitionedOutputNode_single "root" (ROW ["a"] [BIGINT])
            (core.OtherPlanNode "a" (ROW ["a"] [BIGINT]) [])).
Proof. vm_compute. reflexivity. Qed.

(** A local exchange is lowered to a local partition over one re-ordering
    projection per source. *)
Example lower_exchange :
  lower (Exchange
           (Fixture.roundRobinExchange "6" [Fixture.bigintVariable "a"])
           [Fixture.values "a"])
        Fixture.tableWriteInfo Fixture.taskId
  = Ok (core.LocalPartitionNode "6" core.LocalPartitionNodeType.kRepartition
          core.RoundRobinPartitionFunctionSpec
          [core.ProjectNode "6.0" ["a"]
             [core.FieldAccess
                {| core.fa_type := BIGINT; core.fa_name := "a" |}]
             (core.OtherPlanNode "a" (ROW ["a"] [BIGINT]) [])]).
Proof. vm_compute. reflexivity. Qed.

Example lower_filter_flag_or_other :
  lower (Fixture.filterOverSemiJoin Fixture.flagOrOther)
        Fixture.tableWriteInfo Fixture.taskId
  = Ok (core.FilterNode "3"
          (core.CallTypedExpr BOOLEAN
             [core.FieldAccess
                {| core.fa_type := BOOLEAN; core.fa_name := "flag" |};
              core.FieldAccess
                {| core.fa_type := BOOLEAN; core.fa_name := "x" |}]
             "OR")
          (core.HashJoinNode "2" core.JoinType.kLeftSemiProject false
             [{| core.fa_type := BIGINT; core.fa_name := "a" |}]
             [{| core.fa_type := BIGINT; core.fa_name := "b" |}]
             None
             (core.OtherPlanNode "a" (ROW ["a"] [BIGINT]) [])
             (core.OtherPlanNode "b" (ROW ["b"] [BIGINT]) [])
             (ROW ["a"; "flag"] [BIGINT; BOOLEAN]))).
Proof. vm_compute. reflexivity. Qed.

(** Without the rewrite, the offset/limit chain is lowered node by node and
    stops at the RowNumber node, for which the dispatcher has no branch. *)
Example lower_renamed_offset_limit_chain :
  lower (Project Fixture.renameColumn Fixture.offsetLimitSource)
        Fixture.tableWriteInfo Fixture.taskId
  = Err UnsupportedConstruct "Unknown plan node type {}".
Proof. vm_compute. reflexivity. Qed.

(** ** Plan rewrites, node translation and fragment assembly *)

Section Plans.

Variable parseTypeSignature : string -> result TypePtr.
Variable parsePrestoTaskId : string -> result PrestoTaskId.
Variable exprConverter_ : VeloxExprConverter.
Variable lowerOther :
  OtherNode -> list core.PlanNode -> TableWriteInfo -> string ->
  result core.PlanNode.

Local Abbreviation lowerPlan :=
  (toVeloxQueryPlan parseTypeSignature parsePrestoTaskId exprConverter_
     lowerOther).
Local Abbreviation tryRewrite :=
  (tryConvertOffsetLimit exprConverter_ lowerPlan).

Lemma toVeloxQueryPlan_Project node source tableWriteInfo taskId :
  lowerPlan (Project node source) tableWriteInfo taskId
  = toVeloxQueryPlan_ProjectNode exprConverter_ lowerPlan tableWriteInfo
      taskId node source.
Proof. reflexivity. Qed.

Lemma isLocalSingleSourceExchange_single exchange source :
  scope exchange = ExchangeNodeScope.LOCAL ->
  isLocalSingleSourceExchange (Exchange exchange [source]) = Some exchange.
Proof.
  intros Hlocal. unfold isLocalSingleSourceExchange.
  by rewrite !bool_decide_eq_true_2.
Qed.

(** C1.  On the seven-node offset/limit chain -- an identity projection that
    drops the row-number column, over a round-robin single-source local
    exchange, over a Limit, over a single-source local exchange, over a
    Filter on [rowNumber > c] with [c] a bigint constant, over a
    single-source local exchange, over a RowNumber node -- the translation
    of the Project node is a Project node over a Limit node with offset [c]
    and the count of the Limit, over the translation of the RowNumber node's
    source. *)
Theorem C1_offset_limit_rewrite :
  forall (node : ProjectNode) (exchangeBeforeProject : ExchangeNode)
         (limit : LimitNode) (exchangeBeforeLimit : ExchangeNode)
         (filter : FilterNode) (exchangeBeforeFilter : ExchangeNode)
         (rowNumber : RowNumberNode) (rowNumberSource : PlanNode)
         (argument0 argument1 : RowExpression) (offsetType : TypePtr)
         (offset : Z) (projections : list core.TypedExpr)
         (limitInput : core.PlanNode)
         (tableWriteInfo : TableWriteInfo) (taskId : string),
    let source :=
      Exchange exchangeBeforeProject
        [Limit limit
           (Exchange exchangeBeforeLimit
              [Filter filter
                 (Exchange exchangeBeforeFilter
                    [RowNumber rowNumber rowNumberSource])])] in
    isIdentityProjection (Project node source) = Some node ->
    existsb (fun entry => equal entry.2 (rowNumberVariable rowNumber))
      (assignments (Project_assignments node)) = false ->
    scope exchangeBeforeProject = ExchangeNodeScope.LOCAL ->
    isRoundRobinPartition exchangeBeforeProject = true ->
    scope exchangeBeforeLimit = ExchangeNodeScope.LOCAL ->
    scope exchangeBeforeFilter = ExchangeNodeScope.LOCAL ->
    isGreaterThan (predicate filter) = Some [argument0; argument1] ->
    equal argument0 (rowNumberVariable rowNumber) = true ->
    toVeloxExpr exprConverter_ argument1
    = Ok (core.ConstantTypedExpr offsetType
            (variant_integer TypeKind.BIGINT offset)) ->
    isBigint offsetType = true ->
    getProjections exprConverter_ (Project_assignments node)
    = Ok projections ->
    lowerPlan rowNumberSource tableWriteInfo taskId = Ok limitInput ->
    lowerPlan (Project node source) tableWriteInfo taskId
    = Ok (core.ProjectNode (Project_id node)
            (getNames (Project_assignments node)) projections
            (core.LimitNode (Limit_id limit) offset (count limit)
               (bool_decide (step limit = LimitNodeStep.PARTIAL))
               limitInput)).
Proof.
  intros node exchangeBeforeProject limit exchangeBeforeLimit filter
    exchangeBeforeFilter rowNumber rowNumberSource argument0 argument1
    offsetType offset projections limitInput tableWriteInfo taskId source
    Hidentity Hdrop Hlocal1 Hrr Hlocal2 Hlocal3 Hgt Harg0 Harg1 Hbigint
    Hprojections Hinput.
  rewrite toVeloxQueryPlan_Project.
  unfold toVeloxQueryPlan_ProjectNode, tryConvertOffsetLimit.
  rewrite Hidentity. subst source.
  rewrite !isLocalSingleSourceExchange_single by done.
  rewrite Hrr. cbn [negb sources_0].
  rewrite !isLocalSingleSourceExchange_single by done.
  cbn [sources_0]. rewrite Hgt.
  cbn [at_index lookup list_lookup bind].
  rewrite Harg0, Harg1. cbn [negb bind]. rewrite Hbigint.
  cbn [negb value_int64 bind]. rewrite Hdrop, Hprojections.
  cbn [bind]. rewrite Hinput. reflexivity.
Qed.



Lemma toVeloxQueryPlan_Filter node source tableWriteInfo taskId :
  lowerPlan (Filter node source) tableWriteInfo taskId
  = toVeloxQueryPlan_FilterNode exprConverter_ lowerPlan tableWriteInfo
      taskId node source.
Proof. reflexivity. Qed.

Lemma fieldProjections_loop (type : TypePtr) :
  wellFormedRow type ->
  mapM (fun i =>
          let* t := at_index (children type) i in
          let* n := at_index (names type) i in
          Ok (core.FieldAccess (core.Build_FieldAccessTypedExpr t n)))
       (seq 0 (length (names type)))
  = Ok (fieldProjections type).
Proof.
  unfold wellFormedRow, fieldProjections.
  generalize (children type) as ts, (names type) as ns.
  intros ts ns. revert ts.
  assert (forall (ns pre : list string) (ts tpre : list TypePtr) (k : nat),
            length ts = length ns -> length tpre = k -> length pre = k ->
            mapM (fun i =>
                    let* t := at_index (tpre ++ ts) i in
                    let* n := at_index (pre ++ ns) i in
                    Ok (core.FieldAccess
                          (core.Build_FieldAccessTypedExpr t n)))
                 (seq k (length ns))
            = Ok (zip_with
                    (fun t n =>
                       core.FieldAccess (core.Build_FieldAccessTypedExpr t n))
                    ts ns)) as Hgen.
  { clear. induction ns as [|n ns IH]; intros pre ts tpre k Hlen Htpre Hpre.
    - by destruct ts.
    - destruct ts as [|t ts]; [done|]. cbn [length seq mapM zip_with].
      unfold at_index at 1 2.
      rewrite (list_lookup_middle tpre ts t k) by done.
      rewrite (list_lookup_middle pre ns n k) by done.
      cbn [bind].
      specialize (IH (pre ++ [n]) ts (tpre ++ [t]) (S k)).
      rewrite <- !app_assoc in IH. cbn [app] in IH.
      rewrite IH; [done | by simplify_eq/= | ..];
        rewrite length_app; cbn [length]; lia. }
  intros ts Hlen. exact (Hgen ns [] ts [] 0%nat Hlen eq_refl eq_refl).
Qed.

(** C3 (amended).  A Filter over a SemiJoin whose predicate is the join's
    flag becomes a Project node that re-emits the probe columns and the flag
    as the constant [true], over a left-semi-filter hash join whose output
    has no flag column; with the predicate [NOT(flag)] the constant is
    [false] and the join a null-aware anti join; with any other predicate it
    is the Filter itself over a left-semi-project hash join whose output
    appends the boolean flag to the probe columns. *)
Theorem C3_filter_over_semi_join :
  forall (node : FilterNode) (semiJoin : SemiJoinNode)
         (source filteringSource : PlanNode)
         (leftKey rightKey : core.FieldAccessTypedExpr)
         (leftNode rightNode : core.PlanNode)
         (tableWriteInfo : TableWriteInfo) (taskId : string),
    toVeloxExpr_variable exprConverter_ (sourceJoinVariable semiJoin)
    = Ok leftKey ->
    toVeloxExpr_variable exprConverter_ (filteringSourceJoinVariable semiJoin)
    = Ok rightKey ->
    lowerPlan source tableWriteInfo taskId = Ok leftNode ->
    lowerPlan filteringSource tableWriteInfo taskId = Ok rightNode ->
    wellFormedRow (core.outputType leftNode) ->
    let flag := semiJoinOutput semiJoin in
    let leftType := core.outputType leftNode in
    let result :=
      lowerPlan (Filter node (SemiJoin semiJoin source filteringSource))
        tableWriteInfo taskId in
    let filteringJoin joinType nullAware :=
      core.HashJoinNode (SemiJoin_id semiJoin) joinType nullAware
        [leftKey] [rightKey] None leftNode rightNode leftType in
    (equal (predicate node) flag = true ->
     result
     = Ok (core.ProjectNode (Filter_id node)
             (names leftType ++ [name flag])
             (fieldProjections leftType ++
              [core.ConstantTypedExpr BOOLEAN (variant_bool true)])
             (filteringJoin core.JoinType.kLeftSemiFilter false))) /\
    (forall argument arguments,
       equal (predicate node) flag = false ->
       isNot (predicate node) = Some (argument :: arguments) ->
       equal argument flag = true ->
       result
       = Ok (core.ProjectNode (Filter_id node)
               (names leftType ++ [name flag])
               (fieldProjections leftType ++
                [core.ConstantTypedExpr BOOLEAN (variant_bool false)])
               (filteringJoin core.JoinType.kAnti true))) /\
    (forall filter,
       equal (predicate node) flag = false ->
       (isNot (predicate node) = None \/
        exists argument arguments,
          isNot (predicate node) = Some (argument :: arguments) /\
          equal argument flag = false) ->
       toVeloxExpr exprConverter_ (predicate node) = Ok filter ->
       result
       = Ok (core.FilterNode (Filter_id node) filter
               (core.HashJoinNode (SemiJoin_id semiJoin)
                  core.JoinType.kLeftSemiProject false [leftKey] [rightKey]
                  None leftNode rightNode
                  (ROW (names leftType ++ [name flag])
                       (children leftType ++ [BOOLEAN]))))).
Proof.
  intros node semiJoin source filteringSource leftKey rightKey leftNode
    rightNode tableWriteInfo taskId HleftKey HrightKey Hleft Hright Hrow
    flag leftType result filteringJoin.
  subst result flag leftType filteringJoin. rewrite toVeloxQueryPlan_Filter.
  unfold toVeloxQueryPlan_FilterNode.
  split; [|split].
  - intros Hflag. rewrite Hflag. cbn [bind].
    rewrite HleftKey, HrightKey. cbn [bind]. rewrite Hleft, Hright.
    cbn [bind]. rewrite (fieldProjections_loop _ Hrow).
    reflexivity.
  - intros argument arguments Hflag Hnot Harg. rewrite Hflag, Hnot.
    cbn [at_index lookup list_lookup bind]. rewrite Harg. cbn [bind].
    rewrite HleftKey, HrightKey. cbn [bind]. rewrite Hleft, Hright.
    cbn [bind]. rewrite (fieldProjections_loop _ Hrow).
    reflexivity.
  - intros filter Hflag Hother Hfilter. rewrite Hflag.
    assert ((match isNot (predicate node) with
             | Some notCall_arguments =>
                 let* argument := at_index notCall_arguments 0 in
                 if equal argument (semiJoinOutput semiJoin)
                 then Ok (Some core.JoinType.kAnti) else Ok None
             | None => Ok None
             end) = Ok None) as ->.
    { destruct Hother as [-> | (argument & arguments & -> & Harg)]; [done|].
      cbn [at_index lookup list_lookup bind]. by rewrite Harg. }
    cbn [bind]. rewrite HleftKey, HrightKey. cbn [bind].
    rewrite Hleft, Hright. cbn [bind]. by rewrite Hfilter.
Qed.

Lemma land_low_bits (z : Z) (n : Z) :
  (0 <= n)%Z -> Z.land z (Z.shiftl 1 n - 1) = (z mod 2 ^ n)%Z.
Proof.
  intros Hn. rewrite Z.shiftl_1_l, Z.sub_1_r, <- Z.ones_equiv.
  by apply Z.land_ones.
Qed.

Lemma taskUniqueId_spec (prestoTaskId : PrestoTaskId) :
  taskUniqueId prestoTaskId
  = ((stageId prestoTaskId mod 2 ^ 10) * 2 ^ 14
     + id prestoTaskId mod 2 ^ 14)%Z.
Proof.
  unfold taskUniqueId. rewrite !land_low_bits by lia.
  rewrite Z.shiftl_mul_pow2 by lia.
  rewrite <- Z.lxor_lor.
  - rewrite <- Z.add_nocarry_lxor; [done|].
    apply Z.bits_inj'. intros n Hn. rewrite Z.land_spec, Z.bits_0.
    destruct (decide (n < 14)%Z).
    + rewrite Z.mul_pow2_bits_low by lia. done.
    + rewrite (Z.mod_pow2_bits_high (id prestoTaskId)) by lia.
      apply andb_false_r.
  - apply Z.bits_inj'. intros n Hn. rewrite Z.land_spec, Z.bits_0.
    destruct (decide (n < 14)%Z).
    + rewrite Z.mul_pow2_bits_low by lia. done.
    + rewrite (Z.mod_pow2_bits_high (id prestoTaskId)) by lia.
      apply andb_false_r.
Qed.

(** C10.  The unique-id prefix of a lowered AssignUniqueId node is
    [(s mod 2^10) * 2^14 + t mod 2^14] for the stage id [s] and the task
    number [t] of the task id, and fits in 24 bits. *)
Theorem C10_unique_id_prefix :
  forall (node : AssignUniqueId) (source : PlanNode)
         (tableWriteInfo : TableWriteInfo) (taskId : string)
         (prestoTaskId : PrestoTaskId) (source' : core.PlanNode),
    parsePrestoTaskId taskId = Ok prestoTaskId ->
    lowerPlan source tableWriteInfo taskId = Ok source' ->
    exists prefix : Z,
      lowerPlan (AssignUniqueIdNode node source) tableWriteInfo taskId
      = Ok (core.AssignUniqueIdNode (AssignUniqueId_id node)
              (name (idVariable node)) prefix source') /\
      prefix = ((stageId prestoTaskId mod 2 ^ 10) * 2 ^ 14
                + id prestoTaskId mod 2 ^ 14)%Z /\
      (0 <= prefix < 2 ^ 24)%Z.
Proof.
  intros node source tableWriteInfo taskId prestoTaskId source' Hparse
    Hsource.
  exists (taskUniqueId prestoTaskId). split; [|split].
  - cbn [toVeloxQueryPlan]. unfold toVeloxQueryPlan_AssignUniqueId.
    rewrite Hparse. cbn [bind]. by rewrite Hsource.
  - apply taskUniqueId_spec.
  - rewrite taskUniqueId_spec.
    pose proof (Z.mod_pos_bound (stageId prestoTaskId) (2 ^ 10)).
    pose proof (Z.mod_pos_bound (id prestoTaskId) (2 ^ 14)).
    lia.
Qed.

Lemma wrap32_id (z : Z) : (- 2 ^ 31 <= z < 2 ^ 31)%Z -> wrap32 z = z.
Proof.
  intros H. unfold wrap32. rewrite Z.mod_small by lia. lia.
Qed.

Local Abbreviation assemble :=
  (toVeloxQueryPlan_PlanFragment parseTypeSignature parsePrestoTaskId
     exprConverter_ lowerOther).

(** C4.  A fragment whose root is not an Output node and whose partitioning
    scheme -- system hash, system round-robin or hive bucket -- resolves to
    one partition is assembled with the node
    [PartitionedOutputNode::single("root", ...)] at its root. *)
Theorem C4_single_partition_collapse :
  forall (fragment : PlanFragment) (tableWriteInfo : TableWriteInfo)
         (taskId : string) (executionStrategy : core.ExecutionStrategy.t)
         (partitioningKeys : list core.TypedExpr)
         (sourceNode : core.PlanNode)
         (channels : list Z * list core.VectorPtr) (outputType : TypePtr),
    let scheme := PlanFragment_partitioningScheme fragment in
    let descriptor := stageExecutionDescriptor fragment in
    isOutputNode (root fragment) = false ->
    toStrategy (stageExecutionStrategy descriptor) = Ok executionStrategy ->
    (executionStrategy = core.ExecutionStrategy.kGrouped ->
     groupedExecutionScanNodes descriptor <> []) ->
    toTypedExprs (Partitioning_arguments (partitioning scheme))
      exprConverter_ = Ok partitioningKeys ->
    lowerPlan (root fragment) tableWriteInfo taskId = Ok sourceNode ->
    partitionChannels partitioningKeys (core.outputType sourceNode) [] []
    = Ok channels ->
    toRowType parseTypeSignature (outputLayout scheme) ∅ = Ok outputType ->
    resolvedPartitionCount scheme = Some 1%Z ->
    assemble fragment tableWriteInfo taskId
    = Ok {| core.planNode :=
              core.PartitionedOutputNode_single "root" outputType sourceNode;
            core.executionStrategy := executionStrategy;
            core.numSplitGroups := totalLifespans descriptor;
            core.groupedExecutionLeafNodeIds :=
              list_to_set (groupedExecutionScanNodes descriptor) |}.
Proof.
  intros fragment tableWriteInfo taskId executionStrategy partitioningKeys
    sourceNode channels outputType scheme descriptor Hroot Hstrategy Hgrouped
    Hkeys Hsource Hchannels Hlayout Hcount.
  subst scheme descriptor. unfold toVeloxQueryPlan_PlanFragment.
  rewrite Hstrategy. cbn [bind].
  assert ((if bool_decide (executionStrategy = core.ExecutionStrategy.kGrouped)
           then VELOX_CHECK
                  (negb (bool_decide
                           (list_to_set
                              (groupedExecutionScanNodes
                                 (stageExecutionDescriptor fragment))
                            = (∅ : gset string))))
                  "groupedExecutionScanNodes cannot be empty if stage execution strategy is grouped execution"
           else Ok tt) = Ok tt) as ->.
  { case_bool_decide as Hg; [|done].
    rewrite bool_decide_eq_false_2; [done|].
    intros Hempty. apply (Hgrouped Hg).
    destruct (groupedExecutionScanNodes _) as [|x l]; [done|].
    apply (f_equal (fun s : gset string => bool_decide (x ∈ s))) in Hempty.
    rewrite bool_decide_eq_true_2 in Hempty by set_solver.
    by rewrite bool_decide_eq_false_2 in Hempty by set_solver. }
  cbn [bind].
  destruct (root fragment) eqn:Hr; try discriminate Hroot;
    rewrite Hkeys; cbn [bind]; rewrite Hsource; cbn [bind];
    rewrite Hchannels; cbn [bind]; rewrite Hlayout; cbn [bind];
    unfold resolvedPartitionCount in Hcount;
    (destruct (handle _) as [h|h|?]; [| |done]);
    try (destruct (sys_partitioning h); try done;
         destruct (sys_function h); try done;
         destruct (bucketToPartition _) as [l|]; try done;
         cbn [deref bind]; cbn in Hcount;
         rewrite bool_decide_eq_true_2 by (simplify_eq; lia); done);
    (destruct (bucketToPartition _) as [[|x l]|]; try done;
     cbn [deref max_element bind]; simplify_eq;
     rewrite wrap32_id by (unfold wrap32; lia);
     rewrite bool_decide_eq_true_2 by lia; done).
Qed.

End Plans.

(** * The properties on concrete inputs *)

Lemma C5_single_points_value_set_witness :
  (stringToType Fixture.parseTypeSignature "bigint" = Ok BIGINT /\
   isIntegerKind (kind BIGINT) = true /\
   Forall2 (singlePoint Fixture.exprConverter BIGINT)
     [Fixture.point "3"; Fixture.point "5"; Fixture.point "8"]
     [3; 5; 8]%Z) /\
  exists filter,
    toFilter Fixture.parseTypeSignature Fixture.threePoints
             Fixture.exprConverter = Ok filter /\
    common.Filter_kind filter = common.FilterKind.kBigintValues /\
    (forall v : Z,
       common.testInt64 filter v = Some (bool_decide (v ∈ [3; 5; 8]%Z))) /\
    common.testNull filter = false.
Proof.
  assert (Forall2 (singlePoint Fixture.exprConverter BIGINT)
            [Fixture.point "3"; Fixture.point "5"; Fixture.point "8"]
            [3; 5; 8]%Z) as Hpoints.
  { repeat (constructor; [repeat split; reflexivity|]). constructor. }
  split; [split; [reflexivity | split; [reflexivity | exact Hpoints]]|].
  apply (C5_single_points_value_set Fixture.parseTypeSignature
           Fixture.exprConverter "bigint" BIGINT
           [Fixture.point "3"; Fixture.point "5"; Fixture.point "8"]
           [3; 5; 8]%Z false).
  - reflexivity.
  - reflexivity.
  - simpl. lia.
  - exact Hpoints.
Defined.

Lemma separated_tiling_brute_force_witness :
  (stringToType Fixture.parseTypeSignature "bigint" = Ok BIGINT /\
   isIntegerKind (kind BIGINT) = true /\
   tilesInt64 Fixture.exprConverter BIGINT Fixture.notThreeNorFive) /\
  exists filter,
    toFilter Fixture.parseTypeSignature
      {| values := SortedRangeSet "bigint" Fixture.notThreeNorFive;
         nullAllowed := true |}
      Fixture.exprConverter = Ok filter /\
    common.Filter_kind filter <> common.FilterKind.kBigintMultiRange /\
    forall v : Z, is_int64 v ->
      common.testInt64 filter v
      = Some (anyRangeMatches Fixture.exprConverter BIGINT
                Fixture.notThreeNorFive v).
Proof.
  assert (tilesInt64 Fixture.exprConverter BIGINT Fixture.notThreeNorFive)
    as Htiles.
  { exists int64_min, 2%Z.
    split; [reflexivity|]. split; [by left|]. split; [reflexivity|].
    split; [vm_compute; discriminate|].
    apply (tiled_next _ _ 2%Z _ _ 4%Z 4%Z);
      [reflexivity | reflexivity | reflexivity | lia |].
    apply (tiled_last _ _ 4%Z _ 6%Z);
      [reflexivity | reflexivity | vm_compute; discriminate | reflexivity]. }
  split; [split; [reflexivity | split; [reflexivity | exact Htiles]]|].
  apply (separated_tiling_brute_force Fixture.parseTypeSignature
           Fixture.exprConverter "bigint" BIGINT Fixture.notThreeNorFive true);
    [reflexivity | reflexivity | exact Htiles].
Defined.

(** C6.  The negated-value-set fast path is not equivalent to the
    any-range-matches reading on every tiling domain: on the bigint domain
    [(-inf, 3), (3, max - 1], [max, max]], which holds every int64 but 3 and
    ends at the maximum, the compiler returns the negated value set over 3
    and the maximum, and that filter rejects the maximum although the last
    range contains it. *)
Theorem C6_fast_path_rejects_maximum :
  forall nullAllowed : bool,
    toFilter Fixture.parseTypeSignature
      {| values := SortedRangeSet "bigint" Sample.notThreeMaximumApart;
         nullAllowed := nullAllowed |}
      Fixture.exprConverter
    = Ok (common.NegatedBigintValues [3%Z; int64_max] nullAllowed) /\
    (forall v : Z, is_int64 v ->
       anyRangeMatches Fixture.exprConverter BIGINT
         Sample.notThreeMaximumApart v = true <-> v <> 3%Z) /\
    common.testInt64 (common.NegatedBigintValues [3%Z; int64_max] nullAllowed)
      int64_max = Some false /\
    anyRangeMatches Fixture.exprConverter BIGINT Sample.notThreeMaximumApart
      int64_max = true.
Proof.
  intros nullAllowed.
  split; [by destruct nullAllowed; vm_compute|].
  split; [|split; [by vm_compute | by vm_compute]].
  intros v Hv. unfold anyRangeMatches, Sample.notThreeMaximumApart.
  cbn [existsb].
  rewrite (rangeContains_bounds Fixture.exprConverter BIGINT _ int64_min 2 v)
    by (reflexivity || exact Hv).
  rewrite (rangeContains_bounds Fixture.exprConverter BIGINT _ 4
             (int64_max - 1) v) by (reflexivity || exact Hv).
  rewrite (rangeContains_bounds Fixture.exprConverter BIGINT _ int64_max
             int64_max v) by (reflexivity || exact Hv).
  unfold is_int64, int64_min, int64_max in *.
  rewrite orb_false_r, !orb_true_iff, !andb_true_iff, !bool_decide_eq_true.
  lia.
Qed.

Lemma C1_offset_limit_rewrite_witness :
  (isIdentityProjection
     (Project Fixture.dropRowNumber Fixture.offsetLimitSource)
   = Some Fixture.dropRowNumber /\
   isRoundRobinPartition (Fixture.roundRobinExchange "6" Fixture.columns)
   = true /\
   isGreaterThan (predicate Fixture.offsetFilter)
   = Some [VariableReference Fixture.rowNumberColumn;
           ConstantExpression (mkBlock "5") "bigint"]) /\
  lower Fixture.offsetLimitPlan Fixture.tableWriteInfo Fixture.taskId
  = Ok (core.ProjectNode "7" ["a"]
          [core.FieldAccess {| core.fa_type := BIGINT; core.fa_name := "a" |}]
          (core.LimitNode "5" 5 10 false
             (core.OtherPlanNode "a" (ROW ["a"] [BIGINT]) []))).
Proof.
  split; [split; [reflexivity | split; reflexivity]|].
  apply (C1_offset_limit_rewrite Fixture.parseTypeSignature
           Fixture.parsePrestoTaskId Fixture.exprConverter Fixture.lowerOther
           Fixture.dropRowNumber
           (Fixture.roundRobinExchange "6" Fixture.columns)
           Fixture.limitTen
           (Fixture.gatherExchange "4" Fixture.columns)
           Fixture.offsetFilter
           (Fixture.gatherExchange "2" Fixture.columns)
           Fixture.rowNumberNode (Fixture.values "a")
           (VariableReference Fixture.rowNumberColumn)
           (ConstantExpression (mkBlock "5") "bigint")
           BIGINT 5%Z
           [core.FieldAccess
              {| core.fa_type := BIGINT; core.fa_name := "a" |}]
           (core.OtherPlanNode "a" (ROW ["a"] [BIGINT]) [])
           Fixture.tableWriteInfo Fixture.taskId);
    reflexivity.
Defined.



Lemma C3_filter_over_semi_join_witness :
  (toVeloxExpr_variable Fixture.exprConverter
     (sourceJoinVariable Fixture.semiJoin)
   = Ok {| core.fa_type := BIGINT; core.fa_name := "a" |} /\
   equal (VariableReference Fixture.flag) (semiJoinOutput Fixture.semiJoin)
   = true) /\
  lower (Fixture.filterOverSemiJoin (VariableReference Fixture.flag))
        Fixture.tableWriteInfo Fixture.taskId
  = Ok (core.ProjectNode "3" ["a"; "flag"]
          [core.FieldAccess {| core.fa_type := BIGINT; core.fa_name := "a" |};
           core.ConstantTypedExpr BOOLEAN (variant_bool true)]
          (core.HashJoinNode "2" core.JoinType.kLeftSemiFilter false
             [{| core.fa_type := BIGINT; core.fa_name := "a" |}]
             [{| core.fa_type := BIGINT; core.fa_name := "b" |}]
             None
             (core.OtherPlanNode "a" (ROW ["a"] [BIGINT]) [])
             (core.OtherPlanNode "b" (ROW ["b"] [BIGINT]) [])
             (ROW ["a"] [BIGINT]))).
Proof.
  split; [split; reflexivity|].
  apply (C3_filter_over_semi_join Fixture.parseTypeSignature
           Fixture.parsePrestoTaskId Fixture.exprConverter Fixture.lowerOther
           {| Filter_id := "3"; predicate := VariableReference Fixture.flag |}
           Fixture.semiJoin (Fixture.values "a") (Fixture.values "b")
           {| core.fa_type := BIGINT; core.fa_name := "a" |}
           {| core.fa_type := BIGINT; core.fa_name := "b" |}
           (core.OtherPlanNode "a" (ROW ["a"] [BIGINT]) [])
           (core.OtherPlanNode "b" (ROW ["b"] [BIGINT]) [])
           Fixture.tableWriteInfo Fixture.taskId);
    reflexivity.
Defined.

(** With the flag itself as predicate, the root of the translation is a
    Project node, not a hash join, and its output has the flag column. *)
Lemma C3_counterexample :
  exists root,
    lower (Fixture.filterOverSemiJoin (VariableReference Fixture.flag))
          Fixture.tableWriteInfo Fixture.taskId = Ok root /\
    isHashJoin root = false /\
    names (core.outputType root) = ["a"; "flag"].
Proof.
  eexists. split; [vm_compute; reflexivity|]. split; reflexivity.
Qed.

Lemma C4_single_partition_collapse_witness :
  (resolvedPartitionCount
     (PlanFragment_partitioningScheme Fixture.hiveFragment) = Some 1%Z /\
   isOutputNode (root Fixture.hiveFragment) = false) /\
  assembleFragment Fixture.hiveFragment Fixture.tableWriteInfo Fixture.taskId
  = Ok {| core.planNode :=
            core.PartitionedOutputNode_single "root" (ROW ["a"] [BIGINT])
              (core.OtherPlanNode "a" (ROW ["a"] [BIGINT]) []);
          core.executionStrategy := core.ExecutionStrategy.kUngrouped;
          core.numSplitGroups := 1;
          core.groupedExecutionLeafNodeIds := list_to_set [] |}.
Proof.
  split; [split; reflexivity|].
  apply (C4_single_partition_collapse Fixture.parseTypeSignature
           Fixture.parsePrestoTaskId Fixture.exprConverter Fixture.lowerOther
           Fixture.hiveFragment Fixture.tableWriteInfo Fixture.taskId
           core.ExecutionStrategy.kUngrouped
           [core.FieldAccess
              {| core.fa_type := BIGINT; core.fa_name := "a" |}]
           (core.OtherPlanNode "a" (ROW ["a"] [BIGINT]) [])
           ([0%Z], []) (ROW ["a"] [BIGINT]));
    try reflexivity.
  discriminate.
Defined.

Lemma C7_pushdown_disabled_fails_witness :
  pushdownFilterEnabled
    {| pushdownFilterEnabled := false;
       partitionColumns := [];
       domains := Some [];
       remainingPredicate :=
         ConstantExpression (mkBlock "true") "boolean" |} = false /\
  toConnectorTableHandle Fixture.parseTypeSignature Fixture.fromTableName
    Fixture.pushdownDisabled Fixture.exprConverter ∅
  = Err InvariantViolation
      "Table scan with filter pushdown disabled is not supported".
Proof.
  split; [reflexivity|].
  apply (C7_pushdown_disabled_fails Fixture.parseTypeSignature
           Fixture.fromTableName Fixture.pushdownDisabled
           {| pushdownFilterEnabled := false;
              partitionColumns := [];
              domains := Some [];
              remainingPredicate :=
                ConstantExpression (mkBlock "true") "boolean" |}
           Fixture.exprConverter ∅);
    reflexivity.
Defined.

(** The failure on a layout with pushdown disabled is not of the kind
    UnsupportedConstruct. *)
Lemma C7_counterexample :
  (exists hiveLayout,
     connectorTableLayout Fixture.pushdownDisabled = HiveLayout hiveLayout /\
     pushdownFilterEnabled hiveLayout = false) /\
  exists kind message,
    toConnectorTableHandle Fixture.parseTypeSignature Fixture.fromTableName
      Fixture.pushdownDisabled Fixture.exprConverter ∅ = Err kind message /\
    kind <> UnsupportedConstruct.
Proof.
  split; [eexists; split; reflexivity|].
  exists InvariantViolation. eexists. split; [reflexivity | discriminate].
Qed.

Lemma C8_double_bounded_boolean_range_witness :
  ((doubleBounded Fixture.exprConverter BOOLEAN Fixture.falseToTrue false
      true /\ false <> true) /\
   exists message,
     toFilter Fixture.parseTypeSignature
       {| values := SortedRangeSet "boolean" [Fixture.falseToTrue];
          nullAllowed := false |}
       Fixture.exprConverter = Err InvariantViolation message) /\
  (doubleBounded Fixture.exprConverter BOOLEAN (Fixture.point "true") true
     true /\
   toFilter Fixture.parseTypeSignature
     {| values := SortedRangeSet "boolean" [Fixture.point "true"];
        nullAllowed := true |}
     Fixture.exprConverter = Ok (common.BoolValue true true)).
Proof.
  split.
  - split; [split; [split; reflexivity | discriminate]|].
    apply (C8_double_bounded_boolean_range Fixture.parseTypeSignature
             Fixture.exprConverter "boolean" BOOLEAN [Fixture.falseToTrue]
             false Fixture.falseToTrue false true).
    + reflexivity.
    + reflexivity.
    + constructor; [|constructor]. split; simpl; eauto.
    + apply list_elem_of_singleton. reflexivity.
    + split; reflexivity.
    + discriminate.
  - split; [split; reflexivity|].
    apply (C8_double_bounded_boolean_range Fixture.parseTypeSignature
             Fixture.exprConverter "boolean" BOOLEAN [Fixture.point "true"]
             true (Fixture.point "true") true true).
    + reflexivity.
    + reflexivity.
    + constructor; [|constructor]. split; simpl; eauto.
    + apply list_elem_of_singleton. reflexivity.
    + split; reflexivity.
    + reflexivity.
    + reflexivity.
Defined.

(** The range [[TRUE, TRUE]] is double-bounded, and the boolean-typed domain
    holding it compiles to a filter. *)
Lemma C8_counterexample :
  doubleBounded Fixture.exprConverter BOOLEAN (Fixture.point "true")
    true true /\
  toFilter Fixture.parseTypeSignature Fixture.isTrue Fixture.exprConverter
  = Ok (common.BoolValue true false) /\
  ~ exists message,
      toFilter Fixture.parseTypeSignature Fixture.isTrue
        Fixture.exprConverter = Err InvariantViolation message.
Proof.
  split; [split; reflexivity|]. split; [reflexivity|].
  intros [message H]. vm_compute in H. discriminate H.
Qed.

Lemma C10_unique_id_prefix_witness :
  Fixture.parsePrestoTaskId Fixture.taskId
  = Ok {| queryId := "20230101_000000_00000_abcde";
          stageId := 1029; stageExecutionId := 0; id := 16389 |} /\
  exists prefix : Z,
    lower (AssignUniqueIdNode
             {| AssignUniqueId_id := "9";
                idVariable := Fixture.bigintVariable "unique" |}
             (Fixture.values "a"))
          Fixture.tableWriteInfo Fixture.taskId
    = Ok (core.AssignUniqueIdNode "9" "unique" prefix
            (core.OtherPlanNode "a" (ROW ["a"] [BIGINT]) [])) /\
    prefix = ((1029 mod 2 ^ 10) * 2 ^ 14 + 16389 mod 2 ^ 14)%Z /\
    (0 <= prefix < 2 ^ 24)%Z.
Proof.
  split; [vm_compute; reflexivity|].
  apply (C10_unique_id_prefix Fixture.parseTypeSignature
           Fixture.parsePrestoTaskId Fixture.exprConverter Fixture.lowerOther
           {| AssignUniqueId_id := "9";
              idVariable := Fixture.bigintVariable "unique" |}
           (Fixture.values "a") Fixture.tableWriteInfo Fixture.taskId
           {| queryId := "20230101_000000_00000_abcde";
              stageId := 1029; stageExecutionId := 0; id := 16389 |});
    vm_compute; reflexivity.
Defined.

(** * Further properties *)

Set Default Proof Using "Type".

(** ** Generic facts about the error monad *)

Lemma bind_Ok {A B} (r : result A) (k : A -> result B) (b : B) :
  bind r k = Ok b -> exists a, r = Ok a /\ k a = Ok b.
Proof. destruct r as [a|e m]; [eauto | discriminate]. Qed.

Lemma mapM_Ok_Forall2 {A B} (f : A -> result B) l l' :
  mapM f l = Ok l' -> Forall2 (fun a b => f a = Ok b) l l'.
Proof.
  revert l'. induction l as [|a l IH]; intros l' H; simpl in H.
  - simplify_eq. constructor.
  - apply bind_Ok in H as (b & Hb & H). apply bind_Ok in H as (bs & Hbs & H).
    simplify_eq. constructor; [done | by apply IH].
Qed.

Ltac bind_inv H :=
  repeat
    (let a := fresh "a" in
     let Ha := fresh "Ha" in
     apply bind_Ok in H as (a & Ha & H)).

Section FilterInvariants.

Variable parseTypeSignature : string -> result TypePtr.
Variable exprConverter : VeloxExprConverter.

Lemma bigintRangeToFilter_nullAllowed range nullAllowed type r :
  bigintRangeToFilter range nullAllowed exprConverter type = Ok r ->
  common.BigintRange_nullAllowed r = nullAllowed.
Proof.
  unfold bigintRangeToFilter. intros H. bind_inv H. by simplify_eq.
Qed.

Lemma dateRangeToFilter_nullAllowed range nullAllowed type r :
  dateRangeToFilter range nullAllowed exprConverter type = Ok r ->
  common.BigintRange_nullAllowed r = nullAllowed.
Proof.
  unfold dateRangeToFilter. intros H. bind_inv H. by simplify_eq.
Qed.

Lemma floatingPointRangeToFilter_nullAllowed decode lowest max range
    nullAllowed type r :
  floatingPointRangeToFilter decode lowest max range nullAllowed
    exprConverter type = Ok r ->
  common.fp_nullAllowed r = nullAllowed.
Proof.
  unfold floatingPointRangeToFilter. intros H. bind_inv H. by simplify_eq.
Qed.

Lemma varcharRangeToFilter_nullAllowed range nullAllowed type r :
  varcharRangeToFilter range nullAllowed exprConverter type = Ok r ->
  common.b_nullAllowed r = nullAllowed.
Proof.
  unfold varcharRangeToFilter. intros H. bind_inv H. by simplify_eq.
Qed.

Lemma boolRangeToFilter_nullAllowed range nullAllowed type filter :
  boolRangeToFilter range nullAllowed exprConverter type = Ok filter ->
  common.testNull filter = nullAllowed.
Proof.
  unfold boolRangeToFilter, VELOX_CHECK, VELOX_UNREACHABLE. intros H.
  repeat
    match type of H with
    | bind ?r _ = Ok _ =>
        let a := fresh "a" in
        let Ha := fresh "Ha" in
        apply bind_Ok in H as (a & Ha & H)
    | (if ?c then _ else _) = Ok _ => destruct c eqn:?
    end;
    by simplify_eq.
Qed.

Lemma boolRangesLoop_nullAllowed ranges nullAllowed type boolFilter result :
  (forall filter, boolFilter = Some filter ->
     common.testNull filter = nullAllowed) ->
  boolRangesLoop ranges nullAllowed exprConverter type boolFilter
  = Ok (Some result) ->
  common.testNull result = nullAllowed.
Proof.
  revert boolFilter.
  induction ranges as [|range rest IH]; intros boolFilter Hinv H.
  - simpl in H. simplify_eq. by apply Hinv.
  - cbn [boolRangesLoop] in H. apply bind_Ok in H as (filter & Hfilter & H).
    destruct (_ || _); [by eapply IH|].
    apply bind_Ok in H as (_ & _ & H).
    eapply IH; [|exact H]. intros f ?; simplify_eq.
    by eapply boolRangeToFilter_nullAllowed.
Qed.

Lemma combineIntegerRanges_nullAllowed bigintFilters nullAllowed filter :
  combineIntegerRanges bigintFilters nullAllowed = Ok filter ->
  common.testNull filter = nullAllowed.
Proof.
  unfold combineIntegerRanges. intros H.
  repeat
    match type of H with
    | bind ?r _ = Ok _ =>
        let a := fresh "a" in
        let Ha := fresh "Ha" in
        apply bind_Ok in H as (a & Ha & H)
    | (if ?c then _ else _) = Ok _ => destruct c eqn:?
    | match ?t with _ => _ end = Ok _ => destruct t eqn:?
    end;
    by simplify_eq.
Qed.

Lemma combineBytesRanges_nullAllowed bytesFilters nullAllowed filter :
  combineBytesRanges bytesFilters nullAllowed = Ok filter ->
  common.testNull filter = nullAllowed.
Proof.
  unfold combineBytesRanges. intros H.
  repeat
    match type of H with
    | bind ?r _ = Ok _ =>
        let a := fresh "a" in
        let Ha := fresh "Ha" in
        apply bind_Ok in H as (a & Ha & H)
    | (if ?c then _ else _) = Ok _ => destruct c eqn:?
    | match ?t with _ => _ end = Ok _ => destruct t eqn:?
    end;
    by simplify_eq.
Qed.

Lemma toFilter_range_nullAllowed type range nullAllowed filter :
  toFilter_range type range nullAllowed exprConverter = Ok filter ->
  common.testNull filter = nullAllowed.
Proof.
  unfold toFilter_range, doubleRangeToFilter, floatRangeToFilter,
    VELOX_UNSUPPORTED.
  intros H.
  destruct (kind type); try discriminate;
    try (by eapply boolRangeToFilter_nullAllowed);
    apply bind_Ok in H as (r & Hr & H); simplify_eq; cbn [common.testNull];
    eauto using bigintRangeToFilter_nullAllowed, dateRangeToFilter_nullAllowed,
      floatingPointRangeToFilter_nullAllowed, varcharRangeToFilter_nullAllowed.
Qed.

(** X1.  Every filter the compiler returns for a domain accepts null exactly
    when the domain allows nulls. *)
Theorem toFilter_null_acceptance :
  forall (domain : Domain) (filter : common.Filter),
    toFilter parseTypeSignature domain exprConverter = Ok filter ->
    common.testNull filter = nullAllowed domain.
Proof.
  intros [values nullAllowed] filter. unfold toFilter.
  cbn [protocol.values protocol.nullAllowed]. intros H.
  destruct values as [sig ranges|sig entries|sig all|];
    [|destruct entries; [destruct nullAllowed; by simplify_eq|done]|done ..].
  apply bind_Ok in H as (type & Htype & H).
  destruct ranges as [|range [|range2 rest]].
  - apply bind_Ok in H as ([] & Hcheck & H). simplify_eq.
    by destruct nullAllowed.
  - destruct (_ && _ && negb nullAllowed) eqn:Hc.
    + simplify_eq. apply andb_true_iff in Hc as [_ Hn].
      by destruct nullAllowed.
    + by eapply toFilter_range_nullAllowed.
  - repeat
      match type of H with
      | (if ?c then _ else _) = Ok _ => destruct c eqn:?
      end.
    + apply bind_Ok in H as (fs & _ & H).
      by eapply combineIntegerRanges_nullAllowed.
    + apply bind_Ok in H as (fs & _ & H).
      by eapply combineBytesRanges_nullAllowed.
    + apply bind_Ok in H as (_ & _ & H).
      apply bind_Ok in H as ([f|] & Hloop & H); [|done]. simplify_eq.
      eapply boolRangesLoop_nullAllowed; [|exact Hloop]. done.
    + apply bind_Ok in H as (fs & _ & H). by simplify_eq.
Qed.


Lemma separatedAfter_rejects previous fs v :
  separatedAfter previous fs -> (v < previous + 2)%Z -> accepts fs v = false.
Proof.
  revert previous. induction fs as [|f fs IH]; intros previous Hsep Hv;
    [done|].
  destruct Hsep as (Hlo & Hle & Hhi & Hrest). cbn [existsb].
  rewrite (IH (common.upper f)) by (done || lia).
  unfold common.inRange.
  rewrite (bool_decide_eq_false_2 (common.lower f <= v)%Z) by lia. done.
Qed.

Lemma separatedAfter_max previous fs :
  separatedAfter previous fs -> (int64_max - 1 <= previous)%Z -> fs = [].
Proof. destruct fs as [|f fs]; [done|]. intros (? & ? & ? & _) ?. lia. Qed.

Lemma rejectedValuesLoop_sound rest :
  forall previous rejectedValues rejectedValues',
    separatedAfter (common.upper previous) rest ->
    (int64_min <= common.upper previous)%Z ->
    rejectedValuesLoop previous rest rejectedValues
    = (true, true, rejectedValues') ->
    exists rejected,
      rejectedValues' = rejectedValues ++ rejected /\
      (forall v, (v < common.upper previous + 2)%Z ->
         common.memZ v rejected = false) /\
      (forall v, (common.upper previous + 2 <= v <= int64_max)%Z ->
         common.memZ v rejected = negb (accepts rest v)).
Proof.
  assert (Hmin : int64_min = (- 2 ^ 63)%Z) by done.
  assert (Hmax : int64_max = (2 ^ 63 - 1)%Z) by done.
  induction rest as [|current rest IH];
    intros previous rejectedValues rejectedValues' Hsep Hprev Hloop;
    [discriminate|].
  destruct Hsep as (Hlo & Hle & Hhi & Hrest).
  cbn [rejectedValuesLoop] in Hloop.
  rewrite (wrap64_id (common.upper previous + 2)) in Hloop
    by (unfold is_int64; lia).
  case_bool_decide as Hstart; [|discriminate]. cbn [negb] in Hloop.
  case_bool_decide as Hatmax.
  { simplify_eq. exists []. rewrite app_nil_r.
    rewrite (separatedAfter_max _ _ Hrest) by lia.
    split; [done|]. split; [done|]. intros v Hv. cbn [existsb common.memZ].
    unfold common.inRange. rewrite !bool_decide_eq_true_2 by lia. done. }
  rewrite (wrap64_id (common.upper current + 1)) in Hloop
    by (unfold is_int64; lia).
  case_bool_decide as Hnearmax.
  { simplify_eq. exists [(common.upper current + 1)%Z].
    rewrite (separatedAfter_max _ _ Hrest) by lia.
    split; [done|]. split; intros v Hv; rewrite memZ_singleton.
    - apply bool_decide_eq_false_2. lia.
    - cbn [existsb]. unfold common.inRange. apply eq_true_iff_eq.
      bool_prop. lia. }
  destruct (IH _ _ _ Hrest ltac:(lia) Hloop) as (rej & -> & Hbelow & Hin).
  exists ((common.upper current + 1)%Z :: rej).
  rewrite <- app_assoc. split; [done|].
  split; intros v Hv; unfold common.memZ; cbn [existsb];
    fold (common.memZ v rej).
  - rewrite Hbelow by lia.
    rewrite (bool_decide_eq_false_2 (_ = v)) by lia. done.
  - destruct (decide (v < common.upper current + 2)%Z) as [Hlt|Hge].
    + rewrite (Hbelow v Hlt), (separatedAfter_rejects _ _ _ Hrest Hlt).
      unfold common.inRange. apply eq_true_iff_eq. bool_prop. lia.
    + rewrite (Hin v) by lia. destruct (accepts rest v);
        unfold common.inRange; apply eq_true_iff_eq; bool_prop; lia.
Qed.

(** X2.  For two or more converted integer ranges in ascending order, each
    non-empty and at least one value apart from the next, the combination
    never fails, and the filter it returns accepts an int64 value exactly
    when one of the ranges contains it, and null exactly when nulls are
    allowed. *)
Theorem combineIntegerRanges_union :
  forall (bigintFilters : list common.BigintRange) (nullAllowed : bool),
    (2 <= length bigintFilters)%nat ->
    separatedRanges bigintFilters ->
    exists filter,
      combineIntegerRanges bigintFilters nullAllowed = Ok filter /\
      (forall v : Z, is_int64 v ->
         common.testInt64 filter v
         = Some (existsb (fun r => common.inRange r v) bigintFilters)) /\
      common.testNull filter = nullAllowed.
Proof.
  intros fs nullAllowed Hlen Hsep.
  assert (Hmin : int64_min = (- 2 ^ 63)%Z) by done.
  assert (Hmax : int64_max = (2 ^ 63 - 1)%Z) by done.
  destruct fs as [|first [|second rest]]; [simpl in Hlen; lia ..|].
  destruct Hsep as (Hlo & Hle & Hhi & Hrest).
  pose proof Hrest as (Hlo' & Hle' & Hhi' & _).
  unfold combineIntegerRanges.
  destruct (forallb common.isSingleValue _) eqn:Hsingle.
  { eexists. split; [done|]. split; [|done]. intros v _.
    cbn [common.testInt64]. by rewrite allSingleValue_accepts. }
  destruct (bool_decide (length _ = 2%nat) && _ && _) eqn:Hnegated.
  - apply andb_true_iff in Hnegated as [[Hlen2 Hlo2]%andb_true_iff Hhi2].
    apply bool_decide_eq_true in Hlen2, Hlo2, Hhi2.
    destruct rest; [|done]. cbn in Hlo2, Hhi2. simplify_eq.
    cbn [at_index lookup list_lookup bind].
    rewrite !wrap64_id by (unfold is_int64; lia).
    unfold assert. rewrite bool_decide_eq_true_2 by lia. cbn [bind].
    eexists. split; [done|]. split; [|done].
    intros v Hv. unfold is_int64 in Hv.
    cbn [common.testInt64 existsb]. unfold common.inRange. f_equal.
    apply eq_true_iff_eq. bool_prop. lia.
  - clear Hnegated. unfold assert.
    rewrite bool_decide_eq_true_2 by (simpl; lia).
    cbn [bind at_index lookup list_lookup tail].
    case_bool_decide as Hfar.
    { eexists. split; [done|]. split; [|done]. done. }
    destruct (rejectedValuesLoop _ _ _) as [[allNegated foundMaximum] rej]
      eqn:Hloop.
    destruct (allNegated && foundMaximum) eqn:Hboth.
    2: { eexists. split; [done|]. split; [|done]. done. }
    apply andb_true_iff in Hboth as [-> ->].
    destruct (rejectedValuesLoop_sound _ _ _ _ Hrest ltac:(lia) Hloop)
      as (rejected & -> & Hbelow & Hin).
    eexists. split; [done|]. split; [|done].
    intros v Hv. unfold is_int64 in Hv.
    cbn [common.testInt64]. f_equal.
    change (accepts (first :: second :: rest) v)
      with (common.inRange first v || accepts (second :: rest) v).
    rewrite !memZ_app, memZ_singleton.
    rewrite wrap64_id by (unfold is_int64; lia).
    unfold common.inRange at 1.
    assert (common.memZ v
              (if bool_decide (common.lower first = int64_min + 1)%Z
               then [int64_min] else [])
            = bool_decide (common.lower first = int64_min + 1 /\
                           v = int64_min)%Z) as ->.
    { case_bool_decide as Hc; [rewrite memZ_singleton|cbn];
        apply eq_true_iff_eq; bool_prop; intuition lia. }
    destruct (decide (v < common.upper first + 2)%Z) as [Hlt|Hge].
    + rewrite (Hbelow v Hlt), (separatedAfter_rejects _ _ _ Hrest Hlt).
      apply eq_true_iff_eq. bool_prop. intuition lia.
    + rewrite (Hin v) by lia. destruct (accepts (second :: rest) v);
        apply eq_true_iff_eq; bool_prop; intuition lia.
Qed.

(** X3.  A single integer range whose bounds decode compiles to a filter that
    accepts an int64 value exactly when the range contains it. *)
Theorem toFilter_single_integer_range :
  forall (typeSignature : string) (type : TypePtr) (range : Range)
         (nullAllowed : bool) (lo hi : Z),
    stringToType parseTypeSignature typeSignature = Ok type ->
    isIntegerKind (kind type) = true ->
    leastValue exprConverter type range = Some lo ->
    greatestValue exprConverter type range = Some hi ->
    is_int64 lo -> is_int64 hi ->
    exists filter,
      toFilter parseTypeSignature
        {| values := SortedRangeSet typeSignature [range];
           nullAllowed := nullAllowed |}
        exprConverter = Ok filter /\
      (forall v : Z, is_int64 v ->
         common.testInt64 filter v
         = Some (rangeContains exprConverter type range v)) /\
      common.testNull filter = nullAllowed.
Proof.
  intros typeSignature type range nullAllowed lo hi Htype Hkind Hlo Hhi Il Ih.
  unfold toFilter. cbn [values protocol.nullAllowed]. rewrite Htype.
  cbn [bind].
  destruct (_ && _ && negb nullAllowed) eqn:Hc.
  - apply andb_true_iff in Hc as [[[Hl _]%andb_true_iff [Hh _]%andb_true_iff]
                                    %andb_true_iff Hn].
    exists common.IsNotNull. split; [done|]. split; [|by destruct nullAllowed].
    intros v _. cbn [common.testInt64]. f_equal.
    unfold rangeContains, lowAdmits, highAdmits.
    destruct (valueBlock (low range)); [done|].
    by destruct (valueBlock (high range)).
  - unfold toFilter_range.
    rewrite (bigintRangeToFilter_bounds _ _ _ _ lo hi) by done.
    exists (common.BigintRangeFilter
              (common.Build_BigintRange lo hi nullAllowed)).
    split; [|split; [|done]].
    + unfold isIntegerKind in Hkind.
      destruct (kind type); try discriminate Hkind; done.
    + intros v Hv. cbn [common.testInt64]. f_equal.
      by rewrite (rangeContains_bounds _ _ _ lo hi).
Qed.

Lemma toBoolean_Some_inv block v :
  forall type, toBoolean block exprConverter type = Ok v ->
  exists b, block = Some b.
Proof. intros type. destruct block; [eauto | discriminate]. Qed.

(** X4.  Whenever a boolean range compiles, the filter accepts exactly the
    booleans the range contains. *)
Theorem boolRangeToFilter_contains :
  forall (type : TypePtr) (range : Range) (nullAllowed : bool)
         (filter : common.Filter),
    doubleBoundedInclusive range ->
    boolRangeToFilter range nullAllowed exprConverter type = Ok filter ->
    forall v : bool,
      testBool filter v
      = Some (boolRangeContains exprConverter type range v).
Proof.
  intros type range nullAllowed filter Hincl H v.
  unfold boolRangeContains, boolLowAdmits, boolHighAdmits.
  unfold doubleBoundedInclusive in Hincl.
  unfold boolRangeToFilter, VELOX_CHECK, VELOX_UNREACHABLE in H.
  destruct (valueBlock (low range)) as [bl|];
    destruct (valueBlock (high range)) as [bh|];
    cbn [isNullptr andb negb] in H.
  - destruct Hincl as [Hl Hh]; [done ..|].
    rewrite (bool_decide_eq_false_2 _ Hl), (bool_decide_eq_false_2 _ Hh).
    apply bind_Ok in H as (x & Hx & H). apply bind_Ok in H as (y & Hy & H).
    rewrite Hx, Hy. apply bind_Ok in H as ([] & Hc & H).
    destruct (bool_decide (x = y)) eqn:Hxy; [|discriminate Hc].
    apply bool_decide_eq_true in Hxy. simplify_eq.
    cbn [testBool]. f_equal. by destruct y, v.
  - destruct (bool_decide (bound (high range) = Bound.BELOW));
      cbn [andb negb] in H.
    + apply bind_Ok in H as (_ & _ & H). 
      apply bind_Ok in H as (_ & _ & H).
      apply bind_Ok in H as (x & Hx & H). rewrite Hx.
      destruct (bool_decide (bound (low range) = Bound.ABOVE)), x, nullAllowed;
        cbn in H; simplify_eq; by destruct v.
    + by apply bind_Ok in H as (x & Hx & H).
  - destruct (bool_decide (bound (low range) = Bound.ABOVE));
      cbn [andb negb] in H.
    + apply bind_Ok in H as (_ & _ & H).
      apply bind_Ok in H as (_ & _ & H).
      apply bind_Ok in H as (x & Hx & H). rewrite Hx.
      destruct (bool_decide (bound (high range) = Bound.BELOW)), x, nullAllowed;
        cbn in H; simplify_eq; by destruct v.
    + by apply bind_Ok in H as (x & Hx & H).
  - destruct (bool_decide (bound (low range) = Bound.ABOVE)),
      (bool_decide (bound (high range) = Bound.BELOW));
      cbn in H; done.
Qed.

(** X5.  For a type without a range filter, a non-empty range set compiles
    only in the is-not-null shape; every other domain is rejected with
    UnsupportedConstruct. *)
Theorem toFilter_unsupported_range_type :
  forall (typeSignature : string) (type : TypePtr) (ranges : list Range)
         (nullAllowed : bool),
    stringToType parseTypeSignature typeSignature = Ok type ->
    hasRangeFilter (kind type) = false ->
    ranges <> [] ->
    toFilter parseTypeSignature
      {| values := SortedRangeSet typeSignature ranges;
         nullAllowed := nullAllowed |}
      exprConverter
    = match ranges with
      | [range] =>
          if unboundedRange range && negb nullAllowed
          then Ok common.IsNotNull
          else Err UnsupportedConstruct "Unsupported range type: {}"
      | _ => Err UnsupportedConstruct "Unsupported range type: {}"
      end.
Proof.
  intros typeSignature type ranges nullAllowed Htype Hkind Hne.
  unfold toFilter. cbn [values protocol.nullAllowed]. rewrite Htype.
  cbn [bind].
  destruct ranges as [|range [|range2 rest]]; [done| |].
  - unfold unboundedRange. destruct (_ && _ && negb nullAllowed); [done|].
    unfold toFilter_range. by destruct (kind type).
  - unfold toFilter_range. by destruct (kind type).
Qed.

(** X6.  A range set without ranges accepts no value: it compiles to is-null
    when the domain allows nulls and is rejected with InvariantViolation
    when it does not. *)
Theorem toFilter_empty_range_set :
  forall (typeSignature : string) (type : TypePtr) (nullAllowed : bool),
    stringToType parseTypeSignature typeSignature = Ok type ->
    toFilter parseTypeSignature
      {| values := SortedRangeSet typeSignature [];
         nullAllowed := nullAllowed |}
      exprConverter
    = if nullAllowed then Ok common.IsNull
      else Err InvariantViolation "Unexpected always-false filter".
Proof.
  intros typeSignature type nullAllowed Htype.
  unfold toFilter. cbn [values protocol.nullAllowed]. rewrite Htype.
  by destruct nullAllowed.
Qed.

(** X7.  A boolean domain with more than two ranges is rejected with
    InvariantViolation before any range is decoded. *)
Theorem toFilter_boolean_range_count :
  forall (typeSignature : string) (type : TypePtr) (ranges : list Range)
         (nullAllowed : bool),
    stringToType parseTypeSignature typeSignature = Ok type ->
    kind type = TypeKind.BOOLEAN ->
    (2 < length ranges)%nat ->
    toFilter parseTypeSignature
      {| values := SortedRangeSet typeSignature ranges;
         nullAllowed := nullAllowed |}
      exprConverter
    = Err InvariantViolation "Multi bool ranges size can only be 2.".
Proof.
  intros typeSignature type ranges nullAllowed Htype Hkind Hlen.
  unfold toFilter. cbn [values protocol.nullAllowed]. rewrite Htype.
  cbn [bind].
  destruct ranges as [|r1 [|r2 [|r3 rest]]]; [simpl in Hlen; lia ..|].
  rewrite Hkind. done.
Qed.

Lemma toString_Some_inv block type s :
  toString block exprConverter type = Ok s -> exists b, block = Some b.
Proof. destruct block; [eauto | discriminate]. Qed.

Lemma bytesPoint_filter type range s nullAllowed :
  bytesPoint exprConverter type range s ->
  varcharRangeToFilter range nullAllowed exprConverter type
  = Ok (common.Build_BytesRange s false false s false false nullAllowed).
Proof.
  intros (Hlow & Hhigh & Hl & Hh). unfold varcharRangeToFilter.
  destruct (toString_Some_inv _ _ _ Hl) as [bl El].
  destruct (toString_Some_inv _ _ _ Hh) as [bh Eh].
  rewrite Hlow, Hhigh, El, Eh in *. cbn [isNullptr andb]. by rewrite Hl, Hh.
Qed.

Lemma combineBytesRanges_points (points : list string) (nullAllowed : bool) :
  combineBytesRanges
    (map (fun s =>
            common.Build_BytesRange s false false s false false nullAllowed)
         points)
    nullAllowed
  = Ok (common.BytesValues points nullAllowed).
Proof.
  unfold combineBytesRanges.
  assert (forallb common.BytesRange_isSingleValue
            (map (fun s =>
                    common.Build_BytesRange s false false s false false
                      nullAllowed) points)
          = true) as ->.
  { induction points as [|x l IH]; [done|]. cbn [map forallb].
    rewrite IH. unfold common.BytesRange_isSingleValue. simpl.
    by rewrite bool_decide_eq_true_2. }
  rewrite map_map. simpl. by rewrite map_id.
Qed.

(** X8.  A varchar domain with more than one range, all of them single
    points, compiles to the value-set filter over the points, in the order
    of the ranges. *)
Theorem toFilter_varchar_points :
  forall (typeSignature : string) (type : TypePtr) (ranges : list Range)
         (points : list string) (nullAllowed : bool),
    stringToType parseTypeSignature typeSignature = Ok type ->
    kind type = TypeKind.VARCHAR ->
    (1 < length ranges)%nat ->
    Forall2 (bytesPoint exprConverter type) ranges points ->
    toFilter parseTypeSignature
      {| values := SortedRangeSet typeSignature ranges;
         nullAllowed := nullAllowed |}
      exprConverter
    = Ok (common.BytesValues points nullAllowed).
Proof.
  intros typeSignature type ranges points nullAllowed Htype Hkind Hlen Hpts.
  unfold toFilter. cbn [values protocol.nullAllowed]. rewrite Htype.
  cbn [bind].
  destruct ranges as [|r1 [|r2 rest]]; [simpl in Hlen; lia ..|].
  rewrite Hkind. cbn [bool_decide decide_rel orb].
  simpl bool_decide. cbn [orb].
  rewrite (mapM_Forall2 _
             (fun r f => exists s, bytesPoint exprConverter type r s /\
                         f = common.Build_BytesRange s false false s false
                               false nullAllowed)
             _ (map (fun s =>
                       common.Build_BytesRange s false false s false false
                         nullAllowed) points)).
  - cbn [bind]. apply combineBytesRanges_points.
  - intros r f (s & Hs & ->). by apply bytesPoint_filter.
  - apply Forall2_fmap_r. eapply Forall2_impl; [exact Hpts|].
    intros r s Hs. simpl. eauto.
Qed.

Lemma excludes_filters type nullAllowed previous ranges values :
  excludes exprConverter type previous ranges values ->
  mapM (fun range => varcharRangeToFilter range nullAllowed exprConverter type)
       ranges
  = Ok (complementRanges previous values nullAllowed).
Proof.
  assert (Hlow : forall previous range,
            opensAfter exprConverter type previous (low range) ->
            bound (low range) = Bound.ABOVE /\
            isNullptr (valueBlock (low range)) = isNullptr previous /\
            (if isNullptr previous then Ok ""
             else toString (valueBlock (low range)) exprConverter type)
            = Ok (default "" previous)).
  { intros p range [Hb Hp]. split; [done|]. destruct p as [p|].
    - destruct (toString_Some_inv _ _ _ Hp) as [b Eb]. rewrite Eb in *.
      done.
    - by rewrite Hp. }
  induction 1 as [previous range Hopen Hhigh Hbound
                 |previous range rest value values Hopen Hbound Hvalue _ IH].
  - destruct (Hlow _ _ Hopen) as (Hb & Hn & Hl).
    cbn [mapM complementRanges]. unfold varcharRangeToFilter.
    rewrite Hb, Hn, Hhigh, Hbound.
    rewrite !(bool_decide_eq_true_2 (_ = _)) by done.
    cbn [isNullptr]. rewrite andb_true_r. cbn [andb]. rewrite Hl. done.
  - destruct (Hlow _ _ Hopen) as (Hb & Hn & Hl).
    cbn [mapM complementRanges]. unfold varcharRangeToFilter at 1.
    destruct (toString_Some_inv _ _ _ Hvalue) as [b Eb].
    rewrite Hb, Hn, Hbound.
    rewrite !(bool_decide_eq_true_2 (_ = _)) by done.
    rewrite andb_true_r, Hl. rewrite Eb in *.
    cbn [isNullptr andb bind]. rewrite Hvalue. cbn [bind]. by rewrite IH.
Qed.

Lemma complementRanges_boundaries values nullAllowed :
  forall previous lowerUnbounded upperUnbounded rejectedValues,
    bytesBoundariesLoop (complementRanges previous values nullAllowed)
      lowerUnbounded upperUnbounded
      (from_option (fun value => {[value]}) ∅ previous, rejectedValues)
    = ((if isNullptr previous then S lowerUnbounded else lowerUnbounded),
       S upperUnbounded,
       (∅, rejectedValues ++ option_list previous ++ values)).
Proof.
  induction values as [|value values IH];
    intros previous lowerUnbounded upperUnbounded rejectedValues;
    cbn [complementRanges bytesBoundariesLoop common.isLowerUnbounded
         common.isUpperUnbounded common.b_lower common.b_upper].
  - destruct previous as [p|]; cbn [isNullptr default from_option option_list].
    + unfold matchBoundary. rewrite decide_True by set_solver.
      rewrite difference_diag_L. by rewrite app_nil_r.
    + by rewrite !app_nil_r.
  - destruct previous as [p|]; cbn [isNullptr default from_option option_list].
    + unfold matchBoundary at 2. rewrite decide_True by set_solver.
      rewrite difference_diag_L.
      unfold matchBoundary. rewrite decide_False by set_solver.
      rewrite (left_id_L ∅ (∪)).
      rewrite (IH (Some value)). cbn [isNullptr option_list].
      by rewrite <- ?app_assoc.
    + unfold matchBoundary. rewrite decide_False by set_solver.
      rewrite (left_id_L ∅ (∪)).
      rewrite (IH (Some value)). cbn [isNullptr option_list].
      by rewrite <- ?app_assoc.
Qed.

Lemma complementRanges_exclusive previous values nullAllowed :
  forallb (fun range =>
             common.lowerExclusive range && common.upperExclusive range)
          (complementRanges previous values nullAllowed) = true.
Proof.
  revert previous. induction values as [|value values IH]; intros previous;
    [done|]. cbn [complementRanges forallb]. by rewrite IH.
Qed.

Lemma complementRanges_not_single previous values nullAllowed :
  forallb common.BytesRange_isSingleValue
          (complementRanges previous values nullAllowed) = false.
Proof. by destruct values. Qed.

(** X9.  The gaps of a varchar NOT IN list compile to the negated value-set
    filter over the excluded values, in the order of the list. *)
Theorem toFilter_varchar_not_in :
  forall (typeSignature : string) (type : TypePtr) (ranges : list Range)
         (values : list string) (nullAllowed : bool),
    stringToType parseTypeSignature typeSignature = Ok type ->
    kind type = TypeKind.VARCHAR ->
    excludes exprConverter type None ranges values ->
    values <> [] ->
    toFilter parseTypeSignature
      {| values := SortedRangeSet typeSignature ranges;
         nullAllowed := nullAllowed |}
      exprConverter
    = Ok (common.NegatedBytesValues values nullAllowed).
Proof.
  intros typeSignature type ranges values nullAllowed Htype Hkind Hex Hne.
  unfold toFilter. cbn [protocol.values protocol.nullAllowed].
  rewrite Htype. cbn [bind].
  pose proof (excludes_filters type nullAllowed _ _ _ Hex) as Hfilters.
  inversion Hex as [previous range Hopen Hhigh Hbound
                   |previous range rest value values' Hopen Hbound Hvalue
                      Hrest]; subst; [done|].
  destruct rest as [|range2 rest]; [inversion Hrest|].
  rewrite Hkind. simpl bool_decide. cbn [orb].
  rewrite Hfilters. cbn [bind]. unfold combineBytesRanges.
  rewrite complementRanges_not_single, complementRanges_exclusive.
  pose proof (complementRanges_boundaries (value :: values') nullAllowed None
                0%nat 0%nat []) as Hloop.
  cbn [from_option isNullptr option_list app] in Hloop. rewrite Hloop.
  done.
Qed.

End FilterInvariants.

(** ** Table handles: column and filter maps *)

Section TableHandleInvariants.

Variable parseTypeSignature : string -> result TypePtr.
Variable tpch_fromTableName : string -> result connector.tpch.Table.

Lemma emplace_lookup {V} (key : string) (value : V) (m : gmap string V)
    (k : string) :
  emplace key value m !! k
  = match m !! k with
    | Some v => Some v
    | None => if decide (key = k) then Some value else None
    end.
Proof.
  unfold emplace. destruct (m !! key) as [v|] eqn:Hkey.
  - destruct (m !! k) eqn:Hk; [done|].
    destruct (decide (key = k)) as [->|]; [congruence | done].
  - destruct (decide (key = k)) as [->|Hne].
    + by rewrite lookup_insert_eq, Hkey.
    + rewrite lookup_insert_ne by done. by destruct (m !! k).
Qed.

Lemma emplacePartitionColumns_lookup entries :
  forall m m',
    emplacePartitionColumns parseTypeSignature entries m = Ok m' ->
    (forall name column, m !! name = Some column ->
       m' !! name = Some column) /\
    (forall name, is_Some (m' !! name) <->
       is_Some (m !! name) \/ name ∈ map HiveColumnHandle_name entries).
Proof.
  clear tpch_fromTableName.
  induction entries as [|entry entries IH]; intros m m' H.
  - simpl in H. simplify_eq. split; [done|]. intros name.
    rewrite elem_of_nil. tauto.
  - cbn [emplacePartitionColumns] in H.
    apply bind_Ok in H as (columnHandle & _ & H).
    destruct (IH _ _ H) as [Hkeep Hdom]. split.
    + intros name column Hname. apply Hkeep.
      by rewrite emplace_lookup, Hname.
    + intros name. rewrite Hdom, emplace_lookup. cbn [map].
      rewrite elem_of_cons.
      destruct (m !! name); [by intuition eauto|].
      destruct (decide (HiveColumnHandle_name entry = name)) as [->|Hne].
      * by intuition eauto.
      * split; [intros [[? ?]|?]; [done|tauto]|].
        intros [[? ?]|[?|?]]; [done|congruence|tauto].
Qed.

Lemma partition_columns_added
    (tableHandle : TableHandle) (exprConverter : VeloxExprConverter)
    (partitionColumns partitionColumns' : gmap string connector.ColumnHandle)
    (handle : connector.ConnectorTableHandle) :
  toConnectorTableHandle parseTypeSignature tpch_fromTableName tableHandle
    exprConverter partitionColumns
  = Ok (handle, partitionColumns') ->
  (forall name column, partitionColumns !! name = Some column ->
     partitionColumns' !! name = Some column) /\
  (forall name, is_Some (partitionColumns' !! name) <->
     is_Some (partitionColumns !! name) \/
     name ∈ layoutPartitionColumnNames tableHandle).
Proof.
  intros H.
  unfold toConnectorTableHandle in H. unfold layoutPartitionColumnNames.
  destruct (connectorTableLayout tableHandle) as [hiveLayout|tpchLayout|tag];
    [| |done].
  - apply bind_Ok in H as (_ & _ & H).
    apply bind_Ok in H as (cols1 & Hcols & H).
    bind_inv H. simplify_eq.
    by apply emplacePartitionColumns_lookup.
  - bind_inv H. simplify_eq. split; [done|]. intros name.
    rewrite elem_of_nil. tauto.
Qed.

(** X10.  The translation of a table handle only adds to the column map it is
    given: every column already present keeps its handle, and the names it
    adds are those of the layout's partition columns. *)
Theorem toConnectorTableHandle_keeps_columns :
  forall (tableHandle : TableHandle) (exprConverter : VeloxExprConverter)
         (partitionColumns partitionColumns' :
            gmap string connector.ColumnHandle)
         (handle : connector.ConnectorTableHandle),
    toConnectorTableHandle parseTypeSignature tpch_fromTableName tableHandle
      exprConverter partitionColumns
    = Ok (handle, partitionColumns') ->
    (forall name column, partitionColumns !! name = Some column ->
       partitionColumns' !! name = Some column) /\
    (forall name, is_Some (partitionColumns' !! name) <->
       is_Some (partitionColumns !! name) \/
       name ∈ layoutPartitionColumnNames tableHandle).
Proof.
  intros tableHandle exprConverter cols cols' handle.
  apply partition_columns_added.
Qed.

Lemma toSubfieldFilters_lookup exprConverter domains :
  forall subfieldFilters result,
    toSubfieldFilters parseTypeSignature domains exprConverter subfieldFilters
    = Ok result ->
    NoDup (map fst domains) ->
    (forall subfield domain, (subfield, domain) ∈ domains ->
       exists filter,
         toFilter parseTypeSignature domain exprConverter = Ok filter /\
         result !! subfield = Some filter) /\
    (forall subfield, subfield ∉ map fst domains ->
       result !! subfield = subfieldFilters !! subfield).
Proof.
  induction domains as [|[key domain] domains IH];
    intros subfieldFilters result H Hnodup.
  - simpl in H. simplify_eq. split; [|done]. intros ? ? Hin.
    by apply elem_of_nil in Hin.
  - cbn [toSubfieldFilters fst snd] in H.
    apply bind_Ok in H as (filter & Hfilter & H).
    cbn [map fst] in Hnodup. apply NoDup_cons in Hnodup as [Hfresh Hnodup].
    destruct (IH _ _ H Hnodup) as [Hin Hout]. split.
    + intros subfield d [Heq|Hd]%elem_of_cons.
      * simplify_eq. exists filter. split; [done|].
        rewrite (Hout _ Hfresh). by rewrite lookup_insert_eq.
      * by apply Hin.
    + intros subfield Hnot. cbn [map fst] in Hnot.
      apply not_elem_of_cons in Hnot as [Hne Hnot].
      rewrite (Hout _ Hnot). by rewrite lookup_insert_ne.
Qed.

(** X11.  The hive table handle the translation returns has filter pushdown
    enabled and holds one subfield filter per domain of the layout: the
    compiled filter of that domain, and no filter for any other subfield. *)
Theorem toConnectorTableHandle_subfield_filters :
  forall (tableHandle : TableHandle) (hiveLayout : HiveTableLayoutHandle)
         (domains : list (string * Domain))
         (exprConverter : VeloxExprConverter)
         (partitionColumns partitionColumns' :
            gmap string connector.ColumnHandle)
         (handle : connector.ConnectorTableHandle),
    connectorTableLayout tableHandle = HiveLayout hiveLayout ->
    protocol.domains hiveLayout = Some domains ->
    NoDup (map fst domains) ->
    toConnectorTableHandle parseTypeSignature tpch_fromTableName tableHandle
      exprConverter partitionColumns
    = Ok (handle, partitionColumns') ->
    exists tableName subfieldFilters remainingFilter,
      handle = connector.HiveTableHandle (connectorId tableHandle) tableName
                 true subfieldFilters remainingFilter /\
      (forall subfield domain, (subfield, domain) ∈ domains ->
         exists filter,
           toFilter parseTypeSignature domain exprConverter = Ok filter /\
           subfieldFilters !! subfield = Some filter) /\
      (forall subfield, subfield ∉ map fst domains ->
         subfieldFilters !! subfield = None).
Proof.
  intros tableHandle hiveLayout domains exprConverter cols cols' handle
    Hlayout Hdomains Hnodup H.
  unfold toConnectorTableHandle in H. rewrite Hlayout, Hdomains in H.
  apply bind_Ok in H as (_ & _ & H).
  apply bind_Ok in H as (cols1 & _ & H). cbn [deref bind] in H.
  apply bind_Ok in H as (filters & Hfilters & H).
  bind_inv H. simplify_eq.
  destruct (toSubfieldFilters_lookup _ _ _ _ Hfilters Hnodup) as [Hin Hout].
  eexists _, filters, _. split; [done|]. split; [done|].
  intros subfield Hnot. by rewrite (Hout _ Hnot).
Qed.

(** X12.  The remaining filter of a returned hive table handle is the
    converted remaining predicate, except that a constant predicate is
    dropped; a constant predicate that is not the boolean true never yields
    a handle. *)
Theorem toConnectorTableHandle_remaining_filter :
  forall (tableHandle : TableHandle) (hiveLayout : HiveTableLayoutHandle)
         (exprConverter : VeloxExprConverter)
         (partitionColumns partitionColumns' :
            gmap string connector.ColumnHandle)
         (handle : connector.ConnectorTableHandle),
    connectorTableLayout tableHandle = HiveLayout hiveLayout ->
    toConnectorTableHandle parseTypeSignature tpch_fromTableName tableHandle
      exprConverter partitionColumns
    = Ok (handle, partitionColumns') ->
    exists converted tableName subfieldFilters,
      toVeloxExpr exprConverter (remainingPredicate hiveLayout)
      = Ok converted /\
      handle = connector.HiveTableHandle (connectorId tableHandle) tableName
                 true subfieldFilters
                 match converted with
                 | core.ConstantTypedExpr _ _ => None
                 | _ => Some converted
                 end /\
      (forall type value,
         converted = core.ConstantTypedExpr type value ->
         value = variant_bool true).
Proof.
  intros tableHandle hiveLayout exprConverter cols cols' handle Hlayout H.
  unfold toConnectorTableHandle in H. rewrite Hlayout in H.
  apply bind_Ok in H as (_ & _ & H).
  apply bind_Ok in H as (cols1 & _ & H).
  apply bind_Ok in H as (domains & _ & H).
  apply bind_Ok in H as (filters & _ & H).
  apply bind_Ok in H as (converted & Hconverted & H).
  apply bind_Ok in H as (remaining & Hremaining & H).
  apply bind_Ok in H as (hiveTableHandle & _ & H). simplify_eq.
  exists converted. eexists _, filters. split; [done|].
  destruct converted as [f|type value|type inputs name|type];
    try (simplify_eq; split; [done|]; by intros).
  apply bind_Ok in Hremaining as (b & Hb & Hremaining).
  apply bind_Ok in Hremaining as ([] & Hcheck & Hremaining). simplify_eq.
  split; [done|]. intros t v Heq. injection Heq as <- <-.
  destruct value as [|b'| | | | | |]; try discriminate Hb.
  simpl in Hb. simplify_eq. unfold VELOX_CHECK in Hcheck.
  destruct b; [done | discriminate Hcheck].
Qed.

End TableHandleInvariants.

(** ** Helpers of the plan translation *)

Lemma mapM_length {A B} (f : A -> result B) l l' :
  mapM f l = Ok l' -> length l' = length l.
Proof. intros H. symmetry. by eapply Forall2_length, mapM_Ok_Forall2. Qed.

Section HelperInvariants.

Variable parseTypeSignature : string -> result TypePtr.

(** X13.  The row type built from a list of variables has one column per
    variable that is not excluded, in the order of the list: the column's
    name is the variable's name and its type is the parsed type of the
    variable. *)
Theorem toRowType_columns :
  forall (variables : list VariableReferenceExpression)
         (excludeNames : gset string) (rowType : TypePtr),
    toRowType parseTypeSignature variables excludeNames = Ok rowType ->
    kind rowType = TypeKind.ROW /\
    names rowType
    = map name (filter (fun variable => name variable ∉ excludeNames)
                       variables) /\
    Forall2 (fun variable columnType =>
               stringToType parseTypeSignature (type variable)
               = Ok columnType)
            (filter (fun variable => name variable ∉ excludeNames) variables)
            (children rowType).
Proof.
  intros variables excludeNames rowType H. unfold toRowType in H.
  apply bind_Ok in H as (columns & Hcolumns & H). simplify_eq.
  split; [done|]. cbn [names children ROW].
  apply mapM_Ok_Forall2 in Hcolumns.
  induction Hcolumns as [|variable column kept columns Hcolumn _ [IHn IHc]];
    [by split|].
  apply bind_Ok in Hcolumn as (t & Ht & Hcolumn). simplify_eq.
  cbn [map fst snd]. split; [by rewrite IHn | by constructor].
Qed.

Lemma indexOf_Some name names i :
  indexOf name names = Some i ->
  names !! i = Some name /\
  forall j, (j < i)%nat -> names !! j <> Some name.
Proof.
  revert i. induction names as [|n names IH]; intros i H; [done|].
  cbn [indexOf] in H. case_bool_decide as Hn.
  - simplify_eq. split; [done|]. lia.
  - destruct (indexOf name names) as [i'|]; [|done]. simpl in H.
    simplify_eq. destruct (IH _ eq_refl) as [Hi Hfirst]. split; [done|].
    intros [|j] Hj; cbn; [congruence|]. apply Hfirst. lia.
Qed.

(** X14.  Every channel computed for a field is the position of the first
    column of the row type that carries the field's name. *)
Theorem toChannels_positions :
  forall (type : TypePtr) (fields : list core.FieldAccessTypedExpr)
         (channels : list Z),
    toChannels type fields = Ok channels ->
    Forall2 (fun field channel =>
               exists i : nat,
                 channel = Z.of_nat i /\
                 names type !! i = Some (core.fa_name field) /\
                 forall j, (j < i)%nat ->
                   names type !! j <> Some (core.fa_name field))
            fields channels.
Proof.
  intros type fields channels H. unfold toChannels in H.
  apply mapM_Ok_Forall2 in H. eapply Forall2_impl; [exact H|].
  intros field channel Hchannel. unfold getChildIdx in Hchannel.
  destruct (indexOf _ _) as [i|] eqn:Hi; [|done]. simplify_eq.
  exists i. split; [done|]. by apply indexOf_Some.
Qed.

Lemma partitionChannels_acc partitioningKeys inputType :
  forall keyChannels constValues keyChannels' constValues',
    partitionChannels partitioningKeys inputType keyChannels constValues
    = Ok (keyChannels', constValues') ->
    exists channels vectors,
      keyChannels' = keyChannels ++ channels /\
      constValues' = constValues ++ vectors /\
      Forall2 (fun expr channel => exprToChannel expr inputType = Ok channel)
              partitioningKeys channels /\
      Forall2 (fun constant vector =>
                 setCellFromVariant constant.1 constant.2 = Ok vector)
              (constantKeys partitioningKeys) vectors /\
      length vectors
      = length (filter (fun channel => channel = kConstantChannel) channels).
Proof.
  induction partitioningKeys as [|expr rest IH];
    intros keyChannels constValues keyChannels' constValues' H.
  - simpl in H. simplify_eq. exists [], []. rewrite !app_nil_r.
    repeat split; constructor.
  - cbn [partitionChannels] in H.
    apply bind_Ok in H as (channel & Hchannel & H).
    case_bool_decide as Hconstant.
    + destruct expr as [f|type value|type inputs name|type]; try done.
      apply bind_Ok in H as (vector & Hvector & H).
      destruct (IH _ _ _ _ H) as (cs & vs & -> & -> & Hcs & Hvs & Hlen).
      exists (channel :: cs), (vector :: vs). rewrite <- !app_assoc.
      split; [done|]. split; [done|]. split; [by constructor|].
      split; [by constructor|].
      rewrite filter_cons_True by done. simpl. by rewrite Hlen.
    + destruct (IH _ _ _ _ H) as (cs & vs & -> & -> & Hcs & Hvs & Hlen).
      exists (channel :: cs), vs. rewrite <- !app_assoc.
      split; [done|]. split; [done|]. split; [by constructor|].
      rewrite filter_cons_False by done. split; [|done].
      destruct expr as [f|type value|type inputs name|type]; try done.
      simpl in Hchannel. simplify_eq.
Qed.

(** X15.  The channels computed for the partitioning keys of a fragment hold
    one entry per key, the channel of that key, and the constant vectors hold
    one entry per constant key, the value of that key: there are as many
    vectors as constant channels. *)
Theorem partitionChannels_constants :
  forall (partitioningKeys : list core.TypedExpr) (inputType : TypePtr)
         (keyChannels : list Z) (constValues : list core.VectorPtr),
    partitionChannels partitioningKeys inputType [] []
    = Ok (keyChannels, constValues) ->
    Forall2 (fun expr channel => exprToChannel expr inputType = Ok channel)
            partitioningKeys keyChannels /\
    Forall2 (fun constant vector =>
               setCellFromVariant constant.1 constant.2 = Ok vector)
            (constantKeys partitioningKeys) constValues /\
    length constValues
    = length (filter (fun channel => channel = kConstantChannel)
                     keyChannels).
Proof.
  intros partitioningKeys inputType keyChannels constValues H.
  destruct (partitionChannels_acc _ _ _ _ _ _ H)
    as (cs & vs & -> & -> & Hcs & Hvs & Hlen).
  done.
Qed.

End HelperInvariants.

(** ** Local exchanges and the dispatcher *)

Section ExchangeInvariants.

Variable parseTypeSignature : string -> result TypePtr.
Variable parsePrestoTaskId : string -> result PrestoTaskId.
Variable exprConverter_ : VeloxExprConverter.
Variable lowerOther :
  OtherNode -> list core.PlanNode -> TableWriteInfo -> string ->
  result core.PlanNode.

Local Abbreviation lowerPlan :=
  (toVeloxQueryPlan parseTypeSignature parsePrestoTaskId exprConverter_
     lowerOther).

Lemma toVeloxQueryPlan_Exchange node sources tableWriteInfo taskId :
  lowerPlan (Exchange node sources) tableWriteInfo taskId
  = toVeloxQueryPlan_ExchangeNode parseTypeSignature exprConverter_ lowerPlan
      tableWriteInfo taskId node sources.
Proof. reflexivity. Qed.

(** X16.  An exchange that is not local is rejected as a user error, whatever
    its sources. *)
Theorem remote_exchange_rejected :
  forall (node : ExchangeNode) (sources : list PlanNode)
         (tableWriteInfo : TableWriteInfo) (taskId : string),
    scope node <> ExchangeNodeScope.LOCAL ->
    lowerPlan (Exchange node sources) tableWriteInfo taskId
    = Err UserError "Unsupported ExchangeNode scope".
Proof.
  intros node sources tableWriteInfo taskId Hscope.
  rewrite toVeloxQueryPlan_Exchange. unfold toVeloxQueryPlan_ExchangeNode.
  by rewrite bool_decide_eq_false_2.
Qed.

Lemma reorder_projection_types (outputType desired : TypePtr) projections :
  mapM (fun j =>
          let* t := childAt outputType j in
          let* n := nameOf desired j in
          Ok (core.FieldAccess (core.Build_FieldAccessTypedExpr t n)))
       (seq 0 (length (children outputType)))
  = Ok projections ->
  map core.TypedExpr_type projections = children outputType.
Proof.
  intros H. apply mapM_Ok_Forall2 in H.
  pose proof (Forall2_length _ _ _ H) as Hlen. rewrite length_seq in Hlen.
  apply list_eq. intros j. rewrite list_lookup_fmap.
  destruct (decide (j < length (children outputType))%nat) as [Hj|Hj].
  - destruct (Forall2_lookup_l _ _ _ j j H) as (p & Hp & Hproj).
    { by rewrite lookup_seq_lt. }
    rewrite Hp. cbn [fmap option_fmap option_map].
    apply bind_Ok in Hproj as (t & Ht & Hproj).
    apply bind_Ok in Hproj as (n & Hn & Hproj). simplify_eq.
    unfold childAt in Ht. destruct (children outputType !! j); by simplify_eq.
  - rewrite (lookup_ge_None_2 projections) by lia.
    by rewrite lookup_ge_None_2 by lia.
Qed.

Lemma reorderSource_outputType node outputType i sourceNode projected :
  reorderSource parseTypeSignature node outputType i sourceNode
  = Ok projected ->
  core.outputType projected = ROW (names outputType) (children outputType).
Proof.
  unfold reorderSource. intros H.
  apply bind_Ok in H as (input & _ & H).
  apply bind_Ok in H as (desired & _ & H).
  apply bind_Ok in H as (projections & Hprojections & H). simplify_eq.
  cbn [core.outputType].
  by rewrite (reorder_projection_types _ _ _ Hprojections).
Qed.

Lemma reorderSources_projected node outputType sourceNodes :
  forall i projected,
    reorderSources parseTypeSignature node outputType i sourceNodes
    = Ok projected ->
    length projected = length sourceNodes /\
    Forall (fun p => core.outputType p
                     = ROW (names outputType) (children outputType))
           projected.
Proof.
  induction sourceNodes as [|sourceNode rest IH]; intros i projected H.
  - simpl in H. by simplify_eq.
  - cbn [reorderSources] in H. apply bind_Ok in H as (p & Hp & H).
    apply bind_Ok in H as (ps & Hps & H). simplify_eq.
    destruct (IH _ _ Hps) as [Hlen Hall]. split; [simpl; lia|].
    constructor; [by eapply reorderSource_outputType | done].
Qed.

Lemma toRowType_ROW variables excludeNames rowType :
  toRowType parseTypeSignature variables excludeNames = Ok rowType ->
  ROW (names rowType) (children rowType) = rowType.
Proof.
  unfold toRowType. intros H. apply bind_Ok in H as (columns & _ & H).
  by simplify_eq.
Qed.

(** X17.  A local exchange without an ordering scheme lowers to a local
    partition node with one re-ordering projection per source; gather
    exchanges gather, repartitioning exchanges use the hash or the
    round-robin function of a fixed system partitioning, and nothing else is
    lowered: a replicating exchange, or a repartitioning one with another
    partitioning, never yields a node. *)
Theorem local_exchange_flavor :
  forall (node : ExchangeNode) (sources : list PlanNode)
         (tableWriteInfo : TableWriteInfo) (taskId : string)
         (lowered : core.PlanNode),
    orderingScheme node = None ->
    lowerPlan (Exchange node sources) tableWriteInfo taskId = Ok lowered ->
    exists type spec projected,
      lowered
      = core.LocalPartitionNode (Exchange_id node) type spec projected /\
      length projected = length sources /\
      match Exchange_type node with
      | ExchangeNodeType.GATHER =>
          type = core.LocalPartitionNodeType.kGather /\
          spec = core.GatherPartitionFunctionSpec
      | ExchangeNodeType.REPARTITION =>
          type = core.LocalPartitionNodeType.kRepartition /\
          ((isHashPartition node = true /\
            exists inputType keyChannels,
              spec = core.HashPartitionFunctionSpec inputType keyChannels [])
           \/
           (isHashPartition node = false /\
            isRoundRobinPartition node = true /\
            spec = core.RoundRobinPartitionFunctionSpec))
      | ExchangeNodeType.REPLICATE => False
      end.
Proof.
  intros node sources tableWriteInfo taskId lowered Hordering H.
  rewrite toVeloxQueryPlan_Exchange in H.
  unfold toVeloxQueryPlan_ExchangeNode in H. rewrite Hordering in H.
  apply bind_Ok in H as ([] & _ & H).
  apply bind_Ok in H as (sourceNodes & HsourceNodes & H).
  apply bind_Ok in H as (type & Htype & H).
  apply bind_Ok in H as (outputType & HoutputType & H).
  apply bind_Ok in H as (projected & Hprojected & H).
  apply mapM_length in HsourceNodes.
  destruct (reorderSources_projected _ _ _ _ _ Hprojected) as [Hlen _].
  assert (length projected = length sources) as Hcount by congruence.
  unfold isHashPartition, isRoundRobinPartition, isFixedPartition in *.
  unfold toLocalExchangeType, VELOX_UNSUPPORTED in Htype.
  destruct (Exchange_type node) eqn:Hexchange; [| |discriminate Htype];
    simplify_eq; simpl bool_decide in H; cbn [negb] in H.
  - injection H as <-.
    eexists _, _, projected. split; [reflexivity|]. done.
  - destruct (handle _) as [h| |]; [|done ..].
    destruct (bool_decide (sys_partitioning h = _)); cbn [negb] in *;
      [|done].
    destruct (bool_decide (sys_function h = SystemPartitionFunction.HASH));
      cbn [negb] in *.
    + apply bind_Ok in H as (partitionKeys & _ & H).
      apply bind_Ok in H as (keyChannels & _ & H). simplify_eq.
      eexists _, _, projected. split; [reflexivity|]. split; [done|].
      split; [done|]. left. eauto.
    + destruct (bool_decide (sys_function h = _)); cbn [negb] in *; [|done].
      simplify_eq. eexists _, _, projected. split; [reflexivity|].
      split; [done|]. split; [done|]. right. done.
Qed.

(** X18.  The node a local exchange without an ordering scheme lowers to, when
    it has a source, emits exactly the row type of the exchange's output
    layout. *)
Theorem local_exchange_output_type :
  forall (node : ExchangeNode) (sources : list PlanNode)
         (tableWriteInfo : TableWriteInfo) (taskId : string)
         (lowered : core.PlanNode),
    orderingScheme node = None ->
    sources <> [] ->
    lowerPlan (Exchange node sources) tableWriteInfo taskId = Ok lowered ->
    toRowType parseTypeSignature (outputLayout (partitioningScheme node)) ∅
    = Ok (core.outputType lowered).
Proof.
  intros node sources tableWriteInfo taskId lowered Hordering Hsources H.
  rewrite toVeloxQueryPlan_Exchange in H.
  unfold toVeloxQueryPlan_ExchangeNode in H. rewrite Hordering in H.
  apply bind_Ok in H as ([] & _ & H).
  apply bind_Ok in H as (sourceNodes & HsourceNodes & H).
  apply bind_Ok in H as (type & Htype & H).
  apply bind_Ok in H as (outputType & HoutputType & H).
  apply bind_Ok in H as (projected & Hprojected & H).
  apply mapM_length in HsourceNodes.
  destruct (reorderSources_projected _ _ _ _ _ Hprojected) as [Hlen Hall].
  destruct projected as [|first projected].
  { destruct sources; [done|]. simpl in *. lia. }
  apply Forall_cons in Hall as [Hfirst _].
  rewrite (toRowType_ROW _ _ _ HoutputType) in Hfirst.
  rewrite HoutputType. f_equal.
  repeat
    match type of H with
    | bind ?r _ = Ok _ =>
        let a := fresh "a" in
        let Ha := fresh "Ha" in
        apply bind_Ok in H as (a & Ha & H)
    | (if ?c then _ else _) = Ok _ => destruct c eqn:?
    end;
    by simplify_eq.
Qed.

(** X19.  A local exchange with an ordering scheme lowers to a local merge
    over the lowered sources as they are, with one sorting key and one sort
    order per entry of the scheme; neither the exchange type nor the
    partitioning is inspected. *)
Theorem local_exchange_merge :
  forall (node : ExchangeNode) (sources : list PlanNode)
         (ordering : OrderingScheme)
         (tableWriteInfo : TableWriteInfo) (taskId : string)
         (lowered : core.PlanNode),
    orderingScheme node = Some ordering ->
    lowerPlan (Exchange node sources) tableWriteInfo taskId = Ok lowered ->
    exists sortingKeys sourceNodes,
      lowered
      = core.LocalMergeNode (Exchange_id node) sortingKeys
          (map (fun entry => toVeloxSortOrder (sortOrder entry))
               (orderBy ordering))
          sourceNodes /\
      Forall2 (fun entry key =>
                 toVeloxExpr_variable exprConverter_ (variable entry)
                 = Ok key)
              (orderBy ordering) sortingKeys /\
      Forall2 (fun source sourceNode =>
                 lowerPlan source tableWriteInfo taskId = Ok sourceNode)
              sources sourceNodes.
Proof.
  intros node sources ordering tableWriteInfo taskId lowered Hordering H.
  rewrite toVeloxQueryPlan_Exchange in H.
  unfold toVeloxQueryPlan_ExchangeNode in H. rewrite Hordering in H.
  apply bind_Ok in H as ([] & _ & H).
  apply bind_Ok in H as (sourceNodes & HsourceNodes & H).
  apply bind_Ok in H as (sortingKeys & HsortingKeys & H). simplify_eq.
  exists sortingKeys, sourceNodes. split; [done|].
  split; by apply mapM_Ok_Forall2.
Qed.

Lemma lower_single_source_exchange node source tableWriteInfo taskId lowered :
  lowerPlan (Exchange node [source]) tableWriteInfo taskId = Ok lowered ->
  exists lowered', lowerPlan source tableWriteInfo taskId = Ok lowered'.
Proof.
  intros H. rewrite toVeloxQueryPlan_Exchange in H.
  unfold toVeloxQueryPlan_ExchangeNode in H.
  apply bind_Ok in H as ([] & _ & H).
  apply bind_Ok in H as (sourceNodes & HsourceNodes & H).
  cbn [mapM] in HsourceNodes.
  apply bind_Ok in HsourceNodes as (lowered' & Hlowered' & _). eauto.
Qed.

(** X20.  A Project node on top of the offset/limit chain of nodes is lowered
    through the offset/limit rewrite or not at all: the generic lowering
    never succeeds on it, since the chain ends in a RowNumber node. *)
Theorem offset_limit_chain_needs_rewrite :
  forall (node : ProjectNode) (exchangeBeforeProject : ExchangeNode)
         (limit : LimitNode) (exchangeBeforeLimit : ExchangeNode)
         (filter : FilterNode) (exchangeBeforeFilter : ExchangeNode)
         (rowNumber : RowNumberNode) (rowNumberSource : PlanNode)
         (tableWriteInfo : TableWriteInfo) (taskId : string)
         (lowered : core.PlanNode),
    let source :=
      Exchange exchangeBeforeProject
        [Limit limit
           (Exchange exchangeBeforeLimit
              [Filter filter
                 (Exchange exchangeBeforeFilter
                    [RowNumber rowNumber rowNumberSource])])] in
    lowerPlan (Project node source) tableWriteInfo taskId = Ok lowered ->
    tryConvertOffsetLimit exprConverter_ lowerPlan tableWriteInfo taskId
      node source
    = Ok (Some lowered).
Proof.
  intros node e1 limit e2 filter e3 rowNumber rowNumberSource tableWriteInfo
    taskId lowered source H.
  change (toVeloxQueryPlan_ProjectNode exprConverter_ lowerPlan
            tableWriteInfo taskId node source = Ok lowered) in H.
  unfold toVeloxQueryPlan_ProjectNode in H.
  apply bind_Ok in H as (rewritten & Hrewritten & H).
  destruct rewritten as [rewritten|]; [by simplify_eq|]. exfalso.
  apply bind_Ok in H as (projections & _ & H).
  apply bind_Ok in H as (source' & Hsource & _).
  apply lower_single_source_exchange in Hsource as [l1 Hl1].
  change (toVeloxQueryPlan_LimitNode lowerPlan tableWriteInfo taskId limit
            (Exchange e2 [Filter filter
                            (Exchange e3 [RowNumber rowNumber
                                            rowNumberSource])]) = Ok l1)
    in Hl1.
  unfold toVeloxQueryPlan_LimitNode in Hl1.
  apply bind_Ok in Hl1 as (l2 & Hl2 & _).
  apply lower_single_source_exchange in Hl2 as [l3 Hl3].
  change (toVeloxQueryPlan_FilterNode exprConverter_ lowerPlan tableWriteInfo
            taskId filter
            (Exchange e3 [RowNumber rowNumber rowNumberSource]) = Ok l3)
    in Hl3.
  unfold toVeloxQueryPlan_FilterNode in Hl3.
  apply bind_Ok in Hl3 as (predicate' & _ & Hl3).
  apply bind_Ok in Hl3 as (l4 & Hl4 & _).
  apply lower_single_source_exchange in Hl4 as [l5 Hl5].
  discriminate Hl5.
Qed.

End ExchangeInvariants.

Lemma append_inj_r (prefix a b : string) :
  String.append prefix a = String.append prefix b -> a = b.
Proof.
  induction prefix as [|c prefix IH]; simpl; [done|].
  intros H. injection H as H. by apply IH.
Qed.

Lemma append_fixpoint (a b : string) : String.append a b = a -> b = "".
Proof.
  induction a as [|c a IH]; simpl; [done|].
  intros H. injection H as H. by apply IH.
Qed.

Section ExchangeIds.

Variable parseTypeSignature : string -> result TypePtr.
Variable parsePrestoTaskId : string -> result PrestoTaskId.
Variable exprConverter_ : VeloxExprConverter.
Variable lowerOther :
  OtherNode -> list core.PlanNode -> TableWriteInfo -> string ->
  result core.PlanNode.

Local Abbreviation lowerPlan :=
  (toVeloxQueryPlan parseTypeSignature parsePrestoTaskId exprConverter_
     lowerOther).

Lemma reorderSources_ids node outputType sourceNodes :
  forall i projected,
    reorderSources parseTypeSignature node outputType i sourceNodes
    = Ok projected ->
    Forall2 (fun p id =>
               exists names projections source,
                 p = core.ProjectNode id names projections source)
            projected
            (map (fun j => String.append (Exchange_id node)
                             (String.append "." (pretty j)))
                 (seq i (length sourceNodes))).
Proof.
  induction sourceNodes as [|sourceNode rest IH]; intros i projected H.
  - simpl in H. simplify_eq. constructor.
  - cbn [reorderSources] in H. apply bind_Ok in H as (p & Hp & H).
    apply bind_Ok in H as (ps & Hps & H). simplify_eq.
    cbn [length seq map]. constructor; [|by apply IH].
    unfold reorderSource in Hp. 
    apply bind_Ok in Hp as (input & _ & Hp).
    apply bind_Ok in Hp as (desired & _ & Hp).
    apply bind_Ok in Hp as (projections & _ & Hp). simplify_eq. eauto.
Qed.

(** X21.  The re-ordering projections a local exchange without an ordering
    scheme puts on its sources carry pairwise different ids, none of them the
    id of the exchange: the id of the exchange followed by a dot and the
    position of the source. *)
Theorem local_exchange_projection_ids :
  forall (node : ExchangeNode) (sources : list PlanNode)
         (tableWriteInfo : TableWriteInfo) (taskId : string)
         (lowered : core.PlanNode),
    orderingScheme node = None ->
    lowerPlan (Exchange node sources) tableWriteInfo taskId = Ok lowered ->
    exists type spec projected ids,
      lowered
      = core.LocalPartitionNode (Exchange_id node) type spec projected /\
      Forall2 (fun p id =>
                 exists names projections source,
                   p = core.ProjectNode id names projections source)
              projected ids /\
      ids = map (fun j => String.append (Exchange_id node)
                            (String.append "." (pretty j)))
                (seq 0 (length sources)) /\
      NoDup ids /\
      Exchange_id node ∉ ids.
Proof.
  intros node sources tableWriteInfo taskId lowered Hordering H.
  change (toVeloxQueryPlan_ExchangeNode parseTypeSignature exprConverter_
            lowerPlan tableWriteInfo taskId node sources = Ok lowered) in H.
  unfold toVeloxQueryPlan_ExchangeNode in H. rewrite Hordering in H.
  apply bind_Ok in H as ([] & _ & H).
  apply bind_Ok in H as (sourceNodes & HsourceNodes & H).
  apply bind_Ok in H as (type & Htype & H).
  apply bind_Ok in H as (outputType & HoutputType & H).
  apply bind_Ok in H as (projected & Hprojected & H).
  apply mapM_length in HsourceNodes.
  apply reorderSources_ids in Hprojected. rewrite HsourceNodes in Hprojected.
  assert (exists type' spec,
            lowered = core.LocalPartitionNode (Exchange_id node) type' spec
                        projected) as (type' & spec & ->).
  { repeat
      match type of H with
      | bind ?r _ = Ok _ =>
          let a := fresh "a" in
          let Ha := fresh "Ha" in
          apply bind_Ok in H as (a & Ha & H)
      | (if ?c then _ else _) = Ok _ => destruct c eqn:?
      end;
      try discriminate H; injection H as <-; eauto. }
  eexists type', spec, projected, _.
  split; [done|]. split; [exact Hprojected|]. split; [done|]. split.
  - apply NoDup_fmap_2; [|apply NoDup_seq].
    intros i j Hij. apply append_inj_r, append_inj_r in Hij.
    by apply (inj pretty).
  - intros Hin. apply list_elem_of_fmap in Hin as (j & Hj & _).
    symmetry in Hj. by apply append_fixpoint in Hj.
Qed.

Lemma fieldProjections_types (type : TypePtr) :
  wellFormedRow type ->
  map core.TypedExpr_type (fieldProjections type) = children type.
Proof.
  unfold wellFormedRow, fieldProjections.
  generalize (names type) as ns. 
  induction (children type) as [|t ts IH]; intros [|n ns] Hlen;
    simplify_eq/=; [done|]. f_equal. by apply IH.
Qed.

(** X22.  Whatever its predicate, the plan that replaces a Filter over a
    Semi-Join emits the columns of the lowered probe side followed by the
    boolean flag column of the semi join. *)
Theorem filter_over_semi_join_columns :
  forall (node : FilterNode) (semiJoin : SemiJoinNode)
         (source filteringSource : PlanNode)
         (tableWriteInfo : TableWriteInfo) (taskId : string)
         (lowered : core.PlanNode),
    lowerPlan (Filter node (SemiJoin semiJoin source filteringSource))
      tableWriteInfo taskId = Ok lowered ->
    exists leftNode,
      lowerPlan source tableWriteInfo taskId = Ok leftNode /\
      (wellFormedRow (core.outputType leftNode) ->
       core.outputType lowered
       = ROW (names (core.outputType leftNode)
              ++ [name (semiJoinOutput semiJoin)])
             (children (core.outputType leftNode) ++ [BOOLEAN])).
Proof.
  intros node semiJoin source filteringSource tableWriteInfo taskId lowered H.
  change (toVeloxQueryPlan_FilterNode exprConverter_ lowerPlan tableWriteInfo
            taskId node (SemiJoin semiJoin source filteringSource)
          = Ok lowered) in H.
  unfold toVeloxQueryPlan_FilterNode in H.
  apply bind_Ok in H as (joinType & _ & H).
  apply bind_Ok in H as (leftKey & _ & H).
  apply bind_Ok in H as (rightKey & _ & H).
  apply bind_Ok in H as (leftNode & HleftNode & H).
  apply bind_Ok in H as (rightNode & _ & H).
  exists leftNode. split; [done|]. intros Hwf.
  destruct joinType as [joinType|].
  - apply bind_Ok in H as (projections & Hprojections & H). simplify_eq.
    rewrite (fieldProjections_loop _ Hwf) in Hprojections. simplify_eq.
    cbn [core.outputType]. rewrite map_app.
    by rewrite (fieldProjections_types _ Hwf).
  - apply bind_Ok in H as (filter & _ & H). by simplify_eq.
Qed.

End ExchangeIds.

(** ** Fragment assembler *)

Section FragmentInvariants.

Variable parseTypeSignature : string -> result TypePtr.
Variable parsePrestoTaskId : string -> result PrestoTaskId.
Variable exprConverter_ : VeloxExprConverter.
Variable lowerOther :
  OtherNode -> list core.PlanNode -> TableWriteInfo -> string ->
  result core.PlanNode.

Local Abbreviation lowerPlan :=
  (toVeloxQueryPlan parseTypeSignature parsePrestoTaskId exprConverter_
     lowerOther).
Local Abbreviation assemble :=
  (toVeloxQueryPlan_PlanFragment parseTypeSignature parsePrestoTaskId
     exprConverter_ lowerOther).

Lemma list_to_set_empty_inv (l : list string) :
  (list_to_set l : gset string) = ∅ -> l = [].
Proof.
  clear parseTypeSignature parsePrestoTaskId.
  destruct l as [|x l]; [done|]. intros Hempty.
  apply (f_equal (fun s : gset string => bool_decide (x ∈ s))) in Hempty.
  rewrite bool_decide_eq_true_2 in Hempty by set_solver.
  by rewrite bool_decide_eq_false_2 in Hempty by set_solver.
Qed.

Ltac fragment_inv H :=
  repeat
    match type of H with
    | bind ?r _ = Ok _ =>
        let a := fresh "a" in
        let Ha := fresh "Ha" in
        apply bind_Ok in H as (a & Ha & H)
    | (if ?c then _ else _) = Ok _ => destruct c eqn:?
    | match ?t with _ => _ end = Ok _ => destruct t eqn:?
    end.

(** X23.  Every fragment the assembler returns has a partitioned-output node
    at its root and carries the descriptor of the wire fragment: the
    converted execution strategy, the number of split groups and the set of
    grouped-execution scan nodes, which is not empty under grouped
    execution. *)
Theorem fragment_root_and_descriptor :
  forall (fragment : PlanFragment) (tableWriteInfo : TableWriteInfo)
         (taskId : string) (planFragment : core.PlanFragment),
    let descriptor := stageExecutionDescriptor fragment in
    assemble fragment tableWriteInfo taskId = Ok planFragment ->
    isPartitionedOutput (core.planNode planFragment) = true /\
    toStrategy (stageExecutionStrategy descriptor)
    = Ok (core.executionStrategy planFragment) /\
    core.numSplitGroups planFragment = totalLifespans descriptor /\
    core.groupedExecutionLeafNodeIds planFragment
    = list_to_set (groupedExecutionScanNodes descriptor) /\
    (core.executionStrategy planFragment = core.ExecutionStrategy.kGrouped ->
     groupedExecutionScanNodes descriptor <> []).
Proof.
  intros fragment tableWriteInfo taskId planFragment descriptor H.
  subst descriptor. unfold toVeloxQueryPlan_PlanFragment in H.
  apply bind_Ok in H as (strategy & Hstrategy & H).
  apply bind_Ok in H as ([] & Hgrouped & H).
  assert (strategy = core.ExecutionStrategy.kGrouped ->
          groupedExecutionScanNodes (stageExecutionDescriptor fragment) <> [])
    as Hscan.
  { intros -> Hnil. rewrite Hnil in Hgrouped. vm_compute in Hgrouped.
    discriminate Hgrouped. }
  clear Hgrouped.
  unfold toVeloxQueryPlan_OutputNode, VELOX_CHECK, VELOX_USER_CHECK,
    VELOX_UNSUPPORTED, VELOX_FAIL in H.
  fragment_inv H;
    repeat
      match goal with
      | Hx : bind _ _ = Ok _ |- _ => apply bind_Ok in Hx as (? & ? & Hx)
      end;
    simplify_eq; cbn; done.
Qed.


Lemma foldr_max_bounds (x : Z) (l : list Z) (lo hi : Z) :
  (lo <= x <= hi)%Z -> Forall (fun b => lo <= b <= hi)%Z l ->
  (lo <= foldr Z.max x l <= hi)%Z.
Proof. induction 2; simpl; lia. Qed.

(** X24.  A fragment whose root is not an Output node is assembled only for
    the partitionings the assembler has a case for. *)
Theorem fragment_supported_partitioning :
  forall (fragment : PlanFragment) (tableWriteInfo : TableWriteInfo)
         (taskId : string) (planFragment : core.PlanFragment),
    isOutputNode (root fragment) = false ->
    int32Buckets (PlanFragment_partitioningScheme fragment) ->
    assemble fragment tableWriteInfo taskId = Ok planFragment ->
    supportedPartitioning (PlanFragment_partitioningScheme fragment).
Proof.
  intros fragment tableWriteInfo taskId planFragment Hroot Hint32 H.
  unfold toVeloxQueryPlan_PlanFragment in H.
  apply bind_Ok in H as (strategy & _ & H).
  apply bind_Ok in H as ([] & _ & H).
  unfold supportedPartitioning. unfold int32Buckets in Hint32.
  assert (Hmin : int32_min = (- 2 ^ 31)%Z) by done.
  assert (Hmax : int32_max = (2 ^ 31 - 1)%Z) by done.
  destruct (root fragment) eqn:Hr; try discriminate Hroot;
    apply bind_Ok in H as (keys & _ & H);
    apply bind_Ok in H as (sourceNode & _ & H);
    apply bind_Ok in H as (channels & _ & H);
    apply bind_Ok in H as (outputType & _ & H);
    (destruct (handle _) as [h|h|?]; [| |done]);
    try (destruct (sys_partitioning h); try done;
         [ apply bind_Ok in H as ([] & Hcheck & _);
           unfold VELOX_CHECK in Hcheck; case_bool_decide; [|done];
           by left
         | destruct (sys_function h); try done; right; tauto ]);
    (destruct (bucketToPartition _) as [[|x l]|]; try done;
     cbn [deref max_element bind] in H; exists x, l; split; [done|];
     apply Forall_cons in Hint32 as [Hx Hl];
     pose proof (foldr_max_bounds x l _ _ Hx Hl) as Hbounds;
     case_bool_decide as Hsingle;
     [ right; unfold wrap32 in Hsingle;
       destruct (decide (foldr Z.max x l = int32_max)) as [Heq|Hne];
       [ rewrite Heq in Hsingle; by vm_compute in Hsingle
       | rewrite Z.mod_small in Hsingle by lia; lia ]
     | apply bind_Ok in H as ([] & Hcheck & _);
       unfold VELOX_USER_CHECK in Hcheck; case_bool_decide; [|done];
       by left ]).
Qed.

(** X25.  For a hive bucketing whose bucket function is not the
    hive-compatible one and whose buckets do not all map to partition 0, the
    assembly fails as a user error once the steps before the partitioning
    switch have succeeded. *)
Theorem hive_bucket_function_rejected :
  forall (fragment : PlanFragment) (tableWriteInfo : TableWriteInfo)
         (taskId : string) (executionStrategy : core.ExecutionStrategy.t)
         (partitioningKeys : list core.TypedExpr)
         (sourceNode : core.PlanNode)
         (channels : list Z * list core.VectorPtr) (outputType : TypePtr)
         (hivePartitioningHandle : HivePartitioningHandle)
         (bucket : Z) (buckets : list Z),
    let scheme := PlanFragment_partitioningScheme fragment in
    let descriptor := stageExecutionDescriptor fragment in
    isOutputNode (root fragment) = false ->
    toStrategy (stageExecutionStrategy descriptor) = Ok executionStrategy ->
    (executionStrategy = core.ExecutionStrategy.kGrouped ->
     groupedExecutionScanNodes descriptor <> []) ->
    toTypedExprs (Partitioning_arguments (partitioning scheme))
      exprConverter_ = Ok partitioningKeys ->
    lowerPlan (root fragment) tableWriteInfo taskId = Ok sourceNode ->
    partitionChannels partitioningKeys (core.outputType sourceNode) [] []
    = Ok channels ->
    toRowType parseTypeSignature (outputLayout scheme) ∅ = Ok outputType ->
    handle (partitioning scheme) = HiveHandle hivePartitioningHandle ->
    bucketFunctionType hivePartitioningHandle
    <> BucketFunctionType.HIVE_COMPATIBLE ->
    bucketToPartition scheme = Some (bucket :: buckets) ->
    int32Buckets scheme ->
    foldr Z.max bucket buckets <> 0%Z ->
    assemble fragment tableWriteInfo taskId
    = Err UserError "Unsupported Hive bucket function type: {}".
Proof.
  intros fragment tableWriteInfo taskId executionStrategy partitioningKeys
    sourceNode channels outputType h bucket buckets scheme descriptor Hroot
    Hstrategy Hgrouped Hkeys Hsource Hchannels Hlayout Hhandle Hfunction
    Hbuckets Hint32 Hmany.
  subst scheme descriptor. unfold toVeloxQueryPlan_PlanFragment.
  rewrite Hstrategy. cbn [bind].
  assert ((if bool_decide (executionStrategy = core.ExecutionStrategy.kGrouped)
           then VELOX_CHECK
                  (negb (bool_decide
                           (list_to_set
                              (groupedExecutionScanNodes
                                 (stageExecutionDescriptor fragment))
                            = (∅ : gset string))))
                  "groupedExecutionScanNodes cannot be empty if stage execution strategy is grouped execution"
           else Ok tt) = Ok tt) as ->.
  { case_bool_decide as Hg; [|done].
    rewrite bool_decide_eq_false_2; [done|].
    intros Hempty. apply (Hgrouped Hg). by apply list_to_set_empty_inv. }
  cbn [bind]. unfold int32Buckets in Hint32. rewrite Hbuckets in Hint32.
  apply Forall_cons in Hint32 as [Hx Hl].
  pose proof (foldr_max_bounds bucket buckets _ _ Hx Hl) as Hbounds.
  assert (Hmin : int32_min = (- 2 ^ 31)%Z) by done.
  assert (Hmax : int32_max = (2 ^ 31 - 1)%Z) by done.
  assert (wrap32 (foldr Z.max bucket buckets + 1) <> 1%Z) as Hwrap.
  { unfold wrap32.
    destruct (decide (foldr Z.max bucket buckets = int32_max)) as [Heq|Hne].
    - rewrite Heq. by vm_compute.
    - rewrite Z.mod_small by lia. lia. }
  destruct (root fragment) eqn:Hr; try discriminate Hroot;
    rewrite Hkeys; cbn [bind]; rewrite Hsource; cbn [bind];
    rewrite Hchannels; cbn [bind]; rewrite Hlayout; cbn [bind];
    rewrite Hhandle, Hbuckets; cbn [deref max_element bind];
    rewrite (bool_decide_eq_false_2 _ Hwrap);
    by rewrite (bool_decide_eq_false_2 _ Hfunction).
Qed.

End FragmentInvariants.

(** ** Table scans, joins and the batch converter *)

Section FurtherInvariants.

Variable parseTypeSignature : string -> result TypePtr.
Variable tpch_fromTableName : string -> result connector.tpch.Table.
Variable parsePrestoTaskId : string -> result PrestoTaskId.
Variable exprConverter_ : VeloxExprConverter.
Variable lowerOther :
  OtherNode -> list core.PlanNode -> TableWriteInfo -> string ->
  result core.PlanNode.

Local Abbreviation lowerPlan :=
  (toVeloxQueryPlan parseTypeSignature parsePrestoTaskId exprConverter_
     lowerOther).
Local Abbreviation assemble :=
  (toVeloxQueryPlan_PlanFragment parseTypeSignature parsePrestoTaskId
     exprConverter_ lowerOther).
Local Abbreviation lowerScan :=
  (toVeloxQueryPlan_TableScanNode parseTypeSignature tpch_fromTableName
     exprConverter_).
Local Abbreviation lowerJoin :=
  (toVeloxQueryPlan_JoinNode parseTypeSignature parsePrestoTaskId
     exprConverter_ lowerOther).
Local Abbreviation assembleBatch :=
  (VeloxBatchQueryPlanConverter_toVeloxQueryPlan parseTypeSignature
     parsePrestoTaskId exprConverter_ lowerOther).

Lemma emplaceAssignments_lookup entries :
  forall m m',
    emplaceAssignments parseTypeSignature entries m = Ok m' ->
    (forall name column, m !! name = Some column ->
       m' !! name = Some column) /\
    (forall name, is_Some (m' !! name) <->
       is_Some (m !! name) \/
       name ∈ map (fun entry => protocol.name entry.1) entries) /\
    (forall i variable column,
       entries !! i = Some (variable, column) ->
       m !! protocol.name variable = None ->
       (forall j entry, (j < i)%nat -> entries !! j = Some entry ->
          protocol.name entry.1 <> protocol.name variable) ->
       exists column' columnHandle,
         column = Some column' /\
         toColumnHandle parseTypeSignature column' = Ok columnHandle /\
         m' !! protocol.name variable = Some columnHandle).
Proof.
  clear tpch_fromTableName parsePrestoTaskId.
  induction entries as [|[v c] entries IH]; intros m m' H.
  - simpl in H. simplify_eq. split; [done|]. split.
    + intros name. rewrite elem_of_nil. tauto.
    + intros i ? ? Hi. by rewrite lookup_nil in Hi.
  - cbn [emplaceAssignments fst snd] in H.
    apply bind_Ok in H as (column' & Hcolumn' & H).
    apply bind_Ok in H as (columnHandle & HcolumnHandle & H).
    destruct (IH _ _ H) as (Hkeep & Hdom & Hfirst). split; [|split].
    + intros name column Hname. apply Hkeep.
      by rewrite emplace_lookup, Hname.
    + intros name. rewrite Hdom, emplace_lookup. cbn [map fst].
      rewrite elem_of_cons.
      destruct (m !! name); [by intuition eauto|].
      destruct (decide (protocol.name v = name)) as [->|Hne].
      * by intuition eauto.
      * split; [intros [[? ?]|?]; [done|tauto]|].
        intros [[? ?]|[?|?]]; [done|congruence|tauto].
    + intros [|i] variable column Hi Hfresh Hbefore.
      * cbn in Hi. simplify_eq. destruct column as [c'|]; [|done].
        simpl in Hcolumn'. simplify_eq.
        exists column', columnHandle. split; [done|]. split; [done|].
        apply Hkeep. rewrite emplace_lookup, Hfresh.
        by rewrite decide_True.
      * cbn in Hi. apply (Hfirst i variable column Hi).
        -- rewrite emplace_lookup, Hfresh. rewrite decide_False; [done|].
           apply (Hbefore 0%nat (v, c)); [lia|done].
        -- intros j entry Hj Hentry. apply (Hbefore (S j) entry); [lia|done].
Qed.

(** X26.  The assignments of a lowered table scan hold a column handle for
    the names of the node's assignments and of the layout's partition
    columns, and for no other name; under the name of an assignment they hold
    the translated handle of the first assignment with that name, also when
    the layout lists a partition column of the same name. *)
Theorem table_scan_assignments :
  forall (node : protocol'.TableScanNode) (scan : core'.TableScanNode),
    lowerScan node = Ok scan ->
    (forall name,
       is_Some (core'.assignments scan !! name) <->
       name ∈ map (fun entry => protocol.name entry.1)
                  (protocol'.TableScan_assignments node) \/
       name ∈ layoutPartitionColumnNames (protocol'.table node)) /\
    (forall i variable column,
       protocol'.TableScan_assignments node !! i = Some (variable, column) ->
       (forall j entry, (j < i)%nat ->
          protocol'.TableScan_assignments node !! j = Some entry ->
          protocol.name entry.1 <> protocol.name variable) ->
       exists column' columnHandle,
         column = Some column' /\
         toColumnHandle parseTypeSignature column' = Ok columnHandle /\
         core'.assignments scan !! protocol.name variable
         = Some columnHandle).
Proof.
  clear parsePrestoTaskId.
  intros node scan H. unfold toVeloxQueryPlan_TableScanNode in H.
  apply bind_Ok in H as (rowType & _ & H).
  apply bind_Ok in H as (assigned & Hassigned & H).
  apply bind_Ok in H as ([handle columns] & Hhandle & H). simplify_eq.
  cbn [core'.assignments fst snd].
  destruct (emplaceAssignments_lookup _ _ _ Hassigned)
    as (_ & Hdom & Hfirst).
  destruct (partition_columns_added _ _ _ _ _ _ _ Hhandle)
    as [Hkeep Hdom'].
  split.
  - intros name. rewrite Hdom', Hdom. rewrite lookup_empty.
    split; [intros [[[? ?]|?]|?]; [done|tauto|tauto] | tauto].
  - intros i variable column Hi Hbefore.
    destruct (Hfirst i variable column Hi (lookup_empty _) Hbefore)
      as (column' & columnHandle & -> & Hc & Hlookup).
    exists column', columnHandle. split; [done|]. split; [done|].
    by apply Hkeep.
Qed.

Lemma toJoinKeys_paired criteria leftKeys rightKeys :
  toJoinKeys exprConverter_ criteria = Ok (leftKeys, rightKeys) ->
  Forall2 (fun clause key =>
             toVeloxExpr_variable exprConverter_ (protocol'.left clause)
             = Ok key) criteria leftKeys /\
  Forall2 (fun clause key =>
             toVeloxExpr_variable exprConverter_ (protocol'.right clause)
             = Ok key) criteria rightKeys.
Proof.
  revert leftKeys rightKeys.
  induction criteria as [|clause criteria IH]; intros leftKeys rightKeys H.
  - simpl in H. simplify_eq. split; constructor.
  - cbn [toJoinKeys] in H. apply bind_Ok in H as (l & Hl & H).
    apply bind_Ok in H as (r & Hr & H).
    apply bind_Ok in H as ([ls rs] & Hkeys & H). simplify_eq.
    destruct (IH _ _ Hkeys). split; by constructor.
Qed.

(** X27.  A join lowers to a nested-loop join exactly when it is an inner
    join without criteria and without filter.  Every other join lowers to a
    hash join of the converted join type that is not null-aware, with one
    left key and one right key per criterion, in the order of the
    criteria. *)
Theorem join_lowering :
  forall (node : protocol'.JoinNode) (leftSource rightSource : PlanNode)
         (tableWriteInfo : TableWriteInfo) (taskId : string)
         (lowered : core'.JoinPlanNode),
    lowerJoin node leftSource rightSource tableWriteInfo taskId
    = Ok lowered ->
    exists leftNode rightNode outputType,
      lowerPlan leftSource tableWriteInfo taskId = Ok leftNode /\
      lowerPlan rightSource tableWriteInfo taskId = Ok rightNode /\
      toRowType parseTypeSignature (protocol'.Join_outputVariables node) ∅
      = Ok outputType /\
      if isCrossJoin node then
        lowered = core'.NestedLoopJoinNode (protocol'.Join_id node) leftNode
                    rightNode outputType
      else
        exists leftKeys rightKeys filter,
          lowered
          = core'.Core
              (core.HashJoinNode (protocol'.Join_id node)
                 (toJoinType (protocol'.Join_type node)) false leftKeys
                 rightKeys filter leftNode rightNode outputType) /\
          Forall2 (fun clause key =>
                     toVeloxExpr_variable exprConverter_
                       (protocol'.left clause) = Ok key)
                  (protocol'.criteria node) leftKeys /\
          Forall2 (fun clause key =>
                     toVeloxExpr_variable exprConverter_
                       (protocol'.right clause) = Ok key)
                  (protocol'.criteria node) rightKeys /\
          (filter = None <-> protocol'.filter node = None).
Proof.
  intros node leftSource rightSource tableWriteInfo taskId lowered H.
  unfold toVeloxQueryPlan_JoinNode in H.
  destruct (bool_decide (length _ = 0%nat) && _ && _) eqn:Hcross.
  - apply andb_true_iff in Hcross as [[Hc Hi]%andb_true_iff Hf].
    apply bool_decide_eq_true in Hc. apply bool_decide_eq_true in Hi.
    apply bind_Ok in H as (leftNode & HleftNode & H).
    apply bind_Ok in H as (rightNode & HrightNode & H).
    apply bind_Ok in H as (outputType & HoutputType & H). simplify_eq.
    exists leftNode, rightNode, outputType.
    split; [done|]. split; [done|]. split; [done|].
    unfold isCrossJoin. apply nil_length_inv in Hc. rewrite Hc.
    destruct (protocol'.Join_type node); try discriminate Hi.
    by destruct (protocol'.filter node).
  - apply bind_Ok in H as ([leftKeys rightKeys] & Hkeys & H).
    apply bind_Ok in H as (filter & Hfilter & H).
    apply bind_Ok in H as (leftNode & HleftNode & H).
    apply bind_Ok in H as (rightNode & HrightNode & H).
    apply bind_Ok in H as (outputType & HoutputType & H). simplify_eq.
    exists leftNode, rightNode, outputType.
    split; [done|]. split; [done|]. split; [done|].
    assert (isCrossJoin node = false) as ->.
    { unfold isCrossJoin. unfold isInnerJoin in Hcross.
      destruct (protocol'.criteria node); [|done].
      by destruct (protocol'.Join_type node), (protocol'.filter node). }
    exists leftKeys, rightKeys, filter. split; [done|].
    destruct (toJoinKeys_paired _ _ _ Hkeys). split; [done|].
    split; [done|].
    destruct (protocol'.filter node); [|by simplify_eq].
    apply bind_Ok in Hfilter as (? & ? & Hfilter). by simplify_eq.
Qed.

Variable shuffleName_ : string.

(** X28.  Without shuffle-write info the batch converter returns a fragment
    exactly when the base assembler returns one whose root is a
    partitioned-output node with one partition that neither broadcasts nor
    replicates nulls, and it returns that fragment unchanged. *)
Theorem batch_without_shuffle :
  forall (fragment : PlanFragment) (tableWriteInfo : TableWriteInfo)
         (taskId : string) (batchFragment : core'.PlanFragment),
    assembleBatch shuffleName_ None fragment tableWriteInfo taskId
    = Ok batchFragment <->
    exists planFragment id keys spec outputType source,
      assemble fragment tableWriteInfo taskId = Ok planFragment /\
      core.planNode planFragment
      = core.PartitionedOutputNode id keys 1 false false spec outputType
          source /\
      batchFragment
      = {| core'.planNode := core'.CoreRoot (core.planNode planFragment);
           core'.executionStrategy := core.executionStrategy planFragment;
           core'.numSplitGroups := core.numSplitGroups planFragment;
           core'.groupedExecutionLeafNodeIds :=
             core.groupedExecutionLeafNodeIds planFragment |}.
Proof.
  intros fragment tableWriteInfo taskId batchFragment.
  unfold VeloxBatchQueryPlanConverter_toVeloxQueryPlan. split.
  - intros H. apply bind_Ok in H as (planFragment & HplanFragment & H).
    destruct (core.planNode planFragment)
      as [| | | | | | | |id keys n b r spec t src|] eqn:Hroot; try done.
    apply bind_Ok in H as ([] & Hbroadcast & H).
    apply bind_Ok in H as ([] & Hreplicate & H).
    apply bind_Ok in H as ([] & Hcount & H). simplify_eq.
    unfold VELOX_USER_CHECK in *.
    destruct b; [done|]. destruct r; [done|].
    case_bool_decide; [|done]. simplify_eq.
    eexists planFragment, _, _, _, _, _. split; [done|]. split; [done|].
    by rewrite Hroot.
  - intros (planFragment & id & keys & spec & outputType & source
            & -> & Hroot & ->).
    cbn [bind]. by rewrite Hroot.
Qed.

(** X29.  With shuffle-write info the batch converter replaces the
    partitioned-output root of the base fragment, which must neither
    broadcast nor replicate nulls, by a shuffle write over a gather over a
    partition-and-serialize node that takes over the keys, the number of
    partitions, the output type, the source and the partition function of
    the replaced root; the descriptor of the fragment is kept. *)
Theorem batch_shuffle_chain :
  forall (serializedShuffleWriteInfo : string) (fragment : PlanFragment)
         (tableWriteInfo : TableWriteInfo) (taskId : string)
         (batchFragment : core'.PlanFragment),
    assembleBatch shuffleName_ (Some serializedShuffleWriteInfo) fragment
      tableWriteInfo taskId
    = Ok batchFragment <->
    exists planFragment id keys numPartitions spec outputType source,
      assemble fragment tableWriteInfo taskId = Ok planFragment /\
      core.planNode planFragment
      = core.PartitionedOutputNode id keys numPartitions false false spec
          outputType source /\
      batchFragment
      = {| core'.planNode :=
             core'.ShuffleWriteRoot
               {| operators.ShuffleWrite_id := "root";
                  operators.shuffleName := shuffleName_;
                  operators.serializedShuffleWriteInfo :=
                    serializedShuffleWriteInfo;
                  operators.ShuffleWrite_source :=
                    {| operators.Gather_id := "shuffle-gather";
                       operators.Gather_source :=
                         {| operators.PartitionAndSerialize_id :=
                              "shuffle-partition-serialize";
                            operators.keys := keys;
                            operators.numPartitions := numPartitions;
                            operators.outputType := outputType;
                            operators.source := source;
                            operators.partitionFunctionSpec := spec |} |} |};
           core'.executionStrategy := core.executionStrategy planFragment;
           core'.numSplitGroups := core.numSplitGroups planFragment;
           core'.groupedExecutionLeafNodeIds :=
             core.groupedExecutionLeafNodeIds planFragment |}.
Proof.
  intros info fragment tableWriteInfo taskId batchFragment.
  unfold VeloxBatchQueryPlanConverter_toVeloxQueryPlan. split.
  - intros H. apply bind_Ok in H as (planFragment & HplanFragment & H).
    destruct (core.planNode planFragment)
      as [| | | | | | | |id keys n b r spec t src|] eqn:Hroot; try done.
    apply bind_Ok in H as ([] & Hbroadcast & H).
    apply bind_Ok in H as ([] & Hreplicate & H). simplify_eq.
    unfold VELOX_USER_CHECK in *.
    destruct b; [done|]. destruct r; [done|].
    by eexists planFragment, _, _, _, _, _, _.
  - intros (planFragment & id & keys & n & spec & outputType & source
            & -> & Hroot & ->).
    cbn [bind]. by rewrite Hroot.
Qed.

(** X30.  A fragment with the broadcast function of the fixed system
    partitioning is rejected by the batch converter as a user error whenever
    the base assembler accepts it. *)
Theorem batch_rejects_broadcast :
  forall (serializedShuffleWriteInfo_ : option string)
         (fragment : PlanFragment) (tableWriteInfo : TableWriteInfo)
         (taskId : string) (planFragment : core.PlanFragment)
         (systemPartitioningHandle : SystemPartitioningHandle),
    isOutputNode (root fragment) = false ->
    handle (partitioning (PlanFragment_partitioningScheme fragment))
    = SystemHandle systemPartitioningHandle ->
    sys_partitioning systemPartitioningHandle = SystemPartitioning.FIXED ->
    sys_function systemPartitioningHandle
    = SystemPartitionFunction.BROADCAST ->
    assemble fragment tableWriteInfo taskId = Ok planFragment ->
    assembleBatch shuffleName_ serializedShuffleWriteInfo_ fragment
      tableWriteInfo taskId
    = Err UserError "Broadcast shuffle is not supported".
Proof.
  intros info fragment tableWriteInfo taskId planFragment h Hroot Hhandle
    Hpartitioning Hfunction H.
  unfold VeloxBatchQueryPlanConverter_toVeloxQueryPlan. rewrite H.
  cbn [bind]. unfold toVeloxQueryPlan_PlanFragment in H.
  apply bind_Ok in H as (strategy & _ & H).
  apply bind_Ok in H as ([] & _ & H).
  rewrite Hhandle, Hpartitioning, Hfunction in H.
  destruct (root fragment) eqn:Hr; try discriminate Hroot;
    apply bind_Ok in H as (keys & _ & H);
    apply bind_Ok in H as (sourceNode & _ & H);
    apply bind_Ok in H as (channels & _ & H);
    apply bind_Ok in H as (outputType & _ & H);
    by simplify_eq.
Qed.

End FurtherInvariants.

(** * The further properties on concrete inputs *)

Lemma toFilter_null_acceptance_witness :
  toFilter Fixture.parseTypeSignature Fixture.threePoints
    Fixture.exprConverter
  = Ok (common.BigintValues [3; 5; 8]%Z false) /\
  common.testNull (common.BigintValues [3; 5; 8]%Z false)
  = nullAllowed Fixture.threePoints.
Proof.
  split; [vm_compute; reflexivity|].
  apply (toFilter_null_acceptance Fixture.parseTypeSignature
           Fixture.exprConverter Fixture.threePoints).
  vm_compute; reflexivity.
Defined.

Lemma combineIntegerRanges_union_witness :
  ((2 <= length Sample.threeRanges)%nat /\
   separatedRanges Sample.threeRanges) /\
  exists filter,
    combineIntegerRanges Sample.threeRanges false = Ok filter /\
    (forall v : Z, is_int64 v ->
       common.testInt64 filter v
       = Some (existsb (fun r => common.inRange r v) Sample.threeRanges)) /\
    common.testNull filter = false.
Proof.
  assert (separatedRanges Sample.threeRanges) as Hseparated.
  { cbn. unfold int64_min, int64_max. lia. }
  split; [split; [simpl; lia | exact Hseparated]|].
  apply (combineIntegerRanges_union Sample.threeRanges false);
    [simpl; lia | exact Hseparated].
Defined.

Lemma toFilter_single_integer_range_witness :
  (stringToType Fixture.parseTypeSignature "bigint" = Ok BIGINT /\
   isIntegerKind (kind BIGINT) = true /\
   leastValue Fixture.exprConverter BIGINT Sample.aboveThreeToEight
   = Some 4%Z /\
   greatestValue Fixture.exprConverter BIGINT Sample.aboveThreeToEight
   = Some 8%Z /\
   is_int64 4 /\ is_int64 8) /\
  exists filter,
    toFilter Fixture.parseTypeSignature
      {| values := SortedRangeSet "bigint" [Sample.aboveThreeToEight];
         nullAllowed := true |}
      Fixture.exprConverter = Ok filter /\
    (forall v : Z, is_int64 v ->
       common.testInt64 filter v
       = Some (rangeContains Fixture.exprConverter BIGINT
                 Sample.aboveThreeToEight v)) /\
    common.testNull filter = true.
Proof.
  assert (is_int64 4 /\ is_int64 8) as [H4 H8].
  { unfold is_int64, int64_min, int64_max. lia. }
  split; [repeat split; try reflexivity; (apply H4 || apply H8)|].
  apply (toFilter_single_integer_range Fixture.parseTypeSignature
           Fixture.exprConverter "bigint" BIGINT Sample.aboveThreeToEight
           true 4 8); try reflexivity; done.
Defined.

Lemma boolRangeToFilter_contains_witness :
  (doubleBoundedInclusive Sample.belowTrue /\
   boolRangeToFilter Sample.belowTrue false Fixture.exprConverter BOOLEAN
   = Ok (common.BoolValue false false)) /\
  forall v : bool,
    testBool (common.BoolValue false false) v
    = Some (boolRangeContains Fixture.exprConverter BOOLEAN Sample.belowTrue
              v).
Proof.
  assert (doubleBoundedInclusive Sample.belowTrue) as Hinclusive.
  { intros Hlow. by destruct Hlow. }
  split; [split; [exact Hinclusive | reflexivity]|].
  apply (boolRangeToFilter_contains Fixture.exprConverter BOOLEAN
           Sample.belowTrue false (common.BoolValue false false));
    [exact Hinclusive | reflexivity].
Defined.

Lemma toFilter_varchar_points_witness :
  (stringToType Fixture.parseTypeSignature "varchar" = Ok Sample.VARCHAR /\
   Forall2 (bytesPoint Fixture.exprConverter Sample.VARCHAR)
     [Fixture.point "a"; Fixture.point "b"] ["a"; "b"]) /\
  toFilter Fixture.parseTypeSignature
    {| values :=
         SortedRangeSet "varchar" [Fixture.point "a"; Fixture.point "b"];
       nullAllowed := false |}
    Fixture.exprConverter
  = Ok (common.BytesValues ["a"; "b"] false).
Proof.
  assert (Forall2 (bytesPoint Fixture.exprConverter Sample.VARCHAR)
            [Fixture.point "a"; Fixture.point "b"] ["a"; "b"]) as Hpoints.
  { repeat (constructor; [repeat split; reflexivity|]). constructor. }
  split; [split; [reflexivity | exact Hpoints]|].
  apply (toFilter_varchar_points Fixture.parseTypeSignature
           Fixture.exprConverter "varchar" Sample.VARCHAR
           [Fixture.point "a"; Fixture.point "b"] ["a"; "b"] false);
    [reflexivity | reflexivity | simpl; lia | exact Hpoints].
Defined.

Lemma toFilter_varchar_not_in_witness :
  (stringToType Fixture.parseTypeSignature "varchar" = Ok Sample.VARCHAR /\
   excludes Fixture.exprConverter Sample.VARCHAR None Sample.notAorB
     ["a"; "b"]) /\
  toFilter Fixture.parseTypeSignature
    {| values := SortedRangeSet "varchar" Sample.notAorB;
       nullAllowed := true |}
    Fixture.exprConverter
  = Ok (common.NegatedBytesValues ["a"; "b"] true).
Proof.
  assert (excludes Fixture.exprConverter Sample.VARCHAR None Sample.notAorB
            ["a"; "b"]) as Hexcludes.
  { apply excludes_next; [by split | reflexivity | reflexivity |].
    apply excludes_next; [by split | reflexivity | reflexivity |].
    apply excludes_last; [by split | reflexivity | reflexivity]. }
  split; [split; [reflexivity | exact Hexcludes]|].
  apply (toFilter_varchar_not_in Fixture.parseTypeSignature
           Fixture.exprConverter "varchar" Sample.VARCHAR Sample.notAorB
           ["a"; "b"] true);
    [reflexivity | reflexivity | exact Hexcludes | discriminate].
Defined.

Lemma toFilter_unsupported_range_type_witness :
  (stringToType Sample.parseTimestamp "timestamp"
   = Ok (scalar TypeKind.TIMESTAMP) /\
   hasRangeFilter TypeKind.TIMESTAMP = false) /\
  toFilter Sample.parseTimestamp
    {| values := SortedRangeSet "timestamp" [Sample.everything];
       nullAllowed := false |}
    Fixture.exprConverter
  = Ok common.IsNotNull /\
  toFilter Sample.parseTimestamp
    {| values := SortedRangeSet "timestamp" [Sample.everything];
       nullAllowed := true |}
    Fixture.exprConverter
  = Err UnsupportedConstruct "Unsupported range type: {}".
Proof.
  split; [split; reflexivity|].
  split.
  - apply (toFilter_unsupported_range_type Sample.parseTimestamp
             Fixture.exprConverter "timestamp" (scalar TypeKind.TIMESTAMP)
             [Sample.everything] false);
      [reflexivity | reflexivity | discriminate].
  - apply (toFilter_unsupported_range_type Sample.parseTimestamp
             Fixture.exprConverter "timestamp" (scalar TypeKind.TIMESTAMP)
             [Sample.everything] true);
      [reflexivity | reflexivity | discriminate].
Defined.

Lemma toFilter_empty_range_set_witness :
  stringToType Fixture.parseTypeSignature "bigint" = Ok BIGINT /\
  toFilter Fixture.parseTypeSignature
    {| values := SortedRangeSet "bigint" []; nullAllowed := false |}
    Fixture.exprConverter
  = Err InvariantViolation "Unexpected always-false filter".
Proof.
  split; [reflexivity|].
  apply (toFilter_empty_range_set Fixture.parseTypeSignature
           Fixture.exprConverter "bigint" BIGINT false).
  reflexivity.
Defined.

Lemma toFilter_boolean_range_count_witness :
  (stringToType Fixture.parseTypeSignature "boolean" = Ok BOOLEAN /\
   kind BOOLEAN = TypeKind.BOOLEAN) /\
  toFilter Fixture.parseTypeSignature
    {| values :=
         SortedRangeSet "boolean"
           [Fixture.point "false"; Fixture.point "true";
            Fixture.point "true"];
       nullAllowed := false |}
    Fixture.exprConverter
  = Err InvariantViolation "Multi bool ranges size can only be 2.".
Proof.
  split; [split; reflexivity|].
  apply (toFilter_boolean_range_count Fixture.parseTypeSignature
           Fixture.exprConverter "boolean" BOOLEAN
           [Fixture.point "false"; Fixture.point "true"; Fixture.point "true"]
           false);
    [reflexivity | reflexivity | simpl; lia].
Defined.

Lemma toConnectorTableHandle_keeps_columns_witness :
  toConnectorTableHandle Fixture.parseTypeSignature Fixture.fromTableName
    Sample.orders Fixture.exprConverter {["a" := Sample.aHandle]}
  = Ok (Sample.ordersHandle,
        <["ds" := Sample.dsHandle]> {["a" := Sample.aHandle]}) /\
  (forall name column,
     ({["a" := Sample.aHandle]} : gmap string connector.ColumnHandle)
       !! name = Some column ->
     (<["ds" := Sample.dsHandle]> {["a" := Sample.aHandle]}
        : gmap string connector.ColumnHandle) !! name = Some column) /\
  (forall name,
     is_Some ((<["ds" := Sample.dsHandle]> {["a" := Sample.aHandle]}
                 : gmap string connector.ColumnHandle) !! name) <->
     is_Some (({["a" := Sample.aHandle]}
                 : gmap string connector.ColumnHandle) !! name) \/
     name ∈ layoutPartitionColumnNames Sample.orders).
Proof.
  assert (toConnectorTableHandle Fixture.parseTypeSignature
            Fixture.fromTableName Sample.orders Fixture.exprConverter
            {["a" := Sample.aHandle]}
          = Ok (Sample.ordersHandle,
                <["ds" := Sample.dsHandle]> {["a" := Sample.aHandle]}))
    as Hhandle by (vm_compute; reflexivity).
  split; [exact Hhandle|].
  exact (toConnectorTableHandle_keeps_columns Fixture.parseTypeSignature
           Fixture.fromTableName Sample.orders Fixture.exprConverter _ _ _
           Hhandle).
Defined.

Lemma toConnectorTableHandle_subfield_filters_witness :
  (connectorTableLayout Sample.orders = HiveLayout Sample.ordersLayout /\
   domains Sample.ordersLayout = Some [("a", Fixture.threePoints)] /\
   NoDup (map fst [("a", Fixture.threePoints)]) /\
   toConnectorTableHandle Fixture.parseTypeSignature Fixture.fromTableName
     Sample.orders Fixture.exprConverter ∅
   = Ok (Sample.ordersHandle, {["ds" := Sample.dsHandle]})) /\
  exists tableName subfieldFilters remainingFilter,
    Sample.ordersHandle
    = connector.HiveTableHandle (connectorId Sample.orders) tableName true
        subfieldFilters remainingFilter /\
    (forall subfield domain,
       (subfield, domain) ∈ [("a", Fixture.threePoints)] ->
       exists filter,
         toFilter Fixture.parseTypeSignature domain Fixture.exprConverter
         = Ok filter /\
         subfieldFilters !! subfield = Some filter) /\
    (forall subfield, subfield ∉ map fst [("a", Fixture.threePoints)] ->
       subfieldFilters !! subfield = None).
Proof.
  assert (NoDup (map fst [("a", Fixture.threePoints)])) as Hnodup.
  { apply NoDup_singleton. }
  assert (toConnectorTableHandle Fixture.parseTypeSignature
            Fixture.fromTableName Sample.orders Fixture.exprConverter ∅
          = Ok (Sample.ordersHandle, {["ds" := Sample.dsHandle]}))
    as Hhandle by (vm_compute; reflexivity).
  split; [split; [reflexivity | split; [reflexivity | by split]]|].
  exact (toConnectorTableHandle_subfield_filters Fixture.parseTypeSignature
           Fixture.fromTableName Sample.orders Sample.ordersLayout
           [("a", Fixture.threePoints)] Fixture.exprConverter _ _ _
           eq_refl eq_refl Hnodup Hhandle).
Defined.

Lemma toConnectorTableHandle_remaining_filter_witness :
  (connectorTableLayout Sample.orders = HiveLayout Sample.ordersLayout /\
   toConnectorTableHandle Fixture.parseTypeSignature Fixture.fromTableName
     Sample.orders Fixture.exprConverter ∅
   = Ok (Sample.ordersHandle, {["ds" := Sample.dsHandle]})) /\
  exists converted tableName subfieldFilters,
    toVeloxExpr Fixture.exprConverter (remainingPredicate Sample.ordersLayout)
    = Ok converted /\
    Sample.ordersHandle
    = connector.HiveTableHandle (connectorId Sample.orders) tableName true
        subfieldFilters
        match converted with
        | core.ConstantTypedExpr _ _ => None
        | _ => Some converted
        end /\
    (forall type value,
       converted = core.ConstantTypedExpr type value ->
       value = variant_bool true).
Proof.
  assert (toConnectorTableHandle Fixture.parseTypeSignature
            Fixture.fromTableName Sample.orders Fixture.exprConverter ∅
          = Ok (Sample.ordersHandle, {["ds" := Sample.dsHandle]}))
    as Hhandle by (vm_compute; reflexivity).
  split; [by split|].
  exact (toConnectorTableHandle_remaining_filter Fixture.parseTypeSignature
           Fixture.fromTableName Sample.orders Sample.ordersLayout
           Fixture.exprConverter _ _ _ eq_refl Hhandle).
Defined.

Lemma toRowType_columns_witness :
  toRowType Fixture.parseTypeSignature Fixture.columns {["row_number"]}
  = Ok (ROW ["a"] [BIGINT]) /\
  kind (ROW ["a"] [BIGINT]) = TypeKind.ROW /\
  names (ROW ["a"] [BIGINT])
  = map name (filter (fun variable => name variable ∉
                                      ({["row_number"]} : gset string))
                     Fixture.columns) /\
  Forall2 (fun variable columnType =>
             stringToType Fixture.parseTypeSignature (type variable)
             = Ok columnType)
          (filter (fun variable => name variable ∉
                                   ({["row_number"]} : gset string))
                  Fixture.columns)
          (children (ROW ["a"] [BIGINT])).
Proof.
  assert (toRowType Fixture.parseTypeSignature Fixture.columns
            {["row_number"]} = Ok (ROW ["a"] [BIGINT])) as Hrow
    by (vm_compute; reflexivity).
  split; [exact Hrow|].
  exact (toRowType_columns Fixture.parseTypeSignature Fixture.columns _ _
           Hrow).
Defined.

Lemma toChannels_positions_witness :
  toChannels (ROW ["a"; "b"] [BIGINT; BIGINT]) [Sample.fieldB] = Ok [1%Z] /\
  Forall2 (fun field channel =>
             exists i : nat,
               channel = Z.of_nat i /\
               names (ROW ["a"; "b"] [BIGINT; BIGINT]) !! i
               = Some (core.fa_name field) /\
               forall j, (j < i)%nat ->
                 names (ROW ["a"; "b"] [BIGINT; BIGINT]) !! j
                 <> Some (core.fa_name field))
          [Sample.fieldB] [1%Z].
Proof.
  split; [reflexivity|].
  apply (toChannels_positions (ROW ["a"; "b"] [BIGINT; BIGINT])
           [Sample.fieldB] [1%Z]).
  reflexivity.
Defined.

Lemma partitionChannels_constants_witness :
  partitionChannels
    [core.FieldAccess Sample.fieldA;
     core.ConstantTypedExpr BIGINT (variant_integer TypeKind.BIGINT 7)]
    (ROW ["a"] [BIGINT]) [] []
  = Ok ([0%Z; kConstantChannel],
        [{| core.vector_type := BIGINT;
            core.cell := Some (variant_integer TypeKind.BIGINT 7) |}]) /\
  Forall2 (fun expr channel =>
             exprToChannel expr (ROW ["a"] [BIGINT]) = Ok channel)
          [core.FieldAccess Sample.fieldA;
           core.ConstantTypedExpr BIGINT (variant_integer TypeKind.BIGINT 7)]
          [0%Z; kConstantChannel] /\
  Forall2 (fun constant vector =>
             setCellFromVariant constant.1 constant.2 = Ok vector)
          (constantKeys
             [core.FieldAccess Sample.fieldA;
              core.ConstantTypedExpr BIGINT
                (variant_integer TypeKind.BIGINT 7)])
          [{| core.vector_type := BIGINT;
              core.cell := Some (variant_integer TypeKind.BIGINT 7) |}] /\
  length [{| core.vector_type := BIGINT;
             core.cell := Some (variant_integer TypeKind.BIGINT 7) |}]
  = length (filter (fun channel => channel = kConstantChannel)
                   [0%Z; kConstantChannel]).
Proof.
  split; [reflexivity|].
  apply (partitionChannels_constants
           [core.FieldAccess Sample.fieldA;
            core.ConstantTypedExpr BIGINT (variant_integer TypeKind.BIGINT 7)]
           (ROW ["a"] [BIGINT])).
  reflexivity.
Defined.

Lemma local_exchange_flavor_witness :
  (orderingScheme
     (Fixture.roundRobinExchange "6" [Fixture.bigintVariable "a"]) = None /\
   lower (Exchange
            (Fixture.roundRobinExchange "6" [Fixture.bigintVariable "a"])
            [Fixture.values "a"])
     Fixture.tableWriteInfo Fixture.taskId
   = Ok (core.LocalPartitionNode "6" core.LocalPartitionNodeType.kRepartition
           core.RoundRobinPartitionFunctionSpec
           [core.ProjectNode "6.0" ["a"] [core.FieldAccess Sample.fieldA]
              (Sample.loweredValues "a")])) /\
  exists type spec projected,
    core.LocalPartitionNode "6" core.LocalPartitionNodeType.kRepartition
      core.RoundRobinPartitionFunctionSpec
      [core.ProjectNode "6.0" ["a"] [core.FieldAccess Sample.fieldA]
         (Sample.loweredValues "a")]
    = core.LocalPartitionNode "6" type spec projected /\
    length projected = 1%nat /\
    type = core.LocalPartitionNodeType.kRepartition /\
    ((isHashPartition
        (Fixture.roundRobinExchange "6" [Fixture.bigintVariable "a"]) = true /\
      exists inputType keyChannels,
        spec = core.HashPartitionFunctionSpec inputType keyChannels [])
     \/
     (isHashPartition
        (Fixture.roundRobinExchange "6" [Fixture.bigintVariable "a"])
      = false /\
      isRoundRobinPartition
        (Fixture.roundRobinExchange "6" [Fixture.bigintVariable "a"])
      = true /\
      spec = core.RoundRobinPartitionFunctionSpec)).
Proof.
  split; [split; [reflexivity | vm_compute; reflexivity]|].
  apply (local_exchange_flavor Fixture.parseTypeSignature
           Fixture.parsePrestoTaskId Fixture.exprConverter Fixture.lowerOther
           (Fixture.roundRobinExchange "6" [Fixture.bigintVariable "a"])
           [Fixture.values "a"] Fixture.tableWriteInfo Fixture.taskId);
    [reflexivity | vm_compute; reflexivity].
Defined.

Lemma local_exchange_output_type_witness :
  (orderingScheme
     (Fixture.gatherExchange "4" [Fixture.bigintVariable "a"]) = None /\
   lower (Exchange (Fixture.gatherExchange "4" [Fixture.bigintVariable "a"])
            [Fixture.values "a"])
     Fixture.tableWriteInfo Fixture.taskId
   = Ok (core.LocalPartitionNode_gather "4"
           [core.ProjectNode "4.0" ["a"] [core.FieldAccess Sample.fieldA]
              (Sample.loweredValues "a")])) /\
  toRowType Fixture.parseTypeSignature
    (outputLayout
       (partitioningScheme
          (Fixture.gatherExchange "4" [Fixture.bigintVariable "a"]))) ∅
  = Ok (core.outputType
          (core.LocalPartitionNode_gather "4"
             [core.ProjectNode "4.0" ["a"] [core.FieldAccess Sample.fieldA]
                (Sample.loweredValues "a")])).
Proof.
  split; [split; [reflexivity | vm_compute; reflexivity]|].
  apply (local_exchange_output_type Fixture.parseTypeSignature
           Fixture.parsePrestoTaskId Fixture.exprConverter Fixture.lowerOther
           (Fixture.gatherExchange "4" [Fixture.bigintVariable "a"])
           [Fixture.values "a"] Fixture.tableWriteInfo Fixture.taskId);
    [reflexivity | discriminate | vm_compute; reflexivity].
Defined.

Lemma local_exchange_projection_ids_witness :
  (orderingScheme
     (Fixture.gatherExchange "4" [Fixture.bigintVariable "a"]) = None /\
   lower (Exchange (Fixture.gatherExchange "4" [Fixture.bigintVariable "a"])
            [Fixture.values "a"])
     Fixture.tableWriteInfo Fixture.taskId
   = Ok (core.LocalPartitionNode_gather "4"
           [core.ProjectNode "4.0" ["a"] [core.FieldAccess Sample.fieldA]
              (Sample.loweredValues "a")])) /\
  exists type spec projected ids,
    core.LocalPartitionNode_gather "4"
      [core.ProjectNode "4.0" ["a"] [core.FieldAccess Sample.fieldA]
         (Sample.loweredValues "a")]
    = core.LocalPartitionNode "4" type spec projected /\
    Forall2 (fun p id =>
               exists names projections source,
                 p = core.ProjectNode id names projections source)
            projected ids /\
    ids = map (fun j => String.append "4" (String.append "." (pretty j)))
              (seq 0 1) /\
    NoDup ids /\
    "4" ∉ ids.
Proof.
  split; [split; [reflexivity | vm_compute; reflexivity]|].
  apply (local_exchange_projection_ids Fixture.parseTypeSignature
           Fixture.parsePrestoTaskId Fixture.exprConverter Fixture.lowerOther
           (Fixture.gatherExchange "4" [Fixture.bigintVariable "a"])
           [Fixture.values "a"] Fixture.tableWriteInfo Fixture.taskId);
    [reflexivity | vm_compute; reflexivity].
Defined.

Lemma local_exchange_merge_witness :
  lower (Exchange Sample.mergeExchange [Fixture.values "a"])
    Fixture.tableWriteInfo Fixture.taskId
  = Ok (core.LocalMergeNode "8" [Sample.fieldA]
          [{| core.ascending := true; core.nullsFirst := false |}]
          [Sample.loweredValues "a"]) /\
  exists sortingKeys sourceNodes,
    core.LocalMergeNode "8" [Sample.fieldA]
      [{| core.ascending := true; core.nullsFirst := false |}]
      [Sample.loweredValues "a"]
    = core.LocalMergeNode "8" sortingKeys
        (map (fun entry => toVeloxSortOrder (sortOrder entry))
             [{| variable := Fixture.bigintVariable "a";
                 sortOrder := SortOrder.ASC_NULLS_LAST |}])
        sourceNodes /\
    Forall2 (fun entry key =>
               toVeloxExpr_variable Fixture.exprConverter (variable entry)
               = Ok key)
            [{| variable := Fixture.bigintVariable "a";
                sortOrder := SortOrder.ASC_NULLS_LAST |}]
            sortingKeys /\
    Forall2 (fun source sourceNode =>
               lower source Fixture.tableWriteInfo Fixture.taskId
               = Ok sourceNode)
            [Fixture.values "a"] sourceNodes.
Proof.
  split; [vm_compute; reflexivity|].
  apply (local_exchange_merge Fixture.parseTypeSignature
           Fixture.parsePrestoTaskId Fixture.exprConverter Fixture.lowerOther
           Sample.mergeExchange [Fixture.values "a"]
           {| orderBy :=
                [{| variable := Fixture.bigintVariable "a";
                    sortOrder := SortOrder.ASC_NULLS_LAST |}] |}
           Fixture.tableWriteInfo Fixture.taskId);
    [reflexivity | vm_compute; reflexivity].
Defined.

Lemma offset_limit_chain_needs_rewrite_witness :
  lower Fixture.offsetLimitPlan Fixture.tableWriteInfo Fixture.taskId
  = Ok (core.ProjectNode "7" ["a"] [core.FieldAccess Sample.fieldA]
          (core.LimitNode "5" 5 10 false (Sample.loweredValues "a"))) /\
  tryConvertOffsetLimit Fixture.exprConverter lower Fixture.tableWriteInfo
    Fixture.taskId Fixture.dropRowNumber Fixture.offsetLimitSource
  = Ok (Some
          (core.ProjectNode "7" ["a"] [core.FieldAccess Sample.fieldA]
             (core.LimitNode "5" 5 10 false (Sample.loweredValues "a")))).
Proof.
  split; [vm_compute; reflexivity|].
  apply (offset_limit_chain_needs_rewrite Fixture.parseTypeSignature
           Fixture.parsePrestoTaskId Fixture.exprConverter Fixture.lowerOther
           Fixture.dropRowNumber
           (Fixture.roundRobinExchange "6" Fixture.columns) Fixture.limitTen
           (Fixture.gatherExchange "4" Fixture.columns) Fixture.offsetFilter
           (Fixture.gatherExchange "2" Fixture.columns) Fixture.rowNumberNode
           (Fixture.values "a") Fixture.tableWriteInfo Fixture.taskId).
  vm_compute; reflexivity.
Defined.

Lemma filter_over_semi_join_columns_witness :
  lower (Fixture.filterOverSemiJoin (VariableReference Fixture.flag))
    Fixture.tableWriteInfo Fixture.taskId
  = Ok (core.ProjectNode "3" ["a"; "flag"]
          [core.FieldAccess Sample.fieldA;
           core.ConstantTypedExpr BOOLEAN (variant_bool true)]
          (core.HashJoinNode "2" core.JoinType.kLeftSemiFilter false
             [Sample.fieldA] [Sample.fieldB] None (Sample.loweredValues "a")
             (Sample.loweredValues "b") (ROW ["a"] [BIGINT]))) /\
  exists leftNode,
    lower (Fixture.values "a") Fixture.tableWriteInfo Fixture.taskId
    = Ok leftNode /\
    (wellFormedRow (core.outputType leftNode) ->
     core.outputType
       (core.ProjectNode "3" ["a"; "flag"]
          [core.FieldAccess Sample.fieldA;
           core.ConstantTypedExpr BOOLEAN (variant_bool true)]
          (core.HashJoinNode "2" core.JoinType.kLeftSemiFilter false
             [Sample.fieldA] [Sample.fieldB] None (Sample.loweredValues "a")
             (Sample.loweredValues "b") (ROW ["a"] [BIGINT])))
     = ROW (names (core.outputType leftNode)
            ++ [name (semiJoinOutput Fixture.semiJoin)])
           (children (core.outputType leftNode) ++ [BOOLEAN])).
Proof.
  split; [vm_compute; reflexivity|].
  apply (filter_over_semi_join_columns Fixture.parseTypeSignature
           Fixture.parsePrestoTaskId Fixture.exprConverter Fixture.lowerOther
           {| Filter_id := "3"; predicate := VariableReference Fixture.flag |}
           Fixture.semiJoin (Fixture.values "a") (Fixture.values "b")
           Fixture.tableWriteInfo Fixture.taskId).
  vm_compute; reflexivity.
Defined.

Lemma fragment_root_and_descriptor_witness :
  assembleFragment Fixture.hashFragment Fixture.tableWriteInfo Fixture.taskId
  = Ok {| core.planNode :=
            core.PartitionedOutputNode_single "root" (ROW ["a"] [BIGINT])
              (Sample.loweredValues "a");
          core.executionStrategy := core.ExecutionStrategy.kUngrouped;
          core.numSplitGroups := 1;
          core.groupedExecutionLeafNodeIds := list_to_set [] |} /\
  isPartitionedOutput
    (core.PartitionedOutputNode_single "root" (ROW ["a"] [BIGINT])
       (Sample.loweredValues "a")) = true /\
  toStrategy
    (stageExecutionStrategy (stageExecutionDescriptor Fixture.hashFragment))
  = Ok core.ExecutionStrategy.kUngrouped /\
  1%Z = totalLifespans (stageExecutionDescriptor Fixture.hashFragment) /\
  (list_to_set [] : gset string)
  = list_to_set
      (groupedExecutionScanNodes
         (stageExecutionDescriptor Fixture.hashFragment)) /\
  (core.ExecutionStrategy.kUngrouped = core.ExecutionStrategy.kGrouped ->
   groupedExecutionScanNodes (stageExecutionDescriptor Fixture.hashFragment)
   <> []).
Proof.
  assert (assembleFragment Fixture.hashFragment Fixture.tableWriteInfo
            Fixture.taskId
          = Ok {| core.planNode :=
                    core.PartitionedOutputNode_single "root"
                      (ROW ["a"] [BIGINT]) (Sample.loweredValues "a");
                  core.executionStrategy := core.ExecutionStrategy.kUngrouped;
                  core.numSplitGroups := 1;
                  core.groupedExecutionLeafNodeIds := list_to_set [] |})
    as Hfragment by (vm_compute; reflexivity).
  split; [exact Hfragment|].
  exact (fragment_root_and_descriptor Fixture.parseTypeSignature
           Fixture.parsePrestoTaskId Fixture.exprConverter Fixture.lowerOther
           Fixture.hashFragment Fixture.tableWriteInfo Fixture.taskId _
           Hfragment).
Defined.

Lemma fragment_supported_partitioning_witness :
  (isOutputNode (root Sample.hashTwoWays) = false /\
   int32Buckets (PlanFragment_partitioningScheme Sample.hashTwoWays) /\
   assembleFragment Sample.hashTwoWays Fixture.tableWriteInfo Fixture.taskId
   = Ok {| core.planNode :=
             core.PartitionedOutputNode "root"
               [core.FieldAccess Sample.fieldA] 2 false false
               (core.HashPartitionFunctionSpec (ROW ["a"] [BIGINT]) [0%Z] [])
               (ROW ["a"] [BIGINT]) (Sample.loweredValues "a");
           core.executionStrategy := core.ExecutionStrategy.kUngrouped;
           core.numSplitGroups := 1;
           core.groupedExecutionLeafNodeIds := list_to_set [] |}) /\
  supportedPartitioning (PlanFragment_partitioningScheme Sample.hashTwoWays).
Proof.
  assert (int32Buckets (PlanFragment_partitioningScheme Sample.hashTwoWays))
    as Hbuckets.
  { unfold int32Buckets, int32_min, int32_max. cbn.
    repeat (constructor; [lia|]). constructor. }
  assert (assembleFragment Sample.hashTwoWays Fixture.tableWriteInfo
            Fixture.taskId
          = Ok {| core.planNode :=
                    core.PartitionedOutputNode "root"
                      [core.FieldAccess Sample.fieldA] 2 false false
                      (core.HashPartitionFunctionSpec (ROW ["a"] [BIGINT])
                         [0%Z] [])
                      (ROW ["a"] [BIGINT]) (Sample.loweredValues "a");
                  core.executionStrategy := core.ExecutionStrategy.kUngrouped;
                  core.numSplitGroups := 1;
                  core.groupedExecutionLeafNodeIds := list_to_set [] |})
    as Hfragment by (vm_compute; reflexivity).
  split; [split; [reflexivity | split; [exact Hbuckets | exact Hfragment]]|].
  exact (fragment_supported_partitioning Fixture.parseTypeSignature
           Fixture.parsePrestoTaskId Fixture.exprConverter Fixture.lowerOther
           Sample.hashTwoWays Fixture.tableWriteInfo Fixture.taskId _
           eq_refl Hbuckets Hfragment).
Defined.

Lemma hive_bucket_function_rejected_witness :
  (bucketFunctionType Sample.nativeBuckets
   <> BucketFunctionType.HIVE_COMPATIBLE /\
   int32Buckets (PlanFragment_partitioningScheme Sample.nativeTwoWays) /\
   foldr Z.max 0%Z [1; 0; 1]%Z <> 0%Z) /\
  assembleFragment Sample.nativeTwoWays Fixture.tableWriteInfo Fixture.taskId
  = Err UserError "Unsupported Hive bucket function type: {}".
Proof.
  assert (int32Buckets (PlanFragment_partitioningScheme Sample.nativeTwoWays))
    as Hbuckets.
  { unfold int32Buckets, int32_min, int32_max. cbn.
    repeat (constructor; [lia|]). constructor. }
  split; [split; [discriminate | split; [exact Hbuckets | discriminate]]|].
  apply (hive_bucket_function_rejected Fixture.parseTypeSignature
           Fixture.parsePrestoTaskId Fixture.exprConverter Fixture.lowerOther
           Sample.nativeTwoWays Fixture.tableWriteInfo Fixture.taskId
           core.ExecutionStrategy.kUngrouped
           [core.FieldAccess Sample.fieldA] (Sample.loweredValues "a")
           ([0%Z], []) (ROW ["a"] [BIGINT]) Sample.nativeBuckets
           0%Z [1; 0; 1]%Z);
    try reflexivity; try discriminate.
  exact Hbuckets.
Defined.

Lemma table_scan_assignments_witness :
  lowerTableScan Sample.scanOrders
  = Ok {| core'.TableScan_id := "0";
          core'.TableScan_outputType := ROW ["a"] [BIGINT];
          core'.tableHandle := Sample.ordersHandle;
          core'.assignments :=
            <["ds" := Sample.dsHandle]> {["a" := Sample.aHandle]} |} /\
  (forall name,
     is_Some ((<["ds" := Sample.dsHandle]> {["a" := Sample.aHandle]}
                 : gmap string connector.ColumnHandle) !! name) <->
     name ∈ map (fun entry => protocol.name entry.1)
                (protocol'.TableScan_assignments Sample.scanOrders) \/
     name ∈ layoutPartitionColumnNames (protocol'.table Sample.scanOrders)) /\
  (forall i variable column,
     protocol'.TableScan_assignments Sample.scanOrders !! i
     = Some (variable, column) ->
     (forall j entry, (j < i)%nat ->
        protocol'.TableScan_assignments Sample.scanOrders !! j = Some entry ->
        protocol.name entry.1 <> protocol.name variable) ->
     exists column' columnHandle,
       column = Some column' /\
       toColumnHandle Fixture.parseTypeSignature column' = Ok columnHandle /\
       (<["ds" := Sample.dsHandle]> {["a" := Sample.aHandle]}
          : gmap string connector.ColumnHandle) !! protocol.name variable
       = Some columnHandle).
Proof.
  assert (lowerTableScan Sample.scanOrders
          = Ok {| core'.TableScan_id := "0";
                  core'.TableScan_outputType := ROW ["a"] [BIGINT];
                  core'.tableHandle := Sample.ordersHandle;
                  core'.assignments :=
                    <["ds" := Sample.dsHandle]> {["a" := Sample.aHandle]} |})
    as Hscan by (vm_compute; reflexivity).
  split; [exact Hscan|].
  exact (table_scan_assignments Fixture.parseTypeSignature
           Fixture.fromTableName Fixture.exprConverter Sample.scanOrders _
           Hscan).
Defined.

Lemma join_lowering_witness :
  lowerJoinNode Sample.joinOnAB (Fixture.values "a") (Fixture.values "b")
    Fixture.tableWriteInfo Fixture.taskId
  = Ok (core'.Core
          (core.HashJoinNode "9" core.JoinType.kInner false [Sample.fieldA]
             [Sample.fieldB] None (Sample.loweredValues "a")
             (Sample.loweredValues "b")
             (ROW ["a"; "b"] [BIGINT; BIGINT]))) /\
  exists leftNode rightNode outputType,
    lower (Fixture.values "a") Fixture.tableWriteInfo Fixture.taskId
    = Ok leftNode /\
    lower (Fixture.values "b") Fixture.tableWriteInfo Fixture.taskId
    = Ok rightNode /\
    toRowType Fixture.parseTypeSignature
      (protocol'.Join_outputVariables Sample.joinOnAB) ∅ = Ok outputType /\
    exists leftKeys rightKeys filter,
      core'.Core
        (core.HashJoinNode "9" core.JoinType.kInner false [Sample.fieldA]
           [Sample.fieldB] None (Sample.loweredValues "a")
           (Sample.loweredValues "b") (ROW ["a"; "b"] [BIGINT; BIGINT]))
      = core'.Core
          (core.HashJoinNode (protocol'.Join_id Sample.joinOnAB)
             (toJoinType (protocol'.Join_type Sample.joinOnAB)) false
             leftKeys rightKeys filter leftNode rightNode outputType) /\
      Forall2 (fun clause key =>
                 toVeloxExpr_variable Fixture.exprConverter
                   (protocol'.left clause) = Ok key)
              (protocol'.criteria Sample.joinOnAB) leftKeys /\
      Forall2 (fun clause key =>
                 toVeloxExpr_variable Fixture.exprConverter
                   (protocol'.right clause) = Ok key)
              (protocol'.criteria Sample.joinOnAB) rightKeys /\
      (filter = None <-> protocol'.filter Sample.joinOnAB = None).
Proof.
  split; [vm_compute; reflexivity|].
  apply (join_lowering Fixture.parseTypeSignature Fixture.parsePrestoTaskId
           Fixture.exprConverter Fixture.lowerOther Sample.joinOnAB
           (Fixture.values "a") (Fixture.values "b") Fixture.tableWriteInfo
           Fixture.taskId).
  vm_compute; reflexivity.
Defined.

Lemma batch_without_shuffle_witness :
  assembleBatchFragment "shuffle" None Fixture.hashFragment
    Fixture.tableWriteInfo Fixture.taskId
  = Ok {| core'.planNode :=
            core'.CoreRoot
              (core.PartitionedOutputNode_single "root" (ROW ["a"] [BIGINT])
                 (Sample.loweredValues "a"));
          core'.executionStrategy := core.ExecutionStrategy.kUngrouped;
          core'.numSplitGroups := 1;
          core'.groupedExecutionLeafNodeIds := list_to_set [] |}.
Proof.
  apply (proj2
           (batch_without_shuffle Fixture.parseTypeSignature
              Fixture.parsePrestoTaskId Fixture.exprConverter
              Fixture.lowerOther "shuffle" Fixture.hashFragment
              Fixture.tableWriteInfo Fixture.taskId _)).
  eexists _, "root", [], core.GatherPartitionFunctionSpec,
    (ROW ["a"] [BIGINT]), (Sample.loweredValues "a").
  split; [vm_compute; reflexivity|]. split; reflexivity.
Defined.

Lemma batch_shuffle_chain_witness :
  assembleBatchFragment "shuffle" (Some "info") Sample.hashTwoWays
    Fixture.tableWriteInfo Fixture.taskId
  = Ok {| core'.planNode :=
            core'.ShuffleWriteRoot
              {| operators.ShuffleWrite_id := "root";
                 operators.shuffleName := "shuffle";
                 operators.serializedShuffleWriteInfo := "info";
                 operators.ShuffleWrite_source :=
                   {| operators.Gather_id := "shuffle-gather";
                      operators.Gather_source :=
                        {| operators.PartitionAndSerialize_id :=
                             "shuffle-partition-serialize";
                           operators.keys := [core.FieldAccess Sample.fieldA];
                           operators.numPartitions := 2;
                           operators.outputType := ROW ["a"] [BIGINT];
                           operators.source := Sample.loweredValues "a";
                           operators.partitionFunctionSpec :=
                             core.HashPartitionFunctionSpec
                               (ROW ["a"] [BIGINT]) [0%Z] [] |} |} |};
          core'.executionStrategy := core.ExecutionStrategy.kUngrouped;
          core'.numSplitGroups := 1;
          core'.groupedExecutionLeafNodeIds := list_to_set [] |}.
Proof.
  apply (proj2
           (batch_shuffle_chain Fixture.parseTypeSignature
              Fixture.parsePrestoTaskId Fixture.exprConverter
              Fixture.lowerOther "shuffle" "info" Sample.hashTwoWays
              Fixture.tableWriteInfo Fixture.taskId _)).
  eexists _, "root", [core.FieldAccess Sample.fieldA], 2%Z,
    (core.HashPartitionFunctionSpec (ROW ["a"] [BIGINT]) [0%Z] []),
    (ROW ["a"] [BIGINT]), (Sample.loweredValues "a").
  split; [vm_compute; reflexivity|]. split; reflexivity.
Defined.

Lemma batch_rejects_broadcast_witness :
  assembleFragment Sample.broadcastFragment Fixture.tableWriteInfo
    Fixture.taskId
  = Ok {| core.planNode :=
            core.PartitionedOutputNode_broadcast "root" 1
              (ROW ["a"] [BIGINT]) (Sample.loweredValues "a");
          core.executionStrategy := core.ExecutionStrategy.kUngrouped;
          core.numSplitGroups := 1;
          core.groupedExecutionLeafNodeIds := list_to_set [] |} /\
  assembleBatchFragment "shuffle" (Some "info") Sample.broadcastFragment
    Fixture.tableWriteInfo Fixture.taskId
  = Err UserError "Broadcast shuffle is not supported".
Proof.
  assert (assembleFragment Sample.broadcastFragment Fixture.tableWriteInfo
            Fixture.taskId
          = Ok {| core.planNode :=
                    core.PartitionedOutputNode_broadcast "root" 1
                      (ROW ["a"] [BIGINT]) (Sample.loweredValues "a");
                  core.executionStrategy := core.ExecutionStrategy.kUngrouped;
                  core.numSplitGroups := 1;
                  core.groupedExecutionLeafNodeIds := list_to_set [] |})
    as Hfragment by (vm_compute; reflexivity).
  split; [exact Hfragment|].
  exact (batch_rejects_broadcast Fixture.parseTypeSignature
           Fixture.parsePrestoTaskId Fixture.exprConverter Fixture.lowerOther
           "shuffle" (Some "info") Sample.broadcastFragment
           Fixture.tableWriteInfo Fixture.taskId _
           {| sys_partitioning := SystemPartitioning.FIXED;
              sys_function := SystemPartitionFunction.BROADCAST |}
           eq_refl eq_refl eq_refl eq_refl Hfragment).
Defined.

Lemma remote_exchange_rejected_witness :
  scope Sample.remoteExchange <> ExchangeNodeScope.LOCAL /\
  lower (Exchange Sample.remoteExchange [Fixture.values "a"])
    Fixture.tableWriteInfo Fixture.taskId
  = Err UserError "Unsupported ExchangeNode scope".
Proof.
  split; [discriminate|].
  apply (remote_exchange_rejected Fixture.parseTypeSignature
           Fixture.parsePrestoTaskId Fixture.exprConverter Fixture.lowerOther
           Sample.remoteExchange [Fixture.values "a"] Fixture.tableWriteInfo
           Fixture.taskId).
  discriminate.
Defined.
